(** * Server demise pipeline: stage processors and the cooling-period monitor

    A shallow embedding of the message-driven pipeline of
    [kafka-processors/processors]: the four stage processors
    ([ServerCheckProcessor], [ServerPowerOffProcessor],
    [ServerCoolingPeriodProcessor], [ServerDemiseProcessor]), the
    message-handling loop of [BaseProcessor] and the background monitor of
    the cooling stage.

    Modelling conventions.
    - A decoded JSON value is a [value]; a Python [dict] with string keys is
      an association list in insertion order, read by first match.  Floats
      are the rationals they stand for (rounding, NaN and infinities are not
      represented).  [VDatetime] is a [datetime] object, a number of
      microseconds; it never comes from JSON and [json.dumps] rejects it.
    - A message is a [dict] (the type excludes a top-level JSON value that
      is not an object).
    - A [string] is a Python [str] in its UTF-8 encoding.  [int], [upper]
      and [isascii] are computed on the strings of ASCII characters; on a
      string with another character [int] and [upper] are inputs, the
      answers of the interpreter's Unicode tables.
    - [datetime.now()], [uuid.uuid4()] and the [random] module are inputs:
      the [runtime] record gives the answer of the i-th call, the [world]
      counts the calls made so far.
    - Python code that can raise runs in the monad [M], which keeps the
      state reached when the exception was raised, as Python does.
    - [producer.send], session-map insertions and deletions, thread starts
      and entries into a simulated external action are recorded, in order,
      in the [trace] of the world.  [logger] calls and [time.sleep] have no
      effect on the modelled state and are left out; a failed broker send is
      swallowed by [_send_response] and is not distinguished. *)

From Stdlib Require Import String Ascii List ZArith QArith Bool Lia.
From Stdlib Require Import DecimalString.
Import ListNotations.
Local Open Scope string_scope.
Local Open Scope Z_scope.

(** ** Values *)

#[local] Set Warnings "-register-all".

Inductive value : Type :=
| VNone
| VBool (b : bool)
| VInt (n : Z)
| VFloat (q : Q)
| VStr (s : string)
| VDatetime (t : Z)
| VList (l : list value)
| VDict (d : list (string * value)).

Definition dict : Type := list (string * value).

Fixpoint lookup (d : dict) (k : string) : option value :=
  match d with
  | [] => None
  | (k', v) :: d' => if String.eqb k k' then Some v else lookup d' k
  end.

(** [d.get(k)] and [d.get(k, default)] on a dict. *)
Definition get (d : dict) (k : string) : value :=
  match lookup d k with Some v => v | None => VNone end.

Definition get_default (d : dict) (k : string) (dflt : value) : value :=
  match lookup d k with Some v => v | None => dflt end.

(** [k in d]. *)
Definition has_key (d : dict) (k : string) : bool :=
  match lookup d k with Some _ => true | None => false end.

(** [v == 'literal'] for a string literal. *)
Definition eq_str (v : value) (s : string) : bool :=
  match v with VStr t => String.eqb t s | _ => false end.

(** Truth value of an object, as tested by [if not server_id]. *)
Definition truthy (v : value) : bool :=
  match v with
  | VNone => false
  | VBool b => b
  | VInt n => negb (n =? 0)
  | VFloat q => negb (Qeq_bool q 0)
  | VStr s => negb (String.eqb s "")
  | VDatetime _ => true
  | VList l => match l with [] => false | _ => true end
  | VDict d => match d with [] => false | _ => true end
  end.

Definition type_name (v : value) : string :=
  match v with
  | VNone => "NoneType"
  | VBool _ => "bool"
  | VInt _ => "int"
  | VFloat _ => "float"
  | VStr _ => "str"
  | VDatetime _ => "datetime.datetime"
  | VList _ => "list"
  | VDict _ => "dict"
  end.

Definition str_of_Z (n : Z) : string := NilZero.string_of_int (Z.to_int n).
Definition str_of_nat (n : nat) : string := str_of_Z (Z.of_nat n).

(** ** Exceptions *)

Inductive exn : Type :=
| AttributeError (text : string)
| TypeError (text : string)
| ValueError (text : string)
| DanglingReference (text : string).
(** [DanglingReference] is no exception of the program: the model raises it
    when a monitor is run on an index that is not in the heap, which no
    thread started by [_start_cooling_monitor] is. *)

(** [str(e)] *)
Definition exn_text (e : exn) : string :=
  match e with
  | AttributeError t | TypeError t | ValueError t | DanglingReference t => t
  end.

Definition no_attribute (v : value) (attr : string) : exn :=
  AttributeError ("'" ++ type_name v ++ "' object has no attribute '" ++ attr ++ "'").

(** ** Strings: [upper], [startswith], [int] *)

Definition upper_ascii (c : ascii) : ascii :=
  let n := nat_of_ascii c in
  if (andb (Nat.leb 97 n) (Nat.leb n 122)) then ascii_of_nat (n - 32) else c.

Fixpoint upper (s : string) : string :=
  match s with
  | EmptyString => EmptyString
  | String c s' => String (upper_ascii c) (upper s')
  end.

Definition startswith (s p : string) : bool := String.prefix p s.

Definition is_space (c : ascii) : bool :=
  let n := nat_of_ascii c in
  orb (Nat.eqb n 32) (andb (Nat.leb 9 n) (Nat.leb n 13)).

Definition digit_of (c : ascii) : option Z :=
  let n := nat_of_ascii c in
  if andb (Nat.leb 48 n) (Nat.leb n 57) then Some (Z.of_nat (n - 48)) else None.

Fixpoint lstrip (l : list ascii) : list ascii :=
  match l with
  | c :: l' => if is_space c then lstrip l' else l
  | [] => []
  end.

Definition strip (l : list ascii) : list ascii :=
  rev (lstrip (rev (lstrip l))).

(** Digits of a base-10 literal; a single underscore may separate two
    digits.  [after_digit] tells whether the previous character was a
    digit. *)
Fixpoint int_digits (acc : Z) (after_digit : bool) (l : list ascii) : option Z :=
  match l with
  | [] => if after_digit then Some acc else None
  | c :: l' =>
      match digit_of c with
      | Some d => int_digits (10 * acc + d) true l'
      | None =>
          if andb (Ascii.eqb c "_"%char) after_digit
          then int_digits acc false l'
          else None
      end
  end.

(** [sys.int_info.default_max_str_digits]: [int] refuses a literal with
    more digits (signs, underscores and whitespace do not count). *)
Definition max_str_digits : nat := 4300.

Definition count_digits (l : list ascii) : nat :=
  length (filter (fun c => match digit_of c with Some _ => true | None => false end) l).

(** [int(s)] for a [str] of ASCII characters: surrounding whitespace is
    dropped, one sign is allowed, the digits are at most
    [max_str_digits]; [None] stands for [ValueError]. *)
Definition int_of_string (s : string) : option Z :=
  let l := strip (list_ascii_of_string s) in
  if (count_digits l <=? max_str_digits)%nat then
    match l with
    | c :: l' =>
        if Ascii.eqb c "-"%char then option_map Z.opp (int_digits 0 false l')
        else if Ascii.eqb c "+"%char then int_digits 0 false l'
        else int_digits 0 false (c :: l')
    | [] => None
    end
  else None.

(** [s.isascii()] *)
Definition isascii (s : string) : bool :=
  forallb (fun c => (nat_of_ascii c <? 128)%nat) (list_ascii_of_string s).

(** ** Numbers, dictionary keys, [json.dumps] *)

Definition Q_of_value (v : value) : option Q :=
  match v with
  | VBool b => Some (if b then 1%Q else 0%Q)
  | VInt n => Some (inject_Z n)
  | VFloat q => Some q
  | _ => None
  end.

(** [hash(v)] succeeds. *)
Definition hashable (v : value) : bool :=
  match v with VList _ | VDict _ => false | _ => true end.

(** Equality of two dictionary keys: numbers by value, strings and
    datetimes by content. *)
Definition key_eqb (a b : value) : bool :=
  match a, b with
  | VNone, VNone => true
  | VStr s, VStr t => String.eqb s t
  | VDatetime s, VDatetime t => s =? t
  | _, _ =>
      match Q_of_value a, Q_of_value b with
      | Some x, Some y => Qeq_bool x y
      | _, _ => false
      end
  end.

(** [json.dumps(v)] succeeds: no [datetime] object anywhere in [v]. *)
Fixpoint serializable (v : value) : bool :=
  match v with
  | VDatetime _ => false
  | VList l => forallb serializable l
  | VDict d => forallb (fun kv => match kv with (_, x) => serializable x end) d
  | _ => true
  end.

(** ** Inputs of a run and the state of the processors *)

Inductive processor : Type :=
| Check | PowerOff | Cooling | Demise.

Record runtime : Type := {
  clock : nat -> Z;            (* i-th answer of the wall clock, microseconds *)
  uuid : nat -> string;        (* i-th str(uuid.uuid4()) *)
  rand : nat -> Q;             (* i-th random.random() *)
  randint : nat -> Z;          (* i-th random.randint(5, 120) *)
  choice : nat -> nat;         (* index taken by the i-th random.choice *)
  processor_id : processor -> string;   (* self.processor_id *)
  isoformat : Z -> string;     (* datetime.isoformat() *)
  fromisoformat : string -> option Z;   (* datetime.fromisoformat, None when it raises *)
  repr : value -> string;      (* str() of a float, a datetime, a list or a dict *)
  format_2f : Q -> string;     (* the format specification .2f *)
  round1 : Q -> Q;             (* round(x, 1) *)
  unicode_int : string -> option Z;   (* int(s) for s not ASCII, None for ValueError *)
  unicode_upper : string -> string    (* s.upper() for s not ASCII *)
}.

(** [str(v)], as an f-string renders [{v}]. *)
Definition py_str (E : runtime) (v : value) : string :=
  match v with
  | VStr s => s
  | VInt n => str_of_Z n
  | VBool b => if b then "True" else "False"
  | VNone => "None"
  | _ => repr E v
  end.

(** [int(s)] and [s.upper()] for any [str]. *)
Definition str_int (E : runtime) (s : string) : option Z :=
  if isascii s then int_of_string s else unicode_int E s.

Definition str_upper (E : runtime) (s : string) : string :=
  if isascii s then upper s else unicode_upper E s.

(** [int(v)]: truncation for a float, [TypeError] for what is neither a
    string nor a number.  The text of the [ValueError] leaves out the
    [repr] of the string; the code never reads it. *)
Definition py_int (E : runtime) (v : value) : exn + Z :=
  match v with
  | VStr s =>
      match str_int E s with
      | Some n => inr n
      | None => inl (ValueError "invalid literal for int() with base 10")
      end
  | VInt n => inr n
  | VBool b => inr (if b then 1 else 0)
  | VFloat q => inr (Z.quot (Qnum q) (Zpos (Qden q)))
  | _ => inl (TypeError ("int() argument must be a string, a bytes-like object or a real number, not '"
                         ++ type_name v ++ "'"))
  end.

(** The [cooling_info] dictionary of a cooling session: its keys are fixed,
    so it is a record. *)
Record cooling_info : Type := {
  ci_server_id : value;
  ci_server_details : value;
  ci_poweroff_timestamp : value;
  ci_cooling_start : Z;
  ci_cooling_end : Z;
  ci_original_message : dict;
  ci_check_count : Z;
  ci_last_check : value;
  ci_status : string
}.

Inductive event : Type :=
| Produce (msg : dict)                       (* producer.send(topic, value=msg) accepted *)
| Oracle (name : string) (server_id : value) (* a simulated external action is entered *)
| SessionPut (server_id : value) (r : nat)   (* cooling_sessions[server_id] = cooling_info *)
| SessionDel (server_id : value)             (* del cooling_sessions[server_id] *)
| ThreadStart (r : nat).                     (* threading.Thread(...).start() *)

(** [heap] holds the [cooling_info] objects ever created; a session-map
    entry and the closure of the monitor thread both refer to the object by
    its index, so a change made by the thread is seen through the map.
    A thread is named by the index of the object it monitors. *)
Record world : Type := {
  heap : list cooling_info;
  cooling_sessions : list (value * nat);
  cooling_threads : list (value * nat);
  trace : list event;
  n_clock : nat;
  n_uuid : nat;
  n_rand : nat
}.

Definition initial_world : world :=
  {| heap := []; cooling_sessions := []; cooling_threads := []; trace := [];
     n_clock := 0; n_uuid := 0; n_rand := 0 |}.

Definition set_heap (h : list cooling_info) (w : world) : world :=
  {| heap := h; cooling_sessions := cooling_sessions w;
     cooling_threads := cooling_threads w; trace := trace w;
     n_clock := n_clock w; n_uuid := n_uuid w; n_rand := n_rand w |}.

Definition set_sessions (m : list (value * nat)) (w : world) : world :=
  {| heap := heap w; cooling_sessions := m;
     cooling_threads := cooling_threads w; trace := trace w;
     n_clock := n_clock w; n_uuid := n_uuid w; n_rand := n_rand w |}.

Definition set_threads (m : list (value * nat)) (w : world) : world :=
  {| heap := heap w; cooling_sessions := cooling_sessions w;
     cooling_threads := m; trace := trace w;
     n_clock := n_clock w; n_uuid := n_uuid w; n_rand := n_rand w |}.

Definition log (e : event) (w : world) : world :=
  {| heap := heap w; cooling_sessions := cooling_sessions w;
     cooling_threads := cooling_threads w; trace := trace w ++ [e];
     n_clock := n_clock w; n_uuid := n_uuid w; n_rand := n_rand w |}.

Definition tick_clock (w : world) : world :=
  {| heap := heap w; cooling_sessions := cooling_sessions w;
     cooling_threads := cooling_threads w; trace := trace w;
     n_clock := S (n_clock w); n_uuid := n_uuid w; n_rand := n_rand w |}.

Definition tick_uuid (w : world) : world :=
  {| heap := heap w; cooling_sessions := cooling_sessions w;
     cooling_threads := cooling_threads w; trace := trace w;
     n_clock := n_clock w; n_uuid := S (n_uuid w); n_rand := n_rand w |}.

Definition tick_rand (w : world) : world :=
  {| heap := heap w; cooling_sessions := cooling_sessions w;
     cooling_threads := cooling_threads w; trace := trace w;
     n_clock := n_clock w; n_uuid := n_uuid w; n_rand := S (n_rand w) |}.

(** Messages accepted by the broker so far, oldest first. *)
Fixpoint produced_of (t : list event) : list dict :=
  match t with
  | [] => []
  | Produce m :: t' => m :: produced_of t'
  | _ :: t' => produced_of t'
  end.

Definition produced (w : world) : list dict := produced_of (trace w).

(** Maps keyed by a server id, in insertion order. *)
Section KeyedMap.
Context {A : Type}.

Fixpoint map_find (m : list (value * A)) (k : value) : option A :=
  match m with
  | [] => None
  | (k', a) :: m' => if key_eqb k k' then Some a else map_find m' k
  end.

Definition map_mem (m : list (value * A)) (k : value) : bool :=
  match map_find m k with Some _ => true | None => false end.

Fixpoint map_set (m : list (value * A)) (k : value) (a : A) : list (value * A) :=
  match m with
  | [] => [(k, a)]
  | (k', a') :: m' =>
      if key_eqb k k' then (k', a) :: m' else (k', a') :: map_set m' k a
  end.

(** [del m[k]]: a dict has at most one entry under a key; the entries
    whose key equals [k] are removed. *)
Fixpoint map_del (m : list (value * A)) (k : value) : list (value * A) :=
  match m with
  | [] => []
  | (k', a') :: m' =>
      if key_eqb k k' then map_del m' k else (k', a') :: map_del m' k
  end.
End KeyedMap.

Fixpoint list_update {A : Type} (l : list A) (i : nat) (a : A) : list A :=
  match l, i with
  | [], _ => []
  | _ :: l', O => a :: l'
  | x :: l', S i' => x :: list_update l' i' a
  end.

(** ** The monad of Python code: inputs, state, exceptions *)

Definition M (A : Type) : Type := runtime -> world -> (exn + A) * world.

Definition ret {A : Type} (a : A) : M A := fun _ w => (inr a, w).

Definition bind {A B : Type} (c : M A) (k : A -> M B) : M B :=
  fun E w =>
    match c E w with
    | (inr a, w') => k a E w'
    | (inl e, w') => (inl e, w')
    end.

Definition raise {A : Type} (e : exn) : M A := fun _ w => (inl e, w).

(** [try: c except Exception as e: h e] *)
Definition try_except {A : Type} (c : M A) (h : exn -> M A) : M A :=
  fun E w =>
    match c E w with
    | (inr a, w') => (inr a, w')
    | (inl e, w') => h e E w'
    end.

Declare Scope py_scope.
Delimit Scope py_scope with py.
Notation "x <- c ;; k" := (bind c (fun x => k))
  (at level 61, c at next level, right associativity) : py_scope.
Notation "c ;;; k" := (bind c (fun _ => k))
  (at level 61, right associativity) : py_scope.
Local Open Scope py_scope.

Definition ask : M runtime := fun E w => (inr E, w).
Definition get_world : M world := fun _ w => (inr w, w).
Definition modify (f : world -> world) : M unit := fun _ w => (inr tt, f w).

(** [datetime.now()] *)
Definition now : M Z := fun E w => (inr (clock E (n_clock w)), tick_clock w).
(** [str(uuid.uuid4())] *)
Definition uuid4 : M string := fun E w => (inr (uuid E (n_uuid w)), tick_uuid w).
(** [random.random()] *)
Definition random_random : M Q := fun E w => (inr (rand E (n_rand w)), tick_rand w).
(** [random.randint(5, 120)] *)
Definition random_randint : M Z := fun E w => (inr (randint E (n_rand w)), tick_rand w).
(** [random.choice(l)] *)
Definition random_choice (l : list string) : M string :=
  fun E w => (inr (nth (choice E (n_rand w)) l ""), tick_rand w).

Definition emit (e : event) : M unit := modify (log e).

(** [v.get(k, default)]: [AttributeError] when [v] is not a dict. *)
Definition attr_get (v : value) (k : string) (dflt : value) : M value :=
  match v with
  | VDict d => ret (get_default d k dflt)
  | _ => raise (no_attribute v "get")
  end.

Definition run {A : Type} (c : M A) (E : runtime) (w : world) : (exn + A) * world :=
  c E w.

(** ** [BaseProcessor] *)

(** The abstract methods of [BaseProcessor], with the class name and the
    stage the instance stands for. *)
Record BaseProcessor : Type := {
  class_name : string;
  stage : processor;
  should_process_message : dict -> bool;
  process_message : dict -> M dict
}.

(** [producer.send] serializes the value with [json.dumps]; the exception
    it raises on a value it cannot encode is caught here and logged. *)
Definition _send_response (response_data : dict) : M unit :=
  if serializable (VDict response_data)
  then emit (Produce response_data)
  else ret tt.

Definition _send_error_response (self : BaseProcessor)
    (original_message : dict) (error_message : string) : M unit :=
  E <- ask ;;
  id <- uuid4 ;;
  fresh <- uuid4 ;;
  ts <- now ;;
  _send_response
    [ ("id", VStr id);
      ("original_request_id", get_default original_message "id" (VStr fresh));
      ("action", VStr "error");
      ("status", VStr "error");
      ("processor", VStr (class_name self));
      ("processor_id", VStr (processor_id E (stage self)));
      ("timestamp", VStr (isoformat E ts));
      ("data", get_default original_message "data" (VDict []));
      ("error", VStr error_message);
      ("message", VStr ("Processing failed: " ++ error_message));
      ("pipeline_complete", VBool true) ].

Definition _handle_message (self : BaseProcessor) (message_data : dict) : M unit :=
  try_except
    (if negb (should_process_message self message_data) then ret tt
     else
       result <- process_message self message_data ;;
       if truthy (VDict result) then _send_response result else ret tt)
    (fun e => _send_error_response self message_data (exn_text e)).

(** ** Processor 1: [ServerCheckProcessor] *)

Module ServerCheckProcessor.

Definition processor_name : string := "ServerCheckProcessor".

Definition should_process_message (message_data : dict) : bool :=
  eq_str (get message_data "action") "check_server"
  && eq_str (get message_data "status") "pending".

Definition valid_prefixes : list string := ["SRV"; "HOST"; "VM"; "PROD"; "TEST"].

Definition _check_server_in_portal (server_id : value) : M bool :=
  emit (Oracle "_check_server_in_portal" server_id) ;;;
  E <- ask ;;
  match py_int E server_id with
  | inr server_num => ret ((100 <=? server_num) && (server_num <=? 999))
  | inl (ValueError _) =>
      match server_id with
      | VStr s =>
          ret (existsb (fun prefix => startswith (str_upper E s) prefix) valid_prefixes)
      | _ => raise (no_attribute server_id "upper")
      end
  | inl e => raise e
  end.

Definition _create_error_response (original_message : dict)
    (error_msg : string) (final_status : string) : M dict :=
  E <- ask ;;
  id <- uuid4 ;;
  ts <- now ;;
  ret [ ("id", VStr id);
        ("original_request_id", get original_message "id");
        ("action", VStr "demise_complete");
        ("status", VStr final_status);
        ("processor", VStr processor_name);
        ("processor_id", VStr (processor_id E Check));
        ("timestamp", VStr (isoformat E ts));
        ("data", get_default original_message "data" (VDict []));
        ("error", VStr error_msg);
        ("message", VStr ("Pipeline terminated: " ++ error_msg));
        ("pipeline_step", VInt 1);
        ("pipeline_complete", VBool true) ].

Definition process_message (message_data : dict) : M dict :=
  try_except
    (server_id <- attr_get (get_default message_data "data" (VDict [])) "server_id" VNone ;;
     if negb (truthy server_id)
     then _create_error_response message_data "Server ID is required" "error"
     else
       server_exists <- _check_server_in_portal server_id ;;
       E <- ask ;;
       if server_exists then
         id <- uuid4 ;;
         ts <- now ;;
         ret [ ("id", VStr id);
               ("original_request_id", get message_data "id");
               ("action", VStr "poweroff_server");
               ("status", VStr "pending");
               ("processor", VStr processor_name);
               ("processor_id", VStr (processor_id E Check));
               ("timestamp", VStr (isoformat E ts));
               ("data", VDict
                  [ ("server_id", server_id);
                    ("server_details", VDict
                       [ ("hostname", VStr ("server-" ++ py_str E server_id));
                         ("ip_address", VStr ("192.168.1." ++ py_str E server_id));
                         ("status", VStr "active");
                         ("location", VStr "datacenter-1") ]);
                    ("check_result", VStr "server_found");
                    ("original_request", get_default message_data "data" (VDict [])) ]);
               ("message", VStr ("Server " ++ py_str E server_id
                                 ++ " found in portal. Ready for power off."));
               ("pipeline_step", VInt 1);
               ("next_step", VStr "poweroff_server") ]
       else
         _create_error_response message_data
           ("Server " ++ py_str E server_id ++ " not found in portal") "failed")
    (fun e => _create_error_response message_data
                ("Server check failed: " ++ exn_text e) "error").

Definition self : BaseProcessor :=
  Build_BaseProcessor "ServerCheckProcessor" Check
    should_process_message process_message.

End ServerCheckProcessor.

(** ** Processor 2: [ServerPowerOffProcessor] *)

Module ServerPowerOffProcessor.

Definition processor_name : string := "ServerPowerOffProcessor".

Definition should_process_message (message_data : dict) : bool :=
  eq_str (get message_data "action") "poweroff_server"
  && eq_str (get message_data "status") "pending".

(** The connection log line reads [server_details.get('ip_address')];
    whatever is raised inside is turned into a failure result. *)
Definition _execute_server_poweroff (server_id server_details : value) : M dict :=
  emit (Oracle "_execute_server_poweroff" server_id) ;;;
  try_except
    (_ <- attr_get server_details "ip_address" VNone ;;
     x <- random_random ;;
     if negb (Qle_bool x (1 # 10)) then
       ret [ ("success", VBool true);
             ("power_status", VStr "off");
             ("poweroff_method", VStr "IPMI");
             ("execution_time", VStr "4.5s");
             ("verification", VStr "confirmed_off") ]
     else
       ret [ ("success", VBool false);
             ("error", VStr "IPMI connection timeout");
             ("power_status", VStr "unknown");
             ("attempted_method", VStr "IPMI") ])
    (fun e =>
       ret [ ("success", VBool false);
             ("error", VStr (exn_text e));
             ("power_status", VStr "unknown") ]).

Definition _create_error_response (original_message : dict)
    (error_msg : string) (final_status : string) : M dict :=
  E <- ask ;;
  id <- uuid4 ;;
  ts <- now ;;
  ret [ ("id", VStr id);
        ("original_request_id",
           get_default original_message "original_request_id" (get original_message "id"));
        ("action", VStr "demise_complete");
        ("status", VStr final_status);
        ("processor", VStr processor_name);
        ("processor_id", VStr (processor_id E PowerOff));
        ("timestamp", VStr (isoformat E ts));
        ("data", get_default original_message "data" (VDict []));
        ("error", VStr error_msg);
        ("message", VStr ("Pipeline terminated: " ++ error_msg));
        ("pipeline_step", VInt 2);
        ("pipeline_complete", VBool true) ].

Definition process_message (message_data : dict) : M dict :=
  try_except
    (let server_data := get_default message_data "data" (VDict []) in
     server_id <- attr_get server_data "server_id" VNone ;;
     server_details <- attr_get server_data "server_details" (VDict []) ;;
     if negb (truthy server_id)
     then _create_error_response message_data "Server ID is required" "error"
     else
       poweroff_result <- _execute_server_poweroff server_id server_details ;;
       E <- ask ;;
       if truthy (get poweroff_result "success") then
         id <- uuid4 ;;
         ts <- now ;;
         poweroff_ts <- now ;;
         original_request <- attr_get server_data "original_request" (VDict []) ;;
         ret [ ("id", VStr id);
               ("original_request_id",
                  get_default message_data "original_request_id" (get message_data "id"));
               ("action", VStr "demise_server");
               ("status", VStr "pending");
               ("processor", VStr processor_name);
               ("processor_id", VStr (processor_id E PowerOff));
               ("timestamp", VStr (isoformat E ts));
               ("data", VDict
                  [ ("server_id", server_id);
                    ("server_details", server_details);
                    ("poweroff_result", VDict poweroff_result);
                    ("poweroff_timestamp", VStr (isoformat E poweroff_ts));
                    ("original_request", original_request) ]);
               ("message", VStr ("Server " ++ py_str E server_id
                                 ++ " powered off successfully. Ready for demise request."));
               ("pipeline_step", VInt 2);
               ("next_step", VStr "demise_server") ]
       else
         _create_error_response message_data
           ("Failed to power off server " ++ py_str E server_id ++ ": "
            ++ py_str E (get poweroff_result "error")) "failed")
    (fun e => _create_error_response message_data
                ("Server power off failed: " ++ exn_text e) "error").

Definition self : BaseProcessor :=
  Build_BaseProcessor "ServerPowerOffProcessor" PowerOff
    should_process_message process_message.

End ServerPowerOffProcessor.

(** ** Processor 3: [ServerDemiseProcessor] *)

Module ServerDemiseProcessor.

Definition processor_name : string := "ServerDemiseProcessor".

Definition should_process_message (message_data : dict) : bool :=
  eq_str (get message_data "action") "demise_server"
  && eq_str (get message_data "status") "pending".

(** [int(time.time())] reads the wall clock, in seconds. *)
Definition _execute_server_demise (server_id server_details poweroff_result : value)
    : M dict :=
  emit (Oracle "_execute_server_demise" server_id) ;;;
  try_except
    (E <- ask ;;
     x <- random_random ;;
     if negb (Qle_bool x (5 # 100)) then
       seconds <- now ;;
       let ticket_id := "DM-" ++ str_of_Z (seconds / 1000000) ++ "-" ++ py_str E server_id in
       date <- now ;;
       ret [ ("success", VBool true);
             ("demise_ticket_id", VStr ticket_id);
             ("status", VStr "decommissioned");
             ("steps_completed", VList
                [ VStr "removed_from_monitoring";
                  VStr "inventory_updated";
                  VStr "dns_dhcp_removed";
                  VStr "asset_management_updated";
                  VStr "load_balancer_updated";
                  VStr "config_management_updated";
                  VStr "decommission_ticket_created" ]);
             ("execution_time", VStr "3.1s");
             ("decommission_date", VStr (isoformat E date)) ]
     else
       ret [ ("success", VBool false);
             ("error", VStr "Asset management system unavailable");
             ("status", VStr "partial_demise");
             ("steps_completed", VList
                [ VStr "removed_from_monitoring"; VStr "inventory_updated" ]) ])
    (fun e =>
       ret [ ("success", VBool false);
             ("error", VStr (exn_text e));
             ("status", VStr "demise_failed") ]).

(** [s.replace('Z', '+00:00')] *)
Fixpoint replace_Z (s : string) : string :=
  match s with
  | EmptyString => EmptyString
  | String c s' =>
      if Ascii.eqb c "Z"%char then "+00:00" ++ replace_Z s'
      else String c (replace_Z s')
  end.

(** [fromisoformat] of the runtime gives the parsed time with its zone
    dropped; a timestamp that is not a string, or does not parse, ends in
    the bare [except]. *)
Definition _calculate_processing_time (original_message : dict) : M string :=
  E <- ask ;;
  match lookup original_message "timestamp" with
  | Some (VStr s) =>
      match fromisoformat E (replace_Z s) with
      | Some original_time =>
          current_time <- now ;;
          ret (format_2f E ((current_time - original_time) # 1000000) ++ "s")
      | None => ret "unknown"
      end
  | _ => ret "unknown"
  end.

Definition _create_error_response (original_message : dict)
    (error_msg : string) (final_status : string) : M dict :=
  E <- ask ;;
  id <- uuid4 ;;
  ts <- now ;;
  ret [ ("id", VStr id);
        ("original_request_id",
           get_default original_message "original_request_id" (get original_message "id"));
        ("action", VStr "demise_complete");
        ("status", VStr final_status);
        ("processor", VStr processor_name);
        ("processor_id", VStr (processor_id E Demise));
        ("timestamp", VStr (isoformat E ts));
        ("data", get_default original_message "data" (VDict []));
        ("error", VStr error_msg);
        ("message", VStr ("Pipeline terminated: " ++ error_msg));
        ("pipeline_step", VInt 3);
        ("pipeline_complete", VBool true) ].

Definition process_message (message_data : dict) : M dict :=
  try_except
    (let server_data := get_default message_data "data" (VDict []) in
     server_id <- attr_get server_data "server_id" VNone ;;
     server_details <- attr_get server_data "server_details" (VDict []) ;;
     poweroff_result <- attr_get server_data "poweroff_result" (VDict []) ;;
     if negb (truthy server_id)
     then _create_error_response message_data "Server ID is required" "error"
     else
       demise_result <- _execute_server_demise server_id server_details poweroff_result ;;
       E <- ask ;;
       if truthy (get demise_result "success") then
         id <- uuid4 ;;
         ts <- now ;;
         completion_ts <- now ;;
         original_request <- attr_get server_data "original_request" (VDict []) ;;
         total <- _calculate_processing_time message_data ;;
         ret [ ("id", VStr id);
               ("original_request_id",
                  get_default message_data "original_request_id" (get message_data "id"));
               ("action", VStr "demise_complete");
               ("status", VStr "completed");
               ("processor", VStr processor_name);
               ("processor_id", VStr (processor_id E Demise));
               ("timestamp", VStr (isoformat E ts));
               ("data", VDict
                  [ ("server_id", server_id);
                    ("server_details", server_details);
                    ("poweroff_result", poweroff_result);
                    ("demise_result", VDict demise_result);
                    ("completion_timestamp", VStr (isoformat E completion_ts));
                    ("pipeline_summary", VDict
                       [ ("step_1", VStr "Server found in portal");
                         ("step_2", VStr "Server powered off successfully");
                         ("step_3", VStr "Server demise request completed") ]);
                    ("original_request", original_request) ]);
               ("message", VStr ("Server " ++ py_str E server_id
                                 ++ " demise process completed successfully."));
               ("pipeline_step", VInt 3);
               ("pipeline_complete", VBool true);
               ("total_processing_time", VStr total) ]
       else
         _create_error_response message_data
           ("Failed to demise server " ++ py_str E server_id ++ ": "
            ++ py_str E (get demise_result "error")) "failed")
    (fun e => _create_error_response message_data
                ("Server demise failed: " ++ exn_text e) "error").

Definition self : BaseProcessor :=
  Build_BaseProcessor "ServerDemiseProcessor" Demise
    should_process_message process_message.

End ServerDemiseProcessor.

(** ** Processor 2.5: [ServerCoolingPeriodProcessor] *)

Module ServerCoolingPeriodProcessor.

Definition processor_name : string := "ServerCoolingPeriodProcessor".

Definition cooling_period_hours : Z := 48.
Definition check_interval_hours : Z := 2.

(** [timedelta(hours=h)], in microseconds. *)
Definition timedelta_hours (h : Z) : Z := h * 3600 * 1000000.
Definition timedelta_minutes (m : Z) : Z := m * 60 * 1000000.

(** [d.total_seconds() / 3600] *)
Definition hours_of (d : Z) : Q := d # 3600000000.

Definition should_process_message (message_data : dict) : bool :=
  let action := get message_data "action" in
  let status := get message_data "status" in
  eq_str action "start_cooling_period" && eq_str status "pending".

(** The object a monitor or a handler works on. *)
Definition read_info (r : nat) : M cooling_info :=
  w <- get_world ;;
  match nth_error (heap w) r with
  | Some info => ret info
  | None => raise (DanglingReference "no such cooling_info")
  end.

Definition write_info (r : nat) (info : cooling_info) : M unit :=
  modify (fun w => set_heap (list_update (heap w) r info) w).

(** [server_id in self.cooling_sessions] *)
Definition in_sessions (server_id : value) : M bool :=
  if hashable server_id then
    w <- get_world ;;
    ret (map_mem (cooling_sessions w) server_id)
  else raise (TypeError ("unhashable type: '" ++ type_name server_id ++ "'")).

(** [if server_id in self.cooling_sessions: del self.cooling_sessions[server_id]] *)
Definition remove_session (server_id : value) : M unit :=
  present <- in_sessions server_id ;;
  if present then
    modify (fun w => set_sessions (map_del (cooling_sessions w) server_id) w) ;;;
    emit (SessionDel server_id)
  else ret tt.

Definition _create_error_response (original_message : dict)
    (error_msg : string) (final_status : string) : M dict :=
  E <- ask ;;
  id <- uuid4 ;;
  ts <- now ;;
  ret [ ("id", VStr id);
        ("original_request_id",
           get_default original_message "original_request_id" (get original_message "id"));
        ("action", VStr "cooling_error");
        ("status", VStr final_status);
        ("processor", VStr processor_name);
        ("processor_id", VStr (processor_id E Cooling));
        ("timestamp", VStr (isoformat E ts));
        ("data", get_default original_message "data" (VDict []));
        ("error", VStr error_msg);
        ("message", VStr ("Cooling period failed: " ++ error_msg));
        ("pipeline_step", VStr "2.5");
        ("pipeline_complete", VBool true) ].

Definition _create_status_response (original_message : dict) (status_msg : string)
    : M dict :=
  E <- ask ;;
  id <- uuid4 ;;
  ts <- now ;;
  ret [ ("id", VStr id);
        ("original_request_id",
           get_default original_message "original_request_id" (get original_message "id"));
        ("action", VStr "cooling_status");
        ("status", VStr "info");
        ("processor", VStr processor_name);
        ("processor_id", VStr (processor_id E Cooling));
        ("timestamp", VStr (isoformat E ts));
        ("data", get_default original_message "data" (VDict []));
        ("message", VStr status_msg);
        ("pipeline_step", VStr "2.5") ].

(** The thread is started and recorded in [cooling_threads]; what it runs
    is [monitor_cooling_period] below, one iteration at a time. *)
Definition _start_cooling_monitor (server_id : value) (r : nat) : M unit :=
  emit (ThreadStart r) ;;;
  modify (fun w => set_threads (map_set (cooling_threads w) server_id r) w).

Definition process_message (message_data : dict) : M dict :=
  try_except
    (let server_data := get_default message_data "data" (VDict []) in
     server_id <- attr_get server_data "server_id" VNone ;;
     if negb (truthy server_id)
     then _create_error_response message_data
            "Server ID is required for cooling period" "error"
     else
       present <- in_sessions server_id ;;
       if present
       then _create_status_response message_data "Server already in cooling period"
       else
         E <- ask ;;
         server_details <- attr_get server_data "server_details" (VDict []) ;;
         default_ts <- now ;;
         poweroff_timestamp <-
           attr_get server_data "poweroff_timestamp" (VStr (isoformat E default_ts)) ;;
         cooling_start <- now ;;
         end_base <- now ;;
         let cooling_info :=
           {| ci_server_id := server_id;
              ci_server_details := server_details;
              ci_poweroff_timestamp := poweroff_timestamp;
              ci_cooling_start := cooling_start;
              ci_cooling_end := end_base + timedelta_hours cooling_period_hours;
              ci_original_message := message_data;
              ci_check_count := 0;
              ci_last_check := VNone;
              ci_status := "monitoring" |} in
         w <- get_world ;;
         let r := length (heap w) in
         modify (fun w => set_heap (heap w ++ [cooling_info]) w) ;;;
         modify (fun w => set_sessions (map_set (cooling_sessions w) server_id r) w) ;;;
         emit (SessionPut server_id r) ;;;
         _start_cooling_monitor server_id r ;;;
         id <- uuid4 ;;
         ts <- now ;;
         ret [ ("id", VStr id);
               ("original_request_id",
                  get_default message_data "original_request_id" (get message_data "id"));
               ("action", VStr "cooling_period_started");
               ("status", VStr "monitoring");
               ("processor", VStr processor_name);
               ("processor_id", VStr (processor_id E Cooling));
               ("timestamp", VStr (isoformat E ts));
               ("data", VDict
                  [ ("server_id", server_id);
                    ("server_details", ci_server_details cooling_info);
                    ("cooling_start", VStr (isoformat E (ci_cooling_start cooling_info)));
                    ("cooling_end", VStr (isoformat E (ci_cooling_end cooling_info)));
                    ("cooling_period_hours", VInt cooling_period_hours);
                    ("check_interval_hours", VInt check_interval_hours);
                    ("poweroff_timestamp", ci_poweroff_timestamp cooling_info) ]);
               ("message", VStr ("Server " ++ py_str E server_id
                                 ++ " entered 48-hour cooling period. Monitoring every 2 hours."));
               ("pipeline_step", VStr "2.5");
               ("next_step", VStr "cooling_monitor") ])
    (fun e => _create_error_response message_data
                ("Cooling period start failed: " ++ exn_text e) "error").

Definition power_on_reasons : list string :=
  ["manual_power_on"; "wake_on_lan"; "scheduled_task"; "hardware_event"].

Definition _check_server_power_status (server_id server_details : value) : M dict :=
  emit (Oracle "_check_server_power_status" server_id) ;;;
  try_except
    (E <- ask ;;
     x <- random_random ;;
     let is_powered_on := negb (Qle_bool (5 # 100) x) in
     check_ts <- now ;;
     server_ip <- attr_get server_details "ip_address" (VStr "unknown") ;;
     let power_info :=
       [ ("is_powered_on", VBool is_powered_on);
         ("power_state", VStr (if is_powered_on then "on" else "off"));
         ("check_method", VStr "IPMI");
         ("check_timestamp", VStr (isoformat E check_ts));
         ("response_time_ms", VInt 1500);
         ("server_ip", server_ip) ] in
     if is_powered_on then
       t <- now ;;
       minutes <- random_randint ;;
       reason <- random_choice power_on_reasons ;;
       ret (power_info ++
            [ ("boot_time", VStr (isoformat E (t - timedelta_minutes minutes)));
              ("power_on_reason", VStr reason) ])%list
     else ret power_info)
    (fun e =>
       E <- ask ;;
       ts <- now ;;
       ret [ ("is_powered_on", VBool false);
             ("power_state", VStr "unknown");
             ("check_method", VStr "IPMI");
             ("error", VStr (exn_text e));
             ("check_timestamp", VStr (isoformat E ts)) ]).

(** [cooling_info['original_message'].get('original_request_id', ....get('id'))] *)
Definition request_id_of (info : cooling_info) : value :=
  get_default (ci_original_message info) "original_request_id"
    (get (ci_original_message info) "id").

Definition _handle_cooling_violation (server_id : value) (r : nat)
    (power_status : dict) : M unit :=
  E <- ask ;;
  cooling_info <- read_info r ;;
  id <- uuid4 ;;
  ts <- now ;;
  violation_time <- now ;;
  t_elapsed <- now ;;
  t_remaining <- now ;;
  let error_response :=
    [ ("id", VStr id);
      ("original_request_id", request_id_of cooling_info);
      ("action", VStr "cooling_violation_error");
      ("status", VStr "violation_error");
      ("processor", VStr processor_name);
      ("processor_id", VStr (processor_id E Cooling));
      ("timestamp", VStr (isoformat E ts));
      ("data", VDict
         [ ("server_id", server_id);
           ("server_details", ci_server_details cooling_info);
           ("violation_details", VDict
              [ ("power_status", VDict power_status);
                ("violation_time", VStr (isoformat E violation_time));
                ("cooling_elapsed_hours",
                   VFloat (hours_of (t_elapsed - ci_cooling_start cooling_info)));
                ("remaining_hours",
                   VFloat (hours_of (ci_cooling_end cooling_info - t_remaining)));
                ("check_number", VInt (ci_check_count cooling_info)) ]);
           ("cooling_period_info", VDict
              [ ("cooling_start", VStr (isoformat E (ci_cooling_start cooling_info)));
                ("cooling_end", VStr (isoformat E (ci_cooling_end cooling_info)));
                ("total_checks_performed", VInt (ci_check_count cooling_info)) ]) ]);
      ("error", VStr ("Server " ++ py_str E server_id
                      ++ " powered on during mandatory cooling period"));
      ("message", VStr ("CRITICAL: Server " ++ py_str E server_id
                        ++ " violated cooling period by powering on. Demise process terminated."));
      ("pipeline_step", VStr "2.5");
      ("pipeline_complete", VBool true);
      ("violation", VBool true) ] in
  _send_response error_response ;;;
  remove_session server_id.

Definition _handle_cooling_complete (server_id : value) (r : nat) : M unit :=
  E <- ask ;;
  cooling_info <- read_info r ;;
  id <- uuid4 ;;
  ts <- now ;;
  actual_completion <- now ;;
  original_request <-
    attr_get (get_default (ci_original_message cooling_info) "data" (VDict []))
      "original_request" (VDict []) ;;
  let completion_response :=
    [ ("id", VStr id);
      ("original_request_id", request_id_of cooling_info);
      ("action", VStr "demise_server");
      ("status", VStr "pending");
      ("processor", VStr processor_name);
      ("processor_id", VStr (processor_id E Cooling));
      ("timestamp", VStr (isoformat E ts));
      ("data", VDict
         [ ("server_id", server_id);
           ("server_details", ci_server_details cooling_info);
           ("cooling_completion", VDict
              [ ("cooling_start", VStr (isoformat E (ci_cooling_start cooling_info)));
                ("cooling_end", VStr (isoformat E (ci_cooling_end cooling_info)));
                ("actual_completion", VStr (isoformat E actual_completion));
                ("total_checks_performed", VInt (ci_check_count cooling_info));
                ("cooling_duration_hours", VInt cooling_period_hours) ]);
           ("poweroff_timestamp", ci_poweroff_timestamp cooling_info);
           ("original_request", original_request) ]);
      ("message", VStr ("Server " ++ py_str E server_id
                        ++ " completed 48-hour cooling period successfully. Proceeding to demise."));
      ("pipeline_step", VStr "2.5");
      ("next_step", VStr "demise_server") ] in
  _send_response completion_response ;;;
  remove_session server_id.

Definition _handle_cooling_error (server_id : value) (r : nat) (error_msg : string)
    : M unit :=
  E <- ask ;;
  cooling_info <- read_info r ;;
  id <- uuid4 ;;
  ts <- now ;;
  error_time <- now ;;
  let error_response :=
    [ ("id", VStr id);
      ("original_request_id", request_id_of cooling_info);
      ("action", VStr "cooling_error");
      ("status", VStr "error");
      ("processor", VStr processor_name);
      ("processor_id", VStr (processor_id E Cooling));
      ("timestamp", VStr (isoformat E ts));
      ("data", VDict
         [ ("server_id", server_id);
           ("server_details", ci_server_details cooling_info);
           ("error_details", VDict
              [ ("error_message", VStr error_msg);
                ("error_time", VStr (isoformat E error_time));
                ("checks_completed", VInt (ci_check_count cooling_info));
                ("last_successful_check", ci_last_check cooling_info) ]) ]);
      ("error", VStr error_msg);
      ("message", VStr ("Cooling period monitoring failed for server "
                        ++ py_str E server_id ++ ": " ++ error_msg));
      ("pipeline_step", VStr "2.5");
      ("pipeline_complete", VBool true) ] in
  _send_response error_response ;;;
  remove_session server_id.

(** The character U+2705 of the status text, in UTF-8. *)
Definition check_mark : string :=
  String (ascii_of_nat 226) (String (ascii_of_nat 156) (String (ascii_of_nat 133) "")).

(** The message [_send_status_update] builds. *)
Definition status_response (server_id : value) (r : nat) (power_status : dict) : M dict :=
  E <- ask ;;
  cooling_info <- read_info r ;;
  t <- now ;;
  let remaining_hours := hours_of (ci_cooling_end cooling_info - t) in
  id <- uuid4 ;;
  ts <- now ;;
  ret [ ("id", VStr id);
        ("original_request_id", request_id_of cooling_info);
        ("action", VStr "cooling_status_update");
        ("status", VStr "monitoring");
        ("processor", VStr processor_name);
        ("processor_id", VStr (processor_id E Cooling));
        ("timestamp", VStr (isoformat E ts));
        ("data", VDict
           [ ("server_id", server_id);
             ("cooling_status", VDict
                [ ("remaining_hours", VFloat (round1 E remaining_hours));
                  ("check_number", VInt (ci_check_count cooling_info));
                  ("power_status", VDict power_status);
                  ("next_check_in_hours", VInt check_interval_hours) ]) ]);
        ("message", VStr ("Server " ++ py_str E server_id ++ " cooling check #"
                          ++ str_of_Z (ci_check_count cooling_info) ++ ": OFF ("
                          ++ check_mark ++ ") - "
                          ++ py_str E (VFloat (round1 E remaining_hours)) ++ "h remaining"));
        ("pipeline_step", VStr "2.5") ].

(** The call of [_send_response] is commented out in the source: the
    message is built and dropped. *)
Definition _send_status_update (server_id : value) (r : nat) (power_status : dict)
    : M unit :=
  _ <- status_response server_id r power_status ;;
  ret tt.

Definition _perform_power_check (server_id : value) (r : nat) : M unit :=
  try_except
    (cooling_info <- read_info r ;;
     write_info r
       {| ci_server_id := ci_server_id cooling_info;
          ci_server_details := ci_server_details cooling_info;
          ci_poweroff_timestamp := ci_poweroff_timestamp cooling_info;
          ci_cooling_start := ci_cooling_start cooling_info;
          ci_cooling_end := ci_cooling_end cooling_info;
          ci_original_message := ci_original_message cooling_info;
          ci_check_count := ci_check_count cooling_info + 1;
          ci_last_check := ci_last_check cooling_info;
          ci_status := ci_status cooling_info |} ;;;
     t <- now ;;
     cooling_info <- read_info r ;;
     write_info r
       {| ci_server_id := ci_server_id cooling_info;
          ci_server_details := ci_server_details cooling_info;
          ci_poweroff_timestamp := ci_poweroff_timestamp cooling_info;
          ci_cooling_start := ci_cooling_start cooling_info;
          ci_cooling_end := ci_cooling_end cooling_info;
          ci_original_message := ci_original_message cooling_info;
          ci_check_count := ci_check_count cooling_info;
          ci_last_check := VDatetime t;
          ci_status := ci_status cooling_info |} ;;;
     power_status <- _check_server_power_status server_id (ci_server_details cooling_info) ;;
     if truthy (get power_status "is_powered_on")
     then _handle_cooling_violation server_id r power_status
     else _send_status_update server_id r power_status)
    (fun _ => ret tt).

(** One turn of the [while True] loop of [monitor_cooling_period]:
    [Break] after the completion handler, [Continue] after a check and
    the sleep that follows it. *)
Inductive loop_status : Type := Continue | Break.

Definition monitor_iteration (server_id : value) (r : nat) : M loop_status :=
  current_time <- now ;;
  cooling_info <- read_info r ;;
  if ci_cooling_end cooling_info <=? current_time then
    _handle_cooling_complete server_id r ;;;
    ret Break
  else
    _perform_power_check server_id r ;;;
    ret Continue.

Fixpoint monitor_loop (fuel : nat) (server_id : value) (r : nat) : M loop_status :=
  match fuel with
  | O => ret Continue
  | S fuel' =>
      st <- monitor_iteration server_id r ;;
      match st with
      | Break => ret Break
      | Continue => monitor_loop fuel' server_id r
      end
  end.

(** The [finally] clause of the thread. *)
Definition cleanup_thread (server_id : value) : M unit :=
  w <- get_world ;;
  if hashable server_id then
    if map_mem (cooling_threads w) server_id
    then modify (fun w => set_threads (map_del (cooling_threads w) server_id) w)
    else ret tt
  else raise (TypeError ("unhashable type: '" ++ type_name server_id ++ "'")).

(** The thread body, run for at most [fuel] turns of its loop:
    [Continue] means that the thread is still in its loop, [Break] that
    it has ended. *)
Definition monitor_cooling_period (fuel : nat) (server_id : value) (r : nat)
    : M loop_status :=
  fun E w =>
    match monitor_loop fuel server_id r E w with
    | (inr Continue, w') => (inr Continue, w')
    | (inr Break, w') => (cleanup_thread server_id ;;; ret Break) E w'
    | (inl e, w') =>
        match _handle_cooling_error server_id r (exn_text e) E w' with
        | (inr _, w'') => (cleanup_thread server_id ;;; ret Break) E w''
        | (inl e', w'') =>
            match cleanup_thread server_id E w'' with
            | (inr _, w3) => (inl e', w3)
            | (inl e'', w3) => (inl e'', w3)
            end
        end
    end.

(** [stop]: both tables are cleared, nothing is sent. *)
Definition stop : M unit :=
  modify (fun w => set_sessions [] (set_threads [] w)).

Definition self : BaseProcessor :=
  Build_BaseProcessor "ServerCoolingPeriodProcessor" Cooling
    should_process_message process_message.

End ServerCoolingPeriodProcessor.

(** [ServerDemisePipelineManager.initialize_processors]: the processors in
    pipeline order. *)
Definition processors : list BaseProcessor :=
  [ ServerCheckProcessor.self;
    ServerPowerOffProcessor.self;
    ServerCoolingPeriodProcessor.self;
    ServerDemiseProcessor.self ].

(** ** A concrete runtime, for running the model *)

Definition sample_runtime (clock_ : nat -> Z) (rand_ : nat -> Q) : runtime :=
  {| clock := clock_;
     uuid := fun i => "uuid-" ++ str_of_nat i;
     rand := rand_;
     randint := fun _ => 5;
     choice := fun _ => O;
     processor_id := fun p =>
       match p with
       | Check => "check-1" | PowerOff => "poweroff-1"
       | Cooling => "cooling-1" | Demise => "demise-1"
       end;
     isoformat := fun t => "T" ++ str_of_Z t;
     fromisoformat := fun _ => None;
     repr := fun _ => "<object>";
     format_2f := fun _ => "0.00";
     round1 := fun q => q;
     unicode_int := fun _ => None;
     unicode_upper := fun s => s |}.

(** A clock that advances by one hour at every reading, and a random
    source that always answers one half. *)
Definition hourly (i : nat) : Z := Z.of_nat i * 3600000000.
Definition sample : runtime := sample_runtime hourly (fun _ => 1 # 2).

Definition request (action : string) (data : dict) : dict :=
  [ ("id", VStr "req-1"); ("action", VStr action); ("status", VStr "pending");
    ("data", VDict data) ].

(** ** [BaseProcessor.run_once] *)

(** A [for] loop over a list. *)
Fixpoint for_each {A : Type} (l : list A) (body : A -> M unit) : M unit :=
  match l with
  | [] => ret tt
  | a :: l' => body a ;;; for_each l' body
  end.

(** [run_once], given the batch its poll returned: the values of the
    records of every partition, in the order of the batch.  The sleep
    after an error in the outer [try] changes nothing. *)
Definition run_once (self : BaseProcessor) (message_batch : list (list dict)) : M unit :=
  try_except
    (for_each message_batch (fun messages =>
       for_each messages (fun message =>
         try_except (_handle_message self message) (fun _ => ret tt))))
    (fun _ => ret tt).

(** ** [ServerCoolingPeriodProcessor.get_cooling_status] *)

(** The report on one session, and the report on all of them; the keys of
    both dictionaries are fixed. *)
Record session_status : Type := {
  ss_cooling_start : string;
  ss_cooling_end : string;
  ss_remaining_hours : Q;
  ss_check_count : Z;
  ss_status : string
}.

Record cooling_status : Type := {
  cs_total_sessions : nat;
  cs_active_servers : list value;
  cs_sessions : list (value * session_status)
}.

(** The dict comprehension over [self.cooling_sessions.items()]. *)
Fixpoint session_statuses (items : list (value * nat))
    : M (list (value * session_status)) :=
  match items with
  | [] => ret []
  | (server_id, r) :: items' =>
      E <- ask ;;
      info <- ServerCoolingPeriodProcessor.read_info r ;;
      t <- now ;;
      rest <- session_statuses items' ;;
      ret ((server_id,
            {| ss_cooling_start := isoformat E (ci_cooling_start info);
               ss_cooling_end := isoformat E (ci_cooling_end info);
               ss_remaining_hours :=
                 ServerCoolingPeriodProcessor.hours_of (ci_cooling_end info - t);
               ss_check_count := ci_check_count info;
               ss_status := ci_status info |}) :: rest)
  end.

Definition get_cooling_status : M cooling_status :=
  w <- get_world ;;
  sessions <- session_statuses (cooling_sessions w) ;;
  ret {| cs_total_sessions := length (cooling_sessions w);
         cs_active_servers := map fst (cooling_sessions w);
         cs_sessions := sessions |}.

(** ** The API: [initiate_server_demise] *)

(** The validated body of a request: [server_id] is a [str], the other
    fields may be [None]. *)
Record ServerDemiseRequest : Type := {
  request_server_id : string;
  request_reason : option string;
  request_priority : option string;
  request_requester : option string;
  request_additional_data : option dict
}.

Definition optional_str (o : option string) : value :=
  match o with Some s => VStr s | None => VNone end.

Definition optional_dict (o : option dict) : value :=
  match o with Some d => VDict d | None => VNone end.

(** What the endpoint returns: the [EventResponse] of an initiated
    pipeline, or the [HTTPException] its [except] clause raises.  The
    producer exists once the application has started; a send that the
    broker fails is not distinguished. *)
Inductive endpoint_result : Type :=
| EventResponse (message_id status message timestamp : string) (pipeline_initiated : bool)
| HTTPException (status_code : Z) (detail : string).

Definition initiate_server_demise (request : ServerDemiseRequest) : M endpoint_result :=
  E <- ask ;;
  message_id <- uuid4 ;;
  ts <- now ;;
  let pipeline_message :=
    [ ("id", VStr message_id);
      ("action", VStr "check_server");
      ("status", VStr "pending");
      ("processor", VStr "API");
      ("timestamp", VStr (isoformat E ts));
      ("data", VDict
         [ ("server_id", VStr (request_server_id request));
           ("reason", optional_str (request_reason request));
           ("priority", optional_str (request_priority request));
           ("requester", optional_str (request_requester request));
           ("additional_data", optional_dict (request_additional_data request)) ]);
      ("message", VStr ("Server demise pipeline initiated for server "
                        ++ request_server_id request));
      ("pipeline_step", VInt 0);
      ("next_step", VStr "check_server") ] in
  if serializable (VDict pipeline_message) then
    emit (Produce pipeline_message) ;;;
    ts' <- now ;;
    ret (EventResponse message_id "initiated"
           ("Server demise pipeline initiated for server " ++ request_server_id request)
           (isoformat E ts') true)
  else
    ret (HTTPException 500
           "Pipeline initiation failed: Object of type datetime is not JSON serializable").

(** * Vocabulary of the statements *)

(** The existence rule in the words of the specification: the id is a
    decimal integer between 100 and 999, or it is no decimal integer and
    its upper-case form starts with a known prefix.

    A decimal integer is written with the digits 0 to 9, of which a single
    underscore may part two, after an optional sign and between blanks;
    the interpreter reads at most 4300 digits. *)
Definition decimal_digits : list (ascii * Z) :=
  [ ("0"%char, 0); ("1"%char, 1); ("2"%char, 2); ("3"%char, 3); ("4"%char, 4);
    ("5"%char, 5); ("6"%char, 6); ("7"%char, 7); ("8"%char, 8); ("9"%char, 9) ].

(** Space, tab, line feed, vertical tab, form feed, carriage return. *)
Definition blanks : list ascii :=
  [ " "%char; "009"%char; "010"%char; "011"%char; "012"%char; "013"%char ].

(** [numeral l n k]: the characters [l] are a numeral of [k] digits that
    denotes [n]. *)
Inductive numeral : list ascii -> Z -> nat -> Prop :=
| numeral_digit (c : ascii) (d : Z) :
    In (c, d) decimal_digits -> numeral [c] d 1
| numeral_next (l : list ascii) (n : Z) (k : nat) (c : ascii) (d : Z) :
    numeral l n k -> In (c, d) decimal_digits ->
    numeral (l ++ [c]) (10 * n + d) (S k)
| numeral_underscore (l : list ascii) (n : Z) (k : nat) (c : ascii) (d : Z) :
    numeral l n k -> In (c, d) decimal_digits ->
    numeral (l ++ ["_"%char; c]) (10 * n + d) (S k).

Definition integer_literal (s : string) (v : Z) : Prop :=
  exists before core after body n k,
    list_ascii_of_string s = (before ++ core ++ after)%list /\
    Forall (fun c => In c blanks) before /\
    Forall (fun c => In c blanks) after /\
    numeral body n k /\ (k <= 4300)%nat /\
    ((core = body /\ v = n) \/
     (core = "+"%char :: body /\ v = n) \/
     (core = "-"%char :: body /\ v = - n)).

(** The small letters with their capitals. *)
Definition letters : list (ascii * ascii) :=
  [ ("a"%char, "A"%char); ("b"%char, "B"%char); ("c"%char, "C"%char);
    ("d"%char, "D"%char); ("e"%char, "E"%char); ("f"%char, "F"%char);
    ("g"%char, "G"%char); ("h"%char, "H"%char); ("i"%char, "I"%char);
    ("j"%char, "J"%char); ("k"%char, "K"%char); ("l"%char, "L"%char);
    ("m"%char, "M"%char); ("n"%char, "N"%char); ("o"%char, "O"%char);
    ("p"%char, "P"%char); ("q"%char, "Q"%char); ("r"%char, "R"%char);
    ("s"%char, "S"%char); ("t"%char, "T"%char); ("u"%char, "U"%char);
    ("v"%char, "V"%char); ("w"%char, "W"%char); ("x"%char, "X"%char);
    ("y"%char, "Y"%char); ("z"%char, "Z"%char) ].

(** [u] is the upper-case form of [c]: the capital of a small letter,
    and any other character itself. *)
Definition capital_of (c u : ascii) : Prop :=
  In (c, u) letters \/ (c = u /\ forall u', ~ In (c, u') letters).

(** The upper-case form of [s] starts with [prefix]. *)
Definition starts_with_ignoring_case (s prefix : string) : Prop :=
  exists head rest,
    s = head ++ rest /\
    Forall2 capital_of (list_ascii_of_string head) (list_ascii_of_string prefix).

(** For an id with a character that is not ASCII, what the interpreter
    answers is an input of the run. *)
Definition parses_as (E : runtime) (s : string) (n : Z) : Prop :=
  if isascii s then integer_literal s n else unicode_int E s = Some n.

Definition upper_starts_with (E : runtime) (s prefix : string) : Prop :=
  if isascii s then starts_with_ignoring_case s prefix
  else exists rest, unicode_upper E s = prefix ++ rest.

Definition portal_rule (E : runtime) (server_id : string) : Prop :=
  (exists n, parses_as E server_id n /\ 100 <= n <= 999) \/
  ((forall n, ~ parses_as E server_id n) /\
   exists prefix, In prefix ["SRV"; "HOST"; "VM"; "PROD"; "TEST"] /\
                  upper_starts_with E server_id prefix).

(** A power-off request for server "150", as the Check stage emits it. *)
Definition poweroff_request : dict :=
  request "poweroff_server"
    [ ("server_id", VStr "150");
      ("server_details", VDict [("ip_address", VStr "192.168.1.150")]);
      ("check_result", VStr "server_found");
      ("original_request", VDict [("server_id", VStr "150")]) ].

(** The data payload of [m] has no [server_id]: it is a dict without the
    key, or the message has no payload, or the payload is not a dict. *)
Definition lacks_server_id (m : dict) : Prop :=
  match get_default m "data" (VDict []) with
  | VDict d => lookup d "server_id" = None
  | _ => True
  end.

Definition is_dict (v : value) : bool :=
  match v with VDict _ => true | _ => false end.

Definition failure_prefix (p : processor) : string :=
  match p with
  | Cooling => "Cooling period failed: "
  | _ => "Pipeline terminated: "
  end.

(** What a stage answers when the payload has no server id. *)
Definition validation_outcome (p : BaseProcessor) (E : runtime) (w : world) (m : dict)
    : Prop :=
  exists resp why,
    run (process_message p m) E w = (inr resp, tick_clock (tick_uuid w)) /\
    get resp "pipeline_complete" = VBool true /\
    get resp "status" = VStr "error" /\
    get resp "error" = VStr why /\
    get resp "message" = VStr (failure_prefix (stage p) ++ why) /\
    (is_dict (get_default m "data" (VDict [])) = true ->
     startswith why "Server ID is required" = true) /\
    get resp "data" = get_default m "data" (VDict []) /\
    (serializable (VDict m) = true -> serializable (VDict resp) = true) /\
    truthy (VDict resp) = true.

(** The stage reports success: the status of its answer is [pending] (a
    successor message) or [completed] (the end of the pipeline). *)
Definition success (resp : dict) : bool :=
  eq_str (get resp "status") "pending" || eq_str (get resp "status") "completed".

(** The data payload of a message, as a dict. *)
Definition payload_of (m : dict) : dict :=
  match get_default m "data" (VDict []) with
  | VDict d => d
  | _ => []
  end.

Definition poweroff_success_result : dict :=
  [ ("success", VBool true);
    ("power_status", VStr "off");
    ("poweroff_method", VStr "IPMI");
    ("execution_time", VStr "4.5s");
    ("verification", VStr "confirmed_off") ].

(** The keys a stage copies from the incoming payload, and the keys it
    writes itself. *)
Definition carried (p : processor) : list string :=
  match p with
  | Check => ["server_id"]
  | PowerOff => ["server_id"; "server_details"; "original_request"]
  | Demise => ["server_id"; "server_details"; "poweroff_result"; "original_request"]
  | Cooling => []
  end.

Definition added (p : processor) : list string :=
  match p with
  | Check => ["server_details"; "check_result"; "original_request"]
  | PowerOff => ["poweroff_result"; "poweroff_timestamp"]
  | Demise => ["demise_result"; "completion_timestamp"; "pipeline_summary"]
  | Cooling => []
  end.

(** The claim as the specification states it: every field of the incoming
    payload is, unchanged and under the same key, in the payload of the
    success message. *)
Definition payload_monotone (p : BaseProcessor) : Prop :=
  forall (E : runtime) (w w' : world) (m resp : dict),
    should_process_message p m = true ->
    run (process_message p m) E w = (inr resp, w') ->
    success resp = true ->
    forall k v, lookup (payload_of m) k = Some v -> lookup (payload_of resp) k = Some v.

Definition check_request : dict :=
  request "check_server" [("server_id", VStr "150"); ("requester", VStr "test_user")].

Definition demise_request : dict :=
  request "demise_server"
    [ ("server_id", VStr "150");
      ("server_details", VDict [("ip_address", VStr "192.168.1.150")]);
      ("poweroff_result", VDict poweroff_success_result);
      ("poweroff_timestamp", VStr "T1");
      ("original_request", VDict [("server_id", VStr "150")]) ].

(** The world with its counters of clock readings, identifiers and random
    draws advanced. *)
Definition advance (c u d : nat) (w : world) : world :=
  {| heap := heap w; cooling_sessions := cooling_sessions w;
     cooling_threads := cooling_threads w; trace := trace w;
     n_clock := (c + n_clock w)%nat; n_uuid := (u + n_uuid w)%nat;
     n_rand := (d + n_rand w)%nat |}.

(** The parts of a session that come from a decoded JSON message. *)
Definition json_session (info : cooling_info) : bool :=
  serializable (VDict (ci_original_message info))
  && serializable (ci_server_details info)
  && serializable (ci_poweroff_timestamp info).

(** The world after [_send_response], and after the guarded deletion of a
    session. *)
Definition sent (msg : dict) (w : world) : world :=
  if serializable (VDict msg) then log (Produce msg) w else w.

Definition removed (server_id : value) (w : world) : world :=
  if map_mem (cooling_sessions w) server_id
  then log (SessionDel server_id)
         (set_sessions (map_del (cooling_sessions w) server_id) w)
  else w.

(** The three ways a cooling session ends. *)
Inductive terminal_branch : Type :=
| Violation (power_status : dict)
| Completion
| InternalError (error_msg : string).

Definition terminal_handler (b : terminal_branch) (server_id : value) (r : nat) : M unit :=
  match b with
  | Violation power_status => ServerCoolingPeriodProcessor._handle_cooling_violation server_id r power_status
  | Completion => ServerCoolingPeriodProcessor._handle_cooling_complete server_id r
  | InternalError error_msg => ServerCoolingPeriodProcessor._handle_cooling_error server_id r error_msg
  end.

Definition terminal_action (b : terminal_branch) : string :=
  match b with
  | Violation _ => "cooling_violation_error"
  | Completion => "demise_server"
  | InternalError _ => "cooling_error"
  end.

(** What the branch itself puts into its message can be encoded. *)
Definition branch_serializable (b : terminal_branch) (info : cooling_info) : bool :=
  match b with
  | Violation power_status => serializable (VDict power_status)
  | Completion => true
  | InternalError _ => serializable (ci_last_check info)
  end.

(** The session [process_message] creates for message [m] with payload
    [d], when its clock readings start at index [n]. *)
Definition new_session (E : runtime) (n : nat) (m d : dict) : cooling_info :=
  {| ci_server_id := get d "server_id";
     ci_server_details := get_default d "server_details" (VDict []);
     ci_poweroff_timestamp :=
       get_default d "poweroff_timestamp" (VStr (isoformat E (clock E n)));
     ci_cooling_start := clock E (1 + n);
     ci_cooling_end := clock E (2 + n) + ServerCoolingPeriodProcessor.timedelta_hours ServerCoolingPeriodProcessor.cooling_period_hours;
     ci_original_message := m;
     ci_check_count := 0;
     ci_last_check := VNone;
     ci_status := "monitoring" |}.

Definition cooling_request : dict :=
  request "start_cooling_period"
    [ ("server_id", VStr "150");
      ("server_details", VDict [("ip_address", VStr "192.168.1.150")]);
      ("poweroff_timestamp", VStr "T1") ].

(** The first start message for server "150" creates the session and its
    thread. *)
Definition cooling_started : world :=
  snd (run (ServerCoolingPeriodProcessor.process_message cooling_request) sample
         initial_world).

(** The session object after a check made at time [t]. *)
Definition checked (info : cooling_info) (t : Z) : cooling_info :=
  {| ci_server_id := ci_server_id info;
     ci_server_details := ci_server_details info;
     ci_poweroff_timestamp := ci_poweroff_timestamp info;
     ci_cooling_start := ci_cooling_start info;
     ci_cooling_end := ci_cooling_end info;
     ci_original_message := ci_original_message info;
     ci_check_count := ci_check_count info + 1;
     ci_last_check := VDatetime t;
     ci_status := ci_status info |}.

(** The answer of the power-status oracle to the check that starts in
    world [w]: powered-on when the next draw is below 0.05, unless the
    query fails because the server details are no dict. *)
Definition reports_powered_on (E : runtime) (w : world) (details : value) : bool :=
  negb (Qle_bool (5 # 100) (rand E (n_rand w))) && is_dict details.

(** The world in which the oracle is asked during the check that starts
    in [w]: the check is counted and dated first. *)
Definition counted (E : runtime) (w : world) (r : nat) (info : cooling_info) : world :=
  tick_clock (set_heap (list_update (heap w) r (checked info (clock E (n_clock w)))) w).

Definition never_on : runtime := sample_runtime hourly (fun _ => 1 # 2).

(** [nth_check E server_id r n w]: in world [w] the monitor of the
    session object [r] is about to make its [n]-th power check.  The
    first check finds the counter at zero, as [process_message] sets it;
    between two checks of the monitor anything may happen that leaves its
    session object alone. *)
Inductive nth_check (E : runtime) (server_id : value) (r : nat) : nat -> world -> Prop :=
| first_check (w : world) (info : cooling_info) :
    nth_error (heap w) r = Some info ->
    ci_check_count info = 0 ->
    nth_check E server_id r 1 w
| later_check (n : nat) (w w1 w2 : world) :
    nth_check E server_id r n w ->
    run (ServerCoolingPeriodProcessor._perform_power_check server_id r) E w = (inr tt, w1) ->
    nth_error (heap w2) r = nth_error (heap w1) r ->
    nth_check E server_id r (S n) w2.

(** A random source whose third draw is the first below 0.05. *)
Definition third_on : runtime :=
  sample_runtime hourly (fun i => if (i <? 2)%nat then 1 # 2 else 1 # 100).

Definition after_one_check : world :=
  snd (run (ServerCoolingPeriodProcessor._perform_power_check (VStr "150") 0) third_on cooling_started).

Definition after_two_checks : world :=
  snd (run (ServerCoolingPeriodProcessor._perform_power_check (VStr "150") 0) third_on after_one_check).

(** The states of a session object: [process_message] creates it from
    message [m] with payload [d], taking clock readings from index [n]
    on; after that only the checks of its monitor change it. *)
Inductive session_state (E : runtime) (n : nat) (m d : dict) : cooling_info -> Prop :=
| session_created : session_state E n m d (new_session E n m d)
| session_checked (info : cooling_info) (t : Z) :
    session_state E n m d info -> session_state E n m d (checked info t).

(** A clock that jumps to the hundredth hour after the session is
    created. *)
Definition late : runtime :=
  sample_runtime (fun i => if (i <? 4)%nat then hourly i else hourly 100)
    (fun _ => 1 # 2).

Definition cooling_payload : dict :=
  [ ("server_id", VStr "150");
    ("server_details", VDict [("ip_address", VStr "192.168.1.150")]);
    ("poweroff_timestamp", VStr "T1") ].

Definition cooling_started_late : world :=
  snd (run (ServerCoolingPeriodProcessor.process_message cooling_request) late
         initial_world).

(** The claim as the specification states it: the end of the cooling
    period of a session [process_message] has just created is its start
    plus [ServerCoolingPeriodProcessor.cooling_period_hours]. *)
Definition end_is_start_plus_period : Prop :=
  forall (E : runtime) (w w' : world) (m resp : dict) (r : nat) (info : cooling_info),
    run (ServerCoolingPeriodProcessor.process_message m) E w = (inr resp, w') ->
    nth_error (heap w) r = None ->
    nth_error (heap w') r = Some info ->
    ci_cooling_end info = ci_cooling_start info + ServerCoolingPeriodProcessor.timedelta_hours ServerCoolingPeriodProcessor.cooling_period_hours.

(** A server that is found powered on at every check, under a clock that
    jumps to the hundredth hour after the first turn of the monitor has
    begun. *)
Definition always_on : runtime :=
  sample_runtime (fun i => if (i <? 5)%nat then hourly i else hourly 100)
    (fun _ => 1 # 100).

Definition cooling_started_on : world :=
  snd (run (ServerCoolingPeriodProcessor.process_message cooling_request) always_on
         initial_world).

(** A clock that shows the forty-ninth hour, 48 hours after the start of
    the session of [cooling_started], from the first turn of the monitor
    on. *)
Definition period_over : runtime :=
  sample_runtime (fun i => if (i <? 4)%nat then hourly i else hourly 49)
    (fun _ => 1 # 2).

(** The session deletions on record. *)
Fixpoint deletions (t : list event) : list value :=
  match t with
  | [] => []
  | SessionDel server_id :: t' => server_id :: deletions t'
  | _ :: t' => deletions t'
  end.

(** ** Vocabulary of the further properties *)

(** [p] accepts [m]; the answer of [p] to [m]. *)
Definition accepts (p : BaseProcessor) (m : dict) : bool :=
  should_process_message p m.

Definition answer (p : BaseProcessor) (m : dict) : M dict :=
  process_message p m.

(** The only hand-overs between stages: Check to PowerOff, PowerOff to
    Demise. *)
Definition next_stage (p q : processor) : Prop :=
  (p = Check /\ q = PowerOff) \/ (p = PowerOff /\ q = Demise).

(** The request a message belongs to, as stage [p] reads it: the Check
    stage takes the id of the message, the later stages prefer its
    [original_request_id]. *)
Definition request_id (p : processor) (m : dict) : value :=
  match p with
  | Check => get m "id"
  | _ => get_default m "original_request_id" (get m "id")
  end.

Definition failed_or_error (resp : dict) : bool :=
  eq_str (get resp "status") "failed" || eq_str (get resp "status") "error".

(** A terminal failure message of stage [p] for message [m]. *)
Definition terminal_failure (p : processor) (m resp : dict) : Prop :=
  get resp "data" = get_default m "data" (VDict []) /\
  get resp "pipeline_complete" = VBool true /\
  exists why, get resp "error" = VStr why /\
              get resp "message" = VStr (failure_prefix p ++ why).

(** What every answer of a stage has: it is returned, not raised; it is
    not empty; it can be encoded when the message could; nothing is sent
    while it is computed; it names the request of the message; when its
    status is [failed] or [error] it is a terminal failure with the payload
    as it came; and only the next stage of the pipeline accepts it. *)
Definition well_answered (p : BaseProcessor) (E : runtime) (w : world) (m : dict) : Prop :=
  exists resp w',
    run (process_message p m) E w = (inr resp, w') /\
    truthy (VDict resp) = true /\
    (serializable (VDict m) = true -> serializable (VDict resp) = true) /\
    produced w' = produced w /\
    lookup resp "original_request_id" = Some (request_id (stage p) m) /\
    (failed_or_error resp = true -> terminal_failure (stage p) m resp) /\
    (forall q, In q processors -> should_process_message q resp = true ->
               next_stage (stage p) (stage q)).

(** A processor that accepts everything and whose [process_message]
    raises. *)
Definition raising_processor : BaseProcessor :=
  Build_BaseProcessor "RaisingProcessor" Check (fun _ => true)
    (fun _ => raise (ValueError "no such server")).

(** The messages of a monitor thread: a violation report, and the
    hand-over of the server to the Demise stage. *)
Definition is_violation (msg : dict) : Prop :=
  get msg "action" = VStr "cooling_violation_error" /\
  get msg "status" = VStr "violation_error" /\
  get msg "pipeline_complete" = VBool true.

Definition is_handover (msg : dict) : Prop :=
  get msg "action" = VStr "demise_server" /\
  get msg "status" = VStr "pending".

(** What a monitor thread has sent when it is in state [st]: violation
    reports only while it is in its loop, and the hand-over as its last
    message when it has ended. *)
Definition monitor_output (st : ServerCoolingPeriodProcessor.loop_status)
    (out : list dict) : Prop :=
  match st with
  | ServerCoolingPeriodProcessor.Continue => Forall is_violation out
  | ServerCoolingPeriodProcessor.Break =>
      exists reports msg,
        out = (reports ++ [msg])%list /\ Forall is_violation reports /\ is_handover msg
  end.

(** Nothing of another server is touched between [w] and [w']: its entry
    in the session map is as it was, and so is every session object but
    the one at [r]. *)
Definition others_untouched (server_id : value) (r : nat) (w w' : world) : Prop :=
  (forall k, key_eqb k server_id = false ->
             map_find (cooling_sessions w') k = map_find (cooling_sessions w) k) /\
  (forall r', r' <> r -> nth_error (heap w') r' = nth_error (heap w) r').

(** [msg] names the request of the start message [m] and the server. *)
Definition concerns (m : dict) (server_id : value) (msg : dict) : Prop :=
  get msg "original_request_id" = request_id Cooling m /\
  get (payload_of msg) "server_id" = server_id.

(** Every session of the map has its object in the heap. *)
Definition sessions_allocated (w : world) : Prop :=
  forall k r, In (k, r) (cooling_sessions w) ->
              exists info, nth_error (heap w) r = Some info.

(** A second session, for server "151", started while the first one is
    monitored. *)
Definition second_request : dict :=
  request "start_cooling_period" [("server_id", VStr "151")].

Definition two_sessions : world :=
  snd (run (ServerCoolingPeriodProcessor.process_message second_request) late
         cooling_started_late).

(** The answer [a] names the request of message [m], as stage [p] reads
    it. *)
Definition answers_request (p : BaseProcessor) (m a : dict) : Prop :=
  lookup a "original_request_id" = Some (request_id (stage p) m).

Definition json_message (m : dict) : Prop := serializable (VDict m) = true.

(** * Properties *)

(** ** Reading dictionaries and running the monad *)

Example int_of_string_examples :
  int_of_string "150" = Some 150 /\ int_of_string " +1_5_0 " = Some 150 /\
  int_of_string "-0" = Some 0 /\ int_of_string "1__5" = None /\
  int_of_string "_15" = None /\ int_of_string "0x10" = None /\
  int_of_string "" = None /\ int_of_string "+ 150" = None /\
  int_of_string "SRV-1" = None.
Proof. repeat split; reflexivity. Qed.

(** A literal of 4300 digits is read, one of 4301 digits is refused, also
    when its value is small. *)
Example int_of_string_digit_bound :
  int_of_string (string_of_list_ascii (repeat "0"%char 4297 ++ list_ascii_of_string "150"))
  = Some 150 /\
  int_of_string (string_of_list_ascii (repeat "0"%char 4298 ++ list_ascii_of_string "150"))
  = None.
Proof. split; vm_compute; reflexivity. Qed.

Lemma eq_str_true (v : value) (s : string) :
  eq_str v s = true -> v = VStr s.
Proof.
  destruct v; simpl; try discriminate.
  intros H. apply String.eqb_eq in H. now subst.
Qed.

(** Two stages that accept the same message are the same stage: the
    trigger actions are four different literals. *)
Lemma accepting_stage_unique (p q : BaseProcessor) (m : dict) :
  In p processors -> In q processors ->
  should_process_message p m = true -> should_process_message q m = true ->
  p = q.
Proof.
  unfold processors. simpl.
  intros Hp Hq Ap Aq.
  repeat match goal with
         | H : _ \/ _ |- _ => destruct H
         | H : False |- _ => destruct H
         end; subst; try reflexivity; exfalso;
    simpl in Ap, Aq;
    unfold ServerCheckProcessor.should_process_message,
      ServerPowerOffProcessor.should_process_message,
      ServerCoolingPeriodProcessor.should_process_message,
      ServerDemiseProcessor.should_process_message in Ap, Aq;
    apply andb_prop in Ap; apply andb_prop in Aq;
    destruct Ap as [Ap _], Aq as [Aq _];
    apply eq_str_true in Ap; rewrite Ap in Aq; discriminate Aq.
Qed.

(** C1. Routing uniqueness: whatever the action and status of a message
    are, at most one of the four configured processors accepts it. *)
Theorem routing_uniqueness (m : dict) :
  (length (filter (fun p => should_process_message p m) processors) <= 1)%nat.
Proof.
  unfold processors. simpl.
  unfold ServerCheckProcessor.should_process_message,
    ServerPowerOffProcessor.should_process_message,
    ServerCoolingPeriodProcessor.should_process_message,
    ServerDemiseProcessor.should_process_message.
  destruct (get m "action") as [| | | | a | | |]; simpl; try lia.
  destruct (String.eqb_spec a "check_server") as [-> | _]; simpl.
  - destruct (eq_str (get m "status") "pending"); simpl; lia.
  - destruct (String.eqb_spec a "poweroff_server") as [-> | _]; simpl.
    + destruct (eq_str (get m "status") "pending"); simpl; lia.
    + destruct (String.eqb_spec a "start_cooling_period") as [-> | _]; simpl.
      * destruct (eq_str (get m "status") "pending"); simpl; lia.
      * destruct (String.eqb a "demise_server" && eq_str (get m "status") "pending");
          simpl; lia.
Qed.

(** ** [int] and [upper] on ASCII strings *)

Ltac find_in_list := simpl; repeat (first [left; reflexivity | right]).

Lemma digit_of_spec (c : ascii) (d : Z) :
  digit_of c = Some d <-> In (c, d) decimal_digits.
Proof.
  split.
  - destruct c as [[] [] [] [] [] [] [] []]; cbn; intros H; try discriminate H;
      injection H as <-; solve [find_in_list].
  - intros H. simpl in H.
    repeat (destruct H as [H | H]; [injection H as <- <-; reflexivity |]).
    destruct H.
Qed.

Lemma is_space_spec (c : ascii) : is_space c = true <-> In c blanks.
Proof.
  split.
  - destruct c as [[] [] [] [] [] [] [] []]; cbn; intros H; try discriminate H;
      solve [find_in_list].
  - intros H. simpl in H.
    repeat (destruct H as [H | H]; [subst c; reflexivity |]).
    destruct H.
Qed.

Lemma digit_no_blank (c : ascii) (d : Z) :
  In (c, d) decimal_digits ->
  is_space c = false /\ Ascii.eqb c "-" = false /\ Ascii.eqb c "+" = false /\
  Ascii.eqb c "_" = false.
Proof.
  intros H. simpl in H.
  repeat (destruct H as [H | H]; [injection H as <- <-; repeat split |]).
  destruct H.
Qed.

Lemma lstrip_blanks (ws l : list ascii) :
  Forall (fun c => In c blanks) ws -> lstrip (ws ++ l) = lstrip l.
Proof.
  induction 1 as [| c ws Hc _ IH]; [reflexivity |].
  simpl. apply is_space_spec in Hc. now rewrite Hc.
Qed.

Lemma lstrip_split (l : list ascii) :
  exists ws,
    Forall (fun c => In c blanks) ws /\ l = (ws ++ lstrip l)%list.
Proof.
  induction l as [| c l (ws & Hws & Hl)]; [exists []; split; [constructor | reflexivity] |].
  simpl. destruct (is_space c) eqn:Hc.
  - exists (c :: ws). split; [constructor; [now apply is_space_spec | exact Hws] |].
    simpl. now rewrite <- Hl.
  - exists []. split; [constructor | reflexivity].
Qed.

Lemma strip_split (l : list ascii) :
  exists before after,
    l = (before ++ strip l ++ after)%list /\
    Forall (fun c => In c blanks) before /\ Forall (fun c => In c blanks) after.
Proof.
  unfold strip.
  destruct (lstrip_split l) as (ws1 & H1 & Hl).
  destruct (lstrip_split (rev (lstrip l))) as (ws2 & H2 & Hr).
  exists ws1, (rev ws2). split; [| split; [exact H1 | now apply Forall_rev]].
  rewrite <- rev_app_distr, <- Hr, rev_involutive. exact Hl.
Qed.

Lemma strip_core (before core after inner : list ascii) (a z : ascii) (t : list ascii) :
  Forall (fun c => In c blanks) before ->
  Forall (fun c => In c blanks) after ->
  core = a :: t -> core = (inner ++ [z])%list ->
  is_space a = false -> is_space z = false ->
  strip (before ++ core ++ after) = core.
Proof.
  intros Hb Ha Hfirst Hlast Ha0 Hz0. unfold strip.
  rewrite (lstrip_blanks before _ Hb).
  assert (H1 : lstrip (core ++ after) = (core ++ after)%list).
  { rewrite Hfirst. simpl. now rewrite Ha0. }
  rewrite H1, rev_app_distr, (lstrip_blanks (rev after) _ (Forall_rev Ha)).
  rewrite Hlast at 1. rewrite rev_app_distr. simpl. rewrite Hz0.
  change (z :: rev inner) with (rev [z] ++ rev inner)%list.
  now rewrite <- rev_app_distr, rev_involutive.
Qed.

Lemma numeral_run (body : list ascii) (n : Z) (k : nat) :
  numeral body n k ->
  forall rest, int_digits 0 false (body ++ rest) = int_digits n true rest.
Proof.
  induction 1 as [c d Hc | l n k c d _ IH Hc | l n k c d _ IH Hc]; intros rest.
  - apply digit_of_spec in Hc. simpl. now rewrite Hc.
  - apply digit_of_spec in Hc. rewrite <- app_assoc, IH. simpl. now rewrite Hc.
  - apply digit_of_spec in Hc. rewrite <- app_assoc, IH. simpl. now rewrite Hc.
Qed.

Lemma count_digits_app (l1 l2 : list ascii) :
  count_digits (l1 ++ l2) = (count_digits l1 + count_digits l2)%nat.
Proof. unfold count_digits. now rewrite filter_app, length_app. Qed.

Lemma numeral_count (body : list ascii) (n : Z) (k : nat) :
  numeral body n k -> count_digits body = k.
Proof.
  induction 1 as [c d Hc | l n k c d _ IH Hc | l n k c d _ IH Hc];
    apply digit_of_spec in Hc.
  - unfold count_digits. simpl. now rewrite Hc.
  - rewrite count_digits_app, IH. unfold count_digits. simpl. rewrite Hc. simpl. lia.
  - rewrite count_digits_app, IH. unfold count_digits. simpl. rewrite Hc. simpl. lia.
Qed.

Lemma numeral_ends (body : list ascii) (n : Z) (k : nat) :
  numeral body n k ->
  exists a t inner z da dz,
    body = a :: t /\ body = (inner ++ [z])%list /\
    In (a, da) decimal_digits /\ In (z, dz) decimal_digits.
Proof.
  induction 1 as [c d Hc | l n k c d _ IH Hc | l n k c d _ IH Hc].
  - exists c, [], [], c, d, d. repeat split; assumption.
  - destruct IH as (a & t & _ & _ & da & _ & -> & _ & Ha & _).
    exists a, (t ++ [c])%list, (a :: t), c, da, d. repeat split; assumption.
  - destruct IH as (a & t & _ & _ & da & _ & -> & _ & Ha & _).
    exists a, (t ++ ["_"%char; c])%list, ((a :: t) ++ ["_"%char])%list, c, da, d.
    repeat split; try assumption. now rewrite <- app_assoc.
Qed.

(** What [int_digits] has read when it is at the end of the prefix [p]. *)
Lemma int_digits_numeral (l : list ascii) :
  forall (p : list ascii) (acc : Z) (b : bool) (k : nat) (v : Z),
    (b = true /\ numeral p acc k) \/
    (b = false /\ p = [] /\ acc = 0 /\ k = O) \/
    (b = false /\ exists q, p = (q ++ ["_"%char])%list /\ numeral q acc k) ->
    int_digits acc b l = Some v ->
    exists k', numeral (p ++ l) v k'.
Proof.
  induction l as [| c l IH]; intros p acc b k v Hinv Hrun; simpl in Hrun.
  - destruct b; [| discriminate Hrun]. injection Hrun as <-.
    destruct Hinv as [[_ Hn] | [[Hb _] | [Hb _]]]; try discriminate Hb.
    exists k. now rewrite app_nil_r.
  - destruct (digit_of c) as [d |] eqn:Hc.
    + apply digit_of_spec in Hc.
      replace (p ++ c :: l)%list with ((p ++ [c]) ++ l)%list
        by now rewrite <- app_assoc.
      apply (IH (p ++ [c])%list (10 * acc + d) true (S k) v); [| exact Hrun].
      left. split; [reflexivity |].
      destruct Hinv as [[_ Hn] | [(_ & -> & -> & ->) | (_ & q & -> & Hn)]].
      * now constructor.
      * change (10 * 0 + d) with d. simpl. destruct d; now constructor.
      * rewrite <- app_assoc. simpl. now apply numeral_underscore.
    + destruct (Ascii.eqb_spec c "_") as [-> | _]; [| discriminate Hrun].
      destruct b; [| discriminate Hrun]. simpl in Hrun.
      destruct Hinv as [[_ Hn] | [[Hb _] | [Hb _]]]; try discriminate Hb.
      replace (p ++ "_"%char :: l)%list with ((p ++ ["_"%char]) ++ l)%list
        by now rewrite <- app_assoc.
      apply (IH (p ++ ["_"%char])%list acc false k v); [| exact Hrun].
      right. right. split; [reflexivity |]. now exists p.
Qed.

(** [int] reads exactly the decimal integers. *)
Lemma int_of_string_spec (s : string) (v : Z) :
  int_of_string s = Some v <-> integer_literal s v.
Proof.
  unfold int_of_string, integer_literal. cbv zeta. split.
  - intros H.
    destruct (strip_split (list_ascii_of_string s)) as (before & after & Hl & Hb & Ha).
    destruct (count_digits (strip (list_ascii_of_string s)) <=? max_str_digits)%nat
      eqn:Hk; [| discriminate H].
    apply Nat.leb_le in Hk.
    destruct (strip (list_ascii_of_string s)) as [| c l] eqn:Hs; [discriminate H |].
    assert (Hnum : forall body n,
               int_digits 0 false body = Some n ->
               exists k, numeral body n k).
    { intros body n Hrun.
      apply (int_digits_numeral body [] 0 false O n); [| exact Hrun].
      right. left. repeat split. }
    destruct (Ascii.eqb_spec c "-") as [-> | Hminus].
    + destruct (int_digits 0 false l) as [n |] eqn:Hrun; [| discriminate H].
      injection H as <-. destruct (Hnum l n Hrun) as (k & Hn).
      exists before, ("-"%char :: l), after, l, n, k.
      split; [exact Hl |]. split; [exact Hb |]. split; [exact Ha |].
      split; [exact Hn |].
      split; [rewrite <- (numeral_count l n k Hn); exact Hk |].
      right. right. split; reflexivity.
    + destruct (Ascii.eqb_spec c "+") as [-> | Hplus].
      * destruct (Hnum l v H) as (k & Hn).
        exists before, ("+"%char :: l), after, l, v, k.
        split; [exact Hl |]. split; [exact Hb |]. split; [exact Ha |].
        split; [exact Hn |].
        split; [rewrite <- (numeral_count l v k Hn); exact Hk |].
        right. left. split; reflexivity.
      * destruct (Hnum (c :: l) v H) as (k & Hn).
        exists before, (c :: l), after, (c :: l), v, k.
        split; [exact Hl |]. split; [exact Hb |]. split; [exact Ha |].
        split; [exact Hn |].
        split; [rewrite <- (numeral_count _ v k Hn); exact Hk |].
        left. split; reflexivity.
  - intros (before & core & after & body & n & k & Hl & Hb & Ha & Hn & Hk & Hcore).
    destruct (numeral_ends body n k Hn)
      as (a & t & inner & z & da & dz & Hfirst & Hlast & Hda & Hdz).
    destruct (digit_no_blank a da Hda) as (Hsa & Hma & Hpa & _).
    destruct (digit_no_blank z dz Hdz) as (Hsz & _).
    pose proof (numeral_run body n k Hn []) as Hrun. rewrite app_nil_r in Hrun.
    simpl in Hrun.
    pose proof (numeral_count body n k Hn) as Hcount.
    rewrite Hl.
    destruct Hcore as [[-> ->] | [[-> ->] | [-> ->]]].
    + rewrite (strip_core before body after inner a z t Hb Ha Hfirst Hlast Hsa Hsz).
      rewrite Hcount. apply Nat.leb_le in Hk. unfold max_str_digits. rewrite Hk.
      rewrite Hfirst, Hma, Hpa, <- Hfirst. exact Hrun.
    + rewrite (strip_core before ("+"%char :: body) after ("+"%char :: inner) "+" z body
                 Hb Ha eq_refl); [| now rewrite Hlast | reflexivity | exact Hsz].
      change (count_digits ("+"%char :: body)) with (count_digits body).
      rewrite Hcount. apply Nat.leb_le in Hk. unfold max_str_digits. rewrite Hk.
      simpl. exact Hrun.
    + rewrite (strip_core before ("-"%char :: body) after ("-"%char :: inner) "-" z body
                 Hb Ha eq_refl); [| now rewrite Hlast | reflexivity | exact Hsz].
      change (count_digits ("-"%char :: body)) with (count_digits body).
      rewrite Hcount. apply Nat.leb_le in Hk. unfold max_str_digits. rewrite Hk.
      simpl. now rewrite Hrun.
Qed.

(** [upper] takes each character to its upper-case form. *)
Lemma upper_ascii_spec (c u : ascii) : upper_ascii c = u <-> capital_of c u.
Proof.
  unfold capital_of. split.
  - intros <-.
    destruct c as [[] [] [] [] [] [] [] []]; cbn;
      first [ left; solve [find_in_list]
            | right; split; [reflexivity |];
              intros u' H; simpl in H;
              repeat (destruct H as [H | H]; [discriminate H |]); exact H ].
  - intros [H | [-> Hno]].
    + simpl in H.
      repeat (destruct H as [H | H]; [injection H as <- <-; reflexivity |]).
      destruct H.
    + destruct u as [[] [] [] [] [] [] [] []]; cbn; try reflexivity;
        exfalso; eapply Hno; solve [find_in_list].
Qed.

Lemma upper_prefix_spec (prefix : string) :
  forall s, startswith (upper s) prefix = true <-> starts_with_ignoring_case s prefix.
Proof.
  unfold startswith, starts_with_ignoring_case.
  induction prefix as [| u prefix IH]; intros s.
  - split; [intros _ | intros _; destruct s; reflexivity].
    exists "", s. split; [reflexivity | constructor].
  - destruct s as [| c s]; simpl.
    + split; [discriminate |].
      intros (head & rest & Hs & Hf). destruct head; [inversion Hf | discriminate Hs].
    + destruct (ascii_dec u (upper_ascii c)) as [Hu | Hu].
      * rewrite IH. split.
        -- intros (head & rest & -> & Hf).
           exists (String c head), rest. split; [reflexivity |].
           simpl. constructor; [now apply upper_ascii_spec | exact Hf].
        -- intros (head & rest & Hs & Hf).
           destruct head as [| c0 head]; [inversion Hf |].
           simpl in Hs, Hf. injection Hs as <- ->.
           inversion Hf; subst. now exists head, rest.
      * split; [discriminate |].
        intros (head & rest & Hs & Hf).
        destruct head as [| c0 head]; [inversion Hf |].
        simpl in Hs, Hf. injection Hs as <- ->.
        inversion Hf as [| ? ? ? ? Hc _]; subst.
        apply upper_ascii_spec in Hc. congruence.
Qed.

Lemma startswith_spec (prefix : string) :
  forall s, startswith s prefix = true <-> exists rest, s = prefix ++ rest.
Proof.
  unfold startswith.
  induction prefix as [| u prefix IH]; intros s.
  - split; [intros _; now exists s | intros _; destruct s; reflexivity].
  - destruct s as [| c s]; simpl.
    + split; [discriminate | intros (rest & H); discriminate H].
    + destruct (ascii_dec u c) as [-> | Hu].
      * rewrite IH. split; intros (rest & H); exists rest.
        -- now rewrite H.
        -- now injection H.
      * split; [discriminate |]. intros (rest & H). injection H as H _. congruence.
Qed.

(** ** The Check stage *)

Lemma check_server_in_portal_str (E : runtime) (w : world) (s : string) :
  run (ServerCheckProcessor._check_server_in_portal (VStr s)) E w =
  (inr match str_int E s with
       | Some n => (100 <=? n) && (n <=? 999)
       | None => existsb (fun prefix => startswith (str_upper E s) prefix)
                   ServerCheckProcessor.valid_prefixes
       end,
   log (Oracle "_check_server_in_portal" (VStr s)) w).
Proof.
  unfold run, ServerCheckProcessor._check_server_in_portal, bind, emit, modify, ask, py_int.
  destruct (str_int E s); reflexivity.
Qed.

(** The oracle's answer for a string id is the rule of [portal_rule]. *)
Lemma portal_answer (E : runtime) (s : string) :
  match str_int E s with
  | Some n => (100 <=? n) && (n <=? 999)
  | None => existsb (fun prefix => startswith (str_upper E s) prefix)
              ServerCheckProcessor.valid_prefixes
  end = true <-> portal_rule E s.
Proof.
  assert (Hparse : forall n, str_int E s = Some n <-> parses_as E s n).
  { intros n. unfold str_int, parses_as.
    destruct (isascii s); [apply int_of_string_spec | reflexivity]. }
  assert (Hstart : forall prefix,
             startswith (str_upper E s) prefix = true <-> upper_starts_with E s prefix).
  { intros prefix. unfold str_upper, upper_starts_with.
    destruct (isascii s); [apply upper_prefix_spec | apply startswith_spec]. }
  unfold portal_rule.
  destruct (str_int E s) as [n |] eqn:Hint.
  - split.
    + intros H. apply andb_prop in H. destruct H as [H1 H2].
      left. exists n. split; [now apply Hparse |].
      apply Z.leb_le in H1. apply Z.leb_le in H2. lia.
    + intros [(n' & Hn & Hr) | (Hn & _)].
      * apply Hparse in Hn. injection Hn as <-.
        apply andb_true_intro. split; apply Z.leb_le; lia.
      * exfalso. apply (Hn n). now apply Hparse.
  - split.
    + intros H. right. split.
      * intros n Hn. apply Hparse in Hn. discriminate Hn.
      * apply existsb_exists in H. destruct H as (p & Hin & Hp).
        exists p. split; [exact Hin | now apply Hstart].
    + intros [(n' & Hn & _) | (_ & p & Hin & Hp)].
      * apply Hparse in Hn. discriminate Hn.
      * apply existsb_exists. exists p. split; [exact Hin | now apply Hstart].
Qed.

(** C9. The reference existence rule of the Check stage, for a server id
    that is a string: the oracle answers true exactly when the id is a
    decimal integer in 100..999, or is no decimal integer and its
    upper-case form starts with SRV, HOST, VM, PROD or TEST.  For an id of
    ASCII characters a decimal integer is a numeral of the grammar of
    [integer_literal] and the upper-case form is taken letter by letter;
    for any other id both are what the interpreter answers.  Id "150" goes
    on to power-off; ids "42" and "1500" end the pipeline with the terminal
    failed message. *)
Theorem portal_existence_rule (E : runtime) (w : world) (s : string) :
  (exists b,
      fst (run (ServerCheckProcessor._check_server_in_portal (VStr s)) E w) = inr b /\
      (b = true <-> portal_rule E s)) /\
  (exists resp w',
      run (ServerCheckProcessor.process_message
             (request "check_server" [("server_id", VStr "150")])) E w = (inr resp, w') /\
      get resp "action" = VStr "poweroff_server" /\
      get resp "status" = VStr "pending" /\
      lookup resp "pipeline_complete" = None) /\
  (forall bad, bad = "42" \/ bad = "1500" ->
    exists resp w',
      run (ServerCheckProcessor.process_message
             (request "check_server" [("server_id", VStr bad)])) E w = (inr resp, w') /\
      get resp "action" = VStr "demise_complete" /\
      get resp "status" = VStr "failed" /\
      get resp "pipeline_complete" = VBool true).
Proof.
  split; [| split].
  - rewrite check_server_in_portal_str. cbn [fst].
    eexists; split; [reflexivity |]. apply portal_answer.
  - eexists; eexists. split; [reflexivity |].
    repeat split; reflexivity.
  - intros bad [-> | ->]; eexists; eexists; (split; [reflexivity |]);
      repeat split; reflexivity.
Qed.

(** The rule on some ids: blanks, a sign and underscores are read as
    [int] reads them, letters in either case. *)
Example portal_rule_examples (E : runtime) :
  portal_rule E " +1_5_0 " /\ portal_rule E "srv-7" /\ portal_rule E "Test" /\
  ~ portal_rule E "1__50" /\ ~ portal_rule E "99" /\ ~ portal_rule E "server".
Proof.
  repeat split; try (apply portal_answer; reflexivity);
    intros H; apply portal_answer in H; discriminate H.
Qed.

(** ** The PowerOff stage *)

(** C3 (the code departs from the claim). On a power-off request whose
    simulated power-off succeeds, the PowerOff stage emits one successor
    message, and its action is [demise_server], not
    [start_cooling_period]: the Demise stage accepts it and the cooling
    monitor does not. *)
Theorem poweroff_successor_skips_cooling :
  exists resp w',
    run (_handle_message ServerPowerOffProcessor.self poweroff_request)
      sample initial_world = (inr tt, w') /\
    produced w' = [resp] /\
    truthy (get (match get (match get resp "data" with VDict d => d | _ => [] end)
                         "poweroff_result" with VDict d => d | _ => [] end) "success") = true /\
    get resp "action" = VStr "demise_server" /\
    get resp "status" = VStr "pending" /\
    ServerCoolingPeriodProcessor.should_process_message resp = false /\
    ServerDemiseProcessor.should_process_message resp = true.
Proof.
  eexists; eexists. split; [vm_compute; reflexivity |].
  repeat split; reflexivity.
Qed.

(** No answer of the PowerOff stage triggers the cooling monitor. *)
Lemma poweroff_never_starts_cooling (E : runtime) (w w' : world) (m resp : dict) :
  run (ServerPowerOffProcessor.process_message m) E w = (inr resp, w') ->
  ServerCoolingPeriodProcessor.should_process_message resp = false.
Proof.
  unfold run, ServerPowerOffProcessor.process_message, try_except, bind.
  destruct (get_default m "data" (VDict [])) as [| | | | | | | d]; simpl;
    try (intros H; injection H as <- _; reflexivity).
  destruct (truthy (get_default d "server_id" VNone)); simpl;
    [| intros H; injection H as <- _; reflexivity].
  unfold ServerPowerOffProcessor._execute_server_poweroff, try_except, bind, emit, modify.
  simpl.
  destruct (get_default d "server_details" (VDict [])); simpl;
    try (intros H; injection H as <- _; reflexivity).
  destruct (Qle_bool _ _); simpl; intros H; injection H as <- _; reflexivity.
Qed.

(** ** Validation errors *)

Lemma serializable_get_default (m : dict) (k : string) (dflt : value) :
  serializable (VDict m) = true -> serializable dflt = true ->
  serializable (get_default m k dflt) = true.
Proof.
  unfold get_default. intros Hm Hd.
  induction m as [| [k' v] m IH]; simpl; [exact Hd |].
  simpl in Hm. apply andb_prop in Hm. destruct Hm as [Hv Hm].
  destruct (String.eqb k k'); [exact Hv |].
  apply IH. exact Hm.
Qed.

Lemma get_default_missing (d : dict) (k : string) (dflt : value) :
  lookup d k = None -> get_default d k dflt = dflt.
Proof. unfold get_default. now intros ->. Qed.

Lemma serializable_get (m : dict) (k : string) :
  serializable (VDict m) = true -> serializable (get m k) = true.
Proof.
  intros Hm. exact (serializable_get_default m k VNone Hm eq_refl).
Qed.

Ltac validation_case Hm :=
  unfold validation_outcome, run; cbn [process_message stage];
  unfold ServerCheckProcessor.self, ServerPowerOffProcessor.self,
    ServerCoolingPeriodProcessor.self, ServerDemiseProcessor.self;
  cbn [process_message stage];
  unfold ServerCheckProcessor.process_message,
    ServerPowerOffProcessor.process_message,
    ServerCoolingPeriodProcessor.process_message,
    ServerDemiseProcessor.process_message, try_except, bind;
  unfold lacks_server_id in Hm;
  match goal with
  | |- context [get_default ?m "data" ?dflt] =>
      let Hd := fresh "Hd" in
      let Hdata := fresh "Hdata" in
      pose proof (serializable_get_default m "data" dflt) as Hd;
      destruct (get_default m "data" dflt) as [| | | | | | | d] eqn:Hdata;
      [ .. | cbn [attr_get ret]; rewrite !(get_default_missing d "server_id" _ Hm) ];
      cbn; rewrite ?Hdata;
      (eexists; eexists; split; [reflexivity |]);
      repeat split; try reflexivity; try discriminate;
      let Hs := fresh "Hs" in
      intros Hs; cbn; rewrite ?Hdata;
      pose proof (serializable_get m "id" Hs) as Hid;
      rewrite ?(serializable_get_default m "original_request_id" _ Hs Hid);
      let Hd' := fresh "Hd" in
      pose proof (Hd Hs eq_refl) as Hd'; cbn in Hd';
      rewrite ?Hid; try rewrite Hd'; reflexivity
  end.

Lemma validation_check (E : runtime) (w : world) (m : dict) :
  lacks_server_id m -> validation_outcome ServerCheckProcessor.self E w m.
Proof. intros Hm. validation_case Hm. Qed.

Lemma validation_poweroff (E : runtime) (w : world) (m : dict) :
  lacks_server_id m -> validation_outcome ServerPowerOffProcessor.self E w m.
Proof. intros Hm. validation_case Hm. Qed.

Lemma validation_cooling (E : runtime) (w : world) (m : dict) :
  lacks_server_id m -> validation_outcome ServerCoolingPeriodProcessor.self E w m.
Proof. intros Hm. validation_case Hm. Qed.

Lemma validation_demise (E : runtime) (w : world) (m : dict) :
  lacks_server_id m -> validation_outcome ServerDemiseProcessor.self E w m.
Proof. intros Hm. validation_case Hm. Qed.

(** C8. Validation errors: a stage that accepts a message whose data
    payload has no server id answers at once with a terminal error
    message ([pipeline_complete] true, status error) that explains the
    failure in its [error] and [message] fields and carries the data
    payload as it came.  No external action is entered, no random number
    is drawn, no session or thread is created; handling the message sends
    this one answer and nothing else. *)
Theorem validation_errors (p : BaseProcessor) (E : runtime) (w : world) (m : dict) :
  In p processors ->
  should_process_message p m = true ->
  lacks_server_id m ->
  exists resp why w',
    run (process_message p m) E w = (inr resp, w') /\
    get resp "pipeline_complete" = VBool true /\
    get resp "status" = VStr "error" /\
    get resp "error" = VStr why /\
    get resp "message" = VStr (failure_prefix (stage p) ++ why) /\
    (is_dict (get_default m "data" (VDict [])) = true ->
     startswith why "Server ID is required" = true) /\
    get resp "data" = get_default m "data" (VDict []) /\
    trace w' = trace w /\
    heap w' = heap w /\
    cooling_sessions w' = cooling_sessions w /\
    cooling_threads w' = cooling_threads w /\
    n_rand w' = n_rand w /\
    (serializable (VDict m) = true ->
     run (_handle_message p m) E w = (inr tt, log (Produce resp) w')).
Proof.
  intros Hp Hacc Hm.
  assert (Hout : validation_outcome p E w m).
  { unfold processors in Hp. simpl in Hp.
    destruct Hp as [<- | [<- | [<- | [<- | []]]]].
    - apply validation_check, Hm.
    - apply validation_poweroff, Hm.
    - apply validation_cooling, Hm.
    - apply validation_demise, Hm. }
  destruct Hout as (resp & why & Hrun & Hpc & Hst & Herr & Hmsg & Hwhy & Hdata & Hser & Htr).
  exists resp, why, (tick_clock (tick_uuid w)).
  repeat split; try assumption.
  intros Hs.
  unfold run, _handle_message, try_except, bind in *.
  rewrite Hacc. cbn [negb]. rewrite Hrun, Htr.
  unfold _send_response. rewrite (Hser Hs). reflexivity.
Qed.

Lemma validation_errors_witness :
  exists resp w',
    run (_handle_message ServerCoolingPeriodProcessor.self
           (request "start_cooling_period" [("server_details", VDict [])]))
      sample initial_world = (inr tt, w') /\
    trace w' = [Produce resp] /\
    get resp "pipeline_complete" = VBool true.
Proof.
  destruct (validation_errors ServerCoolingPeriodProcessor.self sample initial_world
              (request "start_cooling_period" [("server_details", VDict [])]))
    as (resp & why & w' & Hrun & Hpc & _ & _ & _ & _ & _ & Htr & _ & _ & _ & _ & Hsend).
  - simpl. auto.
  - reflexivity.
  - reflexivity.
  - exists resp, (log (Produce resp) w'). split; [apply Hsend; reflexivity |].
    split; [| exact Hpc].
    simpl. rewrite Htr. reflexivity.
Defined.

(** ** What a stage carries forward *)

Lemma check_server_in_portal_run (E : runtime) (w : world) (server_id : value) :
  exists r,
    ServerCheckProcessor._check_server_in_portal server_id E w =
    (r, log (Oracle "_check_server_in_portal" server_id) w).
Proof.
  unfold ServerCheckProcessor._check_server_in_portal, bind, emit, modify, ask.
  destruct (py_int E server_id) as [[] |]; try (eexists; reflexivity).
  destruct server_id; eexists; reflexivity.
Qed.

Lemma check_success_payload (E : runtime) (w w' : world) (m resp : dict) :
  run (ServerCheckProcessor.process_message m) E w = (inr resp, w') ->
  success resp = true ->
  exists d,
    get_default m "data" (VDict []) = VDict d /\
    truthy (get d "server_id") = true /\
    get resp "action" = VStr "poweroff_server" /\
    get resp "data" =
      VDict [ ("server_id", get d "server_id");
              ("server_details", VDict
                 [ ("hostname", VStr ("server-" ++ py_str E (get d "server_id")));
                   ("ip_address", VStr ("192.168.1." ++ py_str E (get d "server_id")));
                   ("status", VStr "active");
                   ("location", VStr "datacenter-1") ]);
              ("check_result", VStr "server_found");
              ("original_request", VDict d) ].
Proof.
  unfold run, ServerCheckProcessor.process_message, try_except, bind.
  destruct (get_default m "data" (VDict [])) as [| | | | | | | d];
    try (cbn; intros H; injection H as <- _; discriminate).
  cbn [attr_get ret].
  change (get_default d "server_id" VNone) with (get d "server_id").
  destruct (truthy (get d "server_id")) eqn:Ht; cbn [negb];
    [| cbn; intros H; injection H as <- _; discriminate].
  destruct (check_server_in_portal_run E w (get d "server_id")) as [r Hr].
  rewrite Hr.
  destruct r as [e | [|]];
    try (cbn; intros H; injection H as <- _; discriminate).
  cbn. intros H _. injection H as <- _.
  exists d. repeat split; try reflexivity. exact Ht.
Qed.

Lemma execute_server_poweroff_run (E : runtime) (w : world) (server_id details : value) :
  exists res w1,
    ServerPowerOffProcessor._execute_server_poweroff server_id details E w = (inr res, w1) /\
    (truthy (get res "success") = true ->
     res = poweroff_success_result /\
     w1 = tick_rand (log (Oracle "_execute_server_poweroff" server_id) w)).
Proof.
  unfold ServerPowerOffProcessor._execute_server_poweroff, try_except, bind, emit, modify.
  destruct details; cbn;
    try (eexists; eexists; split; [reflexivity | cbn; discriminate]).
  destruct (Qle_bool _ _); cbn;
    eexists; eexists; (split; [reflexivity |]); cbn;
    [discriminate | intros _; split; reflexivity].
Qed.

Lemma poweroff_success_payload (E : runtime) (w w' : world) (m resp : dict) :
  run (ServerPowerOffProcessor.process_message m) E w = (inr resp, w') ->
  success resp = true ->
  exists d,
    get_default m "data" (VDict []) = VDict d /\
    truthy (get d "server_id") = true /\
    get resp "action" = VStr "demise_server" /\
    get resp "data" =
      VDict [ ("server_id", get d "server_id");
              ("server_details", get_default d "server_details" (VDict []));
              ("poweroff_result", VDict poweroff_success_result);
              ("poweroff_timestamp", VStr (isoformat E (clock E (S (n_clock w)))));
              ("original_request", get_default d "original_request" (VDict [])) ].
Proof.
  unfold run, ServerPowerOffProcessor.process_message, try_except, bind.
  destruct (get_default m "data" (VDict [])) as [| | | | | | | d];
    try (cbn; intros H; injection H as <- _; discriminate).
  cbn [attr_get ret].
  change (get_default d "server_id" VNone) with (get d "server_id").
  destruct (truthy (get d "server_id")) eqn:Ht; cbn [negb];
    [| cbn; intros H; injection H as <- _; discriminate].
  destruct (execute_server_poweroff_run E w (get d "server_id")
              (get_default d "server_details" (VDict []))) as (res & w1 & Hr & Hres).
  rewrite Hr. cbn [ask].
  destruct (truthy (get res "success")) eqn:Hs;
    [| cbn; intros H; injection H as <- _; discriminate].
  destruct (Hres eq_refl) as [-> ->].
  cbn. intros H _. injection H as <- _.
  exists d. repeat split; try reflexivity. exact Ht.
Qed.

Lemma execute_server_demise_run (E : runtime) (w : world)
    (server_id details poweroff_result : value) :
  exists res w1,
    ServerDemiseProcessor._execute_server_demise server_id details poweroff_result E w
    = (inr res, w1).
Proof.
  unfold ServerDemiseProcessor._execute_server_demise, try_except, bind, emit, modify.
  cbn. destruct (Qle_bool _ _); cbn; eexists; eexists; reflexivity.
Qed.

Lemma calculate_processing_time_run (E : runtime) (w : world) (m : dict) :
  exists s w1,
    ServerDemiseProcessor._calculate_processing_time m E w = (inr s, w1).
Proof.
  unfold ServerDemiseProcessor._calculate_processing_time, bind, ask.
  destruct (lookup m "timestamp") as [[| | | | s | | |] |];
    try (eexists; eexists; reflexivity).
  destruct (fromisoformat E _); eexists; eexists; reflexivity.
Qed.

Lemma demise_success_payload (E : runtime) (w w' : world) (m resp : dict) :
  run (ServerDemiseProcessor.process_message m) E w = (inr resp, w') ->
  success resp = true ->
  exists d demise_result completion,
    get_default m "data" (VDict []) = VDict d /\
    truthy (get d "server_id") = true /\
    get resp "action" = VStr "demise_complete" /\
    get resp "pipeline_complete" = VBool true /\
    truthy (get demise_result "success") = true /\
    get resp "data" =
      VDict [ ("server_id", get d "server_id");
              ("server_details", get_default d "server_details" (VDict []));
              ("poweroff_result", get_default d "poweroff_result" (VDict []));
              ("demise_result", VDict demise_result);
              ("completion_timestamp", VStr (isoformat E completion));
              ("pipeline_summary", VDict
                 [ ("step_1", VStr "Server found in portal");
                   ("step_2", VStr "Server powered off successfully");
                   ("step_3", VStr "Server demise request completed") ]);
              ("original_request", get_default d "original_request" (VDict [])) ].
Proof.
  unfold run, ServerDemiseProcessor.process_message, try_except, bind.
  destruct (get_default m "data" (VDict [])) as [| | | | | | | d];
    try (cbn; intros H; injection H as <- _; discriminate).
  cbn [attr_get ret].
  change (get_default d "server_id" VNone) with (get d "server_id").
  destruct (truthy (get d "server_id")) eqn:Ht; cbn [negb];
    [| cbn; intros H; injection H as <- _; discriminate].
  destruct (execute_server_demise_run E w (get d "server_id")
              (get_default d "server_details" (VDict []))
              (get_default d "poweroff_result" (VDict []))) as (res & w1 & Hr).
  rewrite Hr. cbn [ask].
  destruct (truthy (get res "success")) eqn:Hs;
    [| cbn; intros H; injection H as <- _; discriminate].
  cbn [uuid4 now].
  destruct (calculate_processing_time_run E
              (tick_clock (tick_clock (tick_uuid w1))) m) as (s & w2 & Hc).
  rewrite Hc.
  cbn. intros H _. injection H as <- _.
  exists d, res, (clock E (S (n_clock w1))).
  repeat split; try reflexivity; assumption.
Qed.

Lemma payload_of_get (m d : dict) :
  get m "data" = VDict d -> payload_of m = d.
Proof.
  unfold payload_of, get, get_default.
  destruct (lookup m "data"); [intros -> | discriminate]. reflexivity.
Qed.

Lemma payload_of_get_default (m d : dict) :
  get_default m "data" (VDict []) = VDict d -> payload_of m = d.
Proof. unfold payload_of. now intros ->. Qed.

Lemma lookup_get (d : dict) (k : string) (v : value) :
  lookup d k = Some v -> get d k = v.
Proof. unfold get. now intros ->. Qed.

Lemma lookup_get_default (d : dict) (k : string) (v dflt : value) :
  lookup d k = Some v -> get_default d k dflt = v.
Proof. unfold get_default. now intros ->. Qed.

Ltac in_cases H :=
  cbn [carried added] in H;
  repeat lazymatch type of H with
         | In _ (_ :: _) => destruct H as [H | H]; [subst |]
         | In _ [] => destruct H
         | False => destruct H
         end.

Ltac key_cases k :=
  repeat match goal with
         | H : context [String.eqb k ?s] |- _ =>
             destruct (String.eqb_spec k s); [subst; simpl; tauto |]
         end.

(** C2 (amended). A success message of the Check, PowerOff or Demise
    stage has a data payload built anew from a fixed set of keys.  The
    keys in [carried] are copied from the incoming payload unchanged, the
    Check stage stores the whole incoming payload under
    [original_request], the keys in [added] are the stage's own, and the
    emitted payload has no other key. *)
Theorem payload_carried_forward (p : BaseProcessor) (E : runtime) (w w' : world)
    (m resp : dict) :
  In p [ServerCheckProcessor.self; ServerPowerOffProcessor.self; ServerDemiseProcessor.self] ->
  should_process_message p m = true ->
  run (process_message p m) E w = (inr resp, w') ->
  success resp = true ->
  (forall k v, In k (carried (stage p)) ->
     lookup (payload_of m) k = Some v -> lookup (payload_of resp) k = Some v) /\
  (stage p = Check ->
     lookup (payload_of resp) "original_request" = Some (VDict (payload_of m))) /\
  (forall k, In k (added (stage p)) -> has_key (payload_of resp) k = true) /\
  (forall k, has_key (payload_of resp) k = true ->
     In k (carried (stage p) ++ added (stage p))).
Proof.
  intros Hp _ Hrun Hs.
  simpl in Hp. destruct Hp as [<- | [<- | [<- | []]]];
    unfold ServerCheckProcessor.self, ServerPowerOffProcessor.self,
      ServerDemiseProcessor.self in *;
    cbn [stage process_message] in *.
  - destruct (check_success_payload E w w' m resp Hrun Hs) as (d & Hd & _ & _ & Hout).
    rewrite (payload_of_get_default m d Hd), (payload_of_get resp _ Hout).
    repeat split.
    + intros k v Hk Hv. in_cases Hk. rewrite (lookup_get d _ v Hv). reflexivity.
    + intros k Hk. in_cases Hk; reflexivity.
    + intros k. unfold has_key. cbn [carried added app lookup]. intros H.
      key_cases k. discriminate H.
  - destruct (poweroff_success_payload E w w' m resp Hrun Hs) as (d & Hd & _ & _ & Hout).
    rewrite (payload_of_get_default m d Hd), (payload_of_get resp _ Hout).
    repeat split.
    + intros k v Hk Hv. in_cases Hk;
        rewrite ?(lookup_get d _ v Hv), ?(lookup_get_default d _ v _ Hv); reflexivity.
    + discriminate.
    + intros k Hk. in_cases Hk; reflexivity.
    + intros k. unfold has_key. cbn [carried added app lookup]. intros H.
      key_cases k. discriminate H.
  - destruct (demise_success_payload E w w' m resp Hrun Hs)
      as (d & res & ts & Hd & _ & _ & _ & _ & Hout).
    rewrite (payload_of_get_default m d Hd), (payload_of_get resp _ Hout).
    repeat split.
    + intros k v Hk Hv. in_cases Hk;
        rewrite ?(lookup_get d _ v Hv), ?(lookup_get_default d _ v _ Hv); reflexivity.
    + discriminate.
    + intros k Hk. in_cases Hk; reflexivity.
    + intros k. unfold has_key. cbn [carried added app lookup]. intros H.
      key_cases k. discriminate H.
Qed.

Lemma payload_carried_forward_witness :
  exists resp w',
    run (process_message ServerPowerOffProcessor.self poweroff_request)
      sample initial_world = (inr resp, w') /\
    (forall k v, In k (carried PowerOff) ->
       lookup (payload_of poweroff_request) k = Some v ->
       lookup (payload_of resp) k = Some v).
Proof.
  eexists; eexists. split; [vm_compute; reflexivity |].
  refine (proj1 (payload_carried_forward ServerPowerOffProcessor.self sample
                   initial_world _ poweroff_request _ _ _ _ _)).
  - simpl. auto.
  - reflexivity.
  - vm_compute. reflexivity.
  - reflexivity.
Defined.

Ltac refute_monotone H m k v :=
  let Hrun := fresh "Hrun" in
  let Hc := fresh "Hc" in
  match type of H with
  | payload_monotone ?p =>
      destruct (run (process_message p m) sample initial_world) as [[e | resp] w'] eqn:Hrun;
      [ vm_compute in Hrun; discriminate Hrun |];
      pose proof Hrun as Hc; vm_compute in Hc; injection Hc as <- <-;
      specialize (H sample initial_world _ m _ eq_refl Hrun eq_refl k v eq_refl);
      vm_compute in H; discriminate H
  end.

(** C2 (counterexample). None of the three stages keeps the whole incoming
    payload in place: the Check stage moves field [requester] under
    [original_request], the PowerOff stage drops [check_result] of the
    message the Check stage emits, the Demise stage drops
    [poweroff_timestamp]. *)
Lemma payload_not_monotone :
  ~ payload_monotone ServerCheckProcessor.self /\
  ~ payload_monotone ServerPowerOffProcessor.self /\
  ~ payload_monotone ServerDemiseProcessor.self.
Proof.
  repeat split; intros H.
  - refute_monotone H check_request "requester" (VStr "test_user").
  - refute_monotone H poweroff_request "check_result" (VStr "server_found").
  - refute_monotone H demise_request "poweroff_timestamp" (VStr "T1").
Qed.

(** ** Every accepted message is answered *)

Lemma serializable_payload (m d : dict) :
  serializable (VDict m) = true ->
  get_default m "data" (VDict []) = VDict d ->
  serializable (VDict d) = true.
Proof.
  intros Hm Hd.
  pose proof (serializable_get_default m "data" (VDict []) Hm eq_refl) as H.
  now rewrite Hd in H.
Qed.

Ltac ser_facts m Hd :=
  let Hs := fresh "Hs" in
  let Hid := fresh "Hid" in
  let Hrid := fresh "Hrid" in
  let Hdata := fresh "Hdata" in
  intros Hs;
  pose proof (serializable_get m "id" Hs) as Hid;
  pose proof (serializable_get_default m "original_request_id" _ Hs Hid) as Hrid;
  pose proof (serializable_get_default m "data" (VDict []) Hs eq_refl) as Hdata;
  rewrite Hd in Hdata.

Ltac ser_close :=
  cbn in *; try discriminate;
  repeat match goal with
         | H : serializable _ = true |- _ => rewrite H
         | H : forallb _ _ = true |- _ => rewrite H
         end;
  reflexivity.

Lemma produced_of_snoc (t : list event) (e : event) :
  produced_of (t ++ [e]) =
  (produced_of t ++ match e with Produce msg => [msg] | _ => [] end)%list.
Proof.
  induction t as [| e' t IH]; simpl.
  - destruct e; reflexivity.
  - destruct e'; simpl; rewrite IH; reflexivity.
Qed.

Lemma produced_log_oracle (w : world) (name : string) (v : value) :
  produced (log (Oracle name v) w) = produced w.
Proof.
  unfold produced. cbn. rewrite produced_of_snoc. now rewrite app_nil_r.
Qed.

Lemma produced_log_produce (w : world) (msg : dict) :
  produced (log (Produce msg) w) = (produced w ++ [msg])%list.
Proof. unfold produced. cbn. now rewrite produced_of_snoc. Qed.

Ltac solve_produced :=
  unfold produced; cbn; rewrite ?produced_of_snoc; cbn; rewrite ?app_nil_r; reflexivity.

Ltac solve_routing :=
  let q := fresh "q" in
  let Hq := fresh "Hq" in
  let Hacc := fresh "Hacc" in
  intros q Hq Hacc; simpl in Hq;
  destruct Hq as [<- | [<- | [<- | [<- | []]]]];
  cbn in Hacc; try discriminate Hacc;
  first [left; split; reflexivity | right; split; reflexivity].

Ltac solve_failure Hd :=
  let Hf := fresh "Hf" in
  intros Hf; unfold failed_or_error in Hf; cbn in Hf;
  first [ discriminate Hf
        | unfold terminal_failure; rewrite ?Hd; cbn;
          split; [reflexivity | split; [reflexivity | eexists; split; reflexivity]] ].

(** Closes the case of one answer; [facts] adds what is known of the
    payload. *)
Ltac close_answer m Hd facts :=
  cbn; rewrite ?Hd;
  eexists; eexists; (split; [reflexivity |]);
  (split; [reflexivity |]);
  (split; [ser_facts m Hd; facts; ser_close |]);
  (split; [solve_produced |]);
  (split; [reflexivity |]);
  (split; [solve_failure Hd | solve_routing]).

Ltac payload_facts d :=
  match goal with
  | Hdata : serializable (VDict d) = true |- _ =>
      pose proof (serializable_get d "server_id" Hdata);
      pose proof (serializable_get_default d "server_details" (VDict []) Hdata eq_refl);
      pose proof (serializable_get_default d "poweroff_result" (VDict []) Hdata eq_refl);
      pose proof (serializable_get_default d "original_request" (VDict []) Hdata eq_refl)
  end.

Lemma check_well_answered (E : runtime) (w : world) (m : dict) :
  well_answered ServerCheckProcessor.self E w m.
Proof.
  unfold well_answered, run.
  cbn [process_message stage ServerCheckProcessor.self].
  unfold ServerCheckProcessor.process_message, try_except, bind.
  destruct (get_default m "data" (VDict [])) as [| | | | | | | d] eqn:Hd;
    [ close_answer m Hd idtac .. |].
  cbn [attr_get ret].
  change (get_default d "server_id" VNone) with (get d "server_id").
  destruct (truthy (get d "server_id")) eqn:Ht; cbn [negb].
  - destruct (check_server_in_portal_run E w (get d "server_id")) as [r Hr].
    rewrite Hr.
    destruct r as [e | [|]]; close_answer m Hd ltac:(idtac; payload_facts d).
  - close_answer m Hd idtac.
Qed.

(** The simulated power-off: it always answers; it succeeds exactly when
    the server details are a dict and the draw is above 0.1. *)
Lemma poweroff_oracle_run (E : runtime) (w : world) (server_id details : value) :
  exists res d,
    ServerPowerOffProcessor._execute_server_poweroff server_id details E w =
      (inr res, advance 0 0 d (log (Oracle "_execute_server_poweroff" server_id) w)) /\
    serializable (VDict res) = true /\
    truthy (get res "success") =
      is_dict details && negb (Qle_bool (rand E (n_rand w)) (1 # 10)) /\
    (truthy (get res "success") = true -> res = poweroff_success_result) /\
    (truthy (get res "success") = false ->
     exists why, get res "error" = VStr why /\
                 (is_dict details = true -> why = "IPMI connection timeout")).
Proof.
  unfold ServerPowerOffProcessor._execute_server_poweroff, try_except, bind, emit, modify.
  destruct details; cbn;
    try (eexists; exists 0%nat; repeat split; try reflexivity;
         try discriminate; intros _; eexists; split; [reflexivity | discriminate]).
  destruct (Qle_bool (rand E (n_rand w)) (1 # 10)); cbn;
    eexists; exists 1%nat; repeat split; try reflexivity; try discriminate;
    intros _; eexists; split; reflexivity.
Qed.

Lemma poweroff_well_answered (E : runtime) (w : world) (m : dict) :
  well_answered ServerPowerOffProcessor.self E w m.
Proof.
  unfold well_answered, run.
  cbn [process_message stage ServerPowerOffProcessor.self].
  unfold ServerPowerOffProcessor.process_message, try_except, bind.
  destruct (get_default m "data" (VDict [])) as [| | | | | | | d] eqn:Hd;
    [ close_answer m Hd idtac .. |].
  cbn [attr_get ret].
  change (get_default d "server_id" VNone) with (get d "server_id").
  destruct (truthy (get d "server_id")) eqn:Ht; cbn [negb].
  - destruct (poweroff_oracle_run E w (get d "server_id")
                (get_default d "server_details" (VDict [])))
      as (res & k & Hr & Hres & _ & _ & _).
    rewrite Hr.
    destruct (truthy (get res "success")); close_answer m Hd ltac:(idtac; payload_facts d).
  - close_answer m Hd idtac.
Qed.

(** The simulated decommission: it always answers; it succeeds exactly
    when the draw is above 0.05, and then it issues a ticket named after
    the clock (in seconds) and the server id. *)
Lemma demise_oracle_run (E : runtime) (w : world)
    (server_id details poweroff_result : value) :
  exists res c,
    ServerDemiseProcessor._execute_server_demise server_id details poweroff_result E w =
      (inr res, advance c 0 1 (log (Oracle "_execute_server_demise" server_id) w)) /\
    serializable (VDict res) = true /\
    truthy (get res "success") = negb (Qle_bool (rand E (n_rand w)) (5 # 100)) /\
    (truthy (get res "success") = true ->
     c = 2%nat /\
     get res "demise_ticket_id" =
       VStr ("DM-" ++ str_of_Z (clock E (n_clock w) / 1000000) ++ "-"
             ++ py_str E server_id) /\
     get res "status" = VStr "decommissioned") /\
    (truthy (get res "success") = false ->
     c = 0%nat /\ get res "error" = VStr "Asset management system unavailable").
Proof.
  unfold ServerDemiseProcessor._execute_server_demise, try_except, bind, emit, modify.
  cbn. destruct (Qle_bool (rand E (n_rand w)) (5 # 100)); cbn.
  - eexists; exists 0%nat. repeat split; try reflexivity; discriminate.
  - eexists; exists 2%nat. repeat split; try reflexivity; discriminate.
Qed.

Lemma processing_time_run (E : runtime) (w : world) (m : dict) :
  exists s c,
    ServerDemiseProcessor._calculate_processing_time m E w = (inr s, advance c 0 0 w) /\
    (lookup m "timestamp" = None -> s = "unknown" /\ c = 0%nat).
Proof.
  unfold ServerDemiseProcessor._calculate_processing_time, bind, ask.
  destruct (lookup m "timestamp") as [[| | | | s | | |] |];
    try (exists "unknown", 0%nat; split; [destruct w; reflexivity | ];
         first [discriminate | intros _; split; reflexivity]).
  destruct (fromisoformat E _).
  - eexists; exists 1%nat. split; [reflexivity | discriminate].
  - exists "unknown", 0%nat. split; [destruct w; reflexivity | discriminate].
Qed.

Lemma demise_well_answered (E : runtime) (w : world) (m : dict) :
  well_answered ServerDemiseProcessor.self E w m.
Proof.
  unfold well_answered, run.
  cbn [process_message stage ServerDemiseProcessor.self].
  unfold ServerDemiseProcessor.process_message, try_except, bind.
  destruct (get_default m "data" (VDict [])) as [| | | | | | | d] eqn:Hd;
    [ close_answer m Hd idtac .. |].
  cbn [attr_get ret].
  change (get_default d "server_id" VNone) with (get d "server_id").
  destruct (truthy (get d "server_id")) eqn:Ht; cbn [negb].
  - destruct (demise_oracle_run E w (get d "server_id")
                (get_default d "server_details" (VDict []))
                (get_default d "poweroff_result" (VDict [])))
      as (res & c & Hr & Hres & _ & _ & _).
    rewrite Hr. cbn [ask].
    destruct (truthy (get res "success")).
    + cbn [uuid4 now].
      match goal with
      | |- context [ServerDemiseProcessor._calculate_processing_time m E ?x] =>
          destruct (processing_time_run E x m) as (s & k & Hc & _)
      end.
      rewrite Hc. close_answer m Hd ltac:(idtac; payload_facts d).
    + close_answer m Hd ltac:(idtac; payload_facts d).
  - close_answer m Hd idtac.
Qed.

Lemma cooling_well_answered (E : runtime) (w : world) (m : dict) :
  well_answered ServerCoolingPeriodProcessor.self E w m.
Proof.
  unfold well_answered, run.
  cbn [process_message stage ServerCoolingPeriodProcessor.self].
  unfold ServerCoolingPeriodProcessor.process_message, try_except, bind.
  destruct (get_default m "data" (VDict [])) as [| | | | | | | d] eqn:Hd;
    [ close_answer m Hd idtac .. |].
  cbn [attr_get ret].
  change (get_default d "server_id" VNone) with (get d "server_id").
  destruct (truthy (get d "server_id")) eqn:Ht; cbn [negb].
  - unfold ServerCoolingPeriodProcessor.in_sessions.
    destruct (hashable (get d "server_id")) eqn:Hh.
    + unfold bind, get_world, ret.
      destruct (map_mem (cooling_sessions w) (get d "server_id")).
      * close_answer m Hd idtac.
      * close_answer m Hd
          ltac:(idtac; payload_facts d;
                pose proof (serializable_get_default d "poweroff_timestamp"
                              (VStr (isoformat E (clock E (n_clock w)))) Hdata eq_refl)).
    + close_answer m Hd idtac.
  - close_answer m Hd idtac.
Qed.

Lemma stage_well_answered (p : BaseProcessor) (E : runtime) (w : world) (m : dict) :
  In p processors -> well_answered p E w m.
Proof.
  unfold processors. simpl. intros [<- | [<- | [<- | [<- | []]]]].
  - apply check_well_answered.
  - apply poweroff_well_answered.
  - apply cooling_well_answered.
  - apply demise_well_answered.
Qed.

(** X1. Never silence: a processor of the pipeline that handles a decoded
    JSON message drops it without any effect when it does not accept it,
    and otherwise sends exactly one message, the answer of its
    [process_message]; handling never raises. *)
Theorem accepted_message_answered_once (p : BaseProcessor) (E : runtime) (w : world)
    (m : dict) :
  In p processors ->
  serializable (VDict m) = true ->
  exists w',
    run (_handle_message p m) E w = (inr tt, w') /\
    (should_process_message p m = false -> w' = w) /\
    (should_process_message p m = true ->
     exists resp,
       fst (run (process_message p m) E w) = inr resp /\
       produced w' = (produced w ++ [resp])%list).
Proof.
  intros Hp Hs.
  destruct (stage_well_answered p E w m Hp)
    as (resp & w1 & Hrun & Hne & Hser & Hprod & _).
  unfold run, _handle_message, try_except, bind in *.
  destruct (should_process_message p m); cbn [negb].
  - rewrite Hrun, Hne. unfold _send_response. rewrite (Hser Hs).
    eexists. split; [reflexivity |]. split; [discriminate |].
    intros _. exists resp. split; [reflexivity |].
    rewrite produced_log_produce, Hprod. reflexivity.
  - exists w. split; [reflexivity |]. split; [reflexivity | discriminate].
Qed.

Lemma accepted_message_answered_once_witness :
  exists w' resp,
    run (_handle_message ServerCheckProcessor.self check_request) sample initial_world
    = (inr tt, w') /\
    produced w' = [resp].
Proof.
  destruct (accepted_message_answered_once ServerCheckProcessor.self sample
              initial_world check_request) as (w' & Hrun & _ & Hacc).
  - simpl. auto.
  - reflexivity.
  - destruct (Hacc eq_refl) as (resp & _ & Hp).
    exists w', resp. split; [exact Hrun | exact Hp].
Defined.

(** X2. A failure keeps the payload: whenever the answer of a stage has
    status [failed] or [error], it is terminal ([pipeline_complete] true),
    its data is the data of the message as it came, and its [message] is
    the stage's prefix followed by the text of its [error] field. *)
Theorem failure_keeps_payload (p : BaseProcessor) (E : runtime) (w w' : world)
    (m resp : dict) :
  In p processors ->
  run (process_message p m) E w = (inr resp, w') ->
  failed_or_error resp = true ->
  get resp "data" = get_default m "data" (VDict []) /\
  get resp "pipeline_complete" = VBool true /\
  exists why, get resp "error" = VStr why /\
              get resp "message" = VStr (failure_prefix (stage p) ++ why).
Proof.
  intros Hp Hrun Hf.
  destruct (stage_well_answered p E w m Hp)
    as (resp' & w1 & Hrun' & _ & _ & _ & _ & Hfail & _).
  rewrite Hrun in Hrun'. injection Hrun' as <- <-.
  exact (Hfail Hf).
Qed.

Lemma failure_keeps_payload_witness :
  exists resp w',
    run (process_message ServerCheckProcessor.self
           (request "check_server" [("server_id", VStr "42"); ("reason", VStr "eol")]))
      sample initial_world = (inr resp, w') /\
    get resp "data" = VDict [("server_id", VStr "42"); ("reason", VStr "eol")].
Proof.
  eexists; eexists. split; [vm_compute; reflexivity |].
  refine (proj1 (failure_keeps_payload ServerCheckProcessor.self sample initial_world _
                   (request "check_server"
                      [("server_id", VStr "42"); ("reason", VStr "eol")]) _ _ _ _)).
  - simpl. auto.
  - vm_compute. reflexivity.
  - reflexivity.
Defined.

(** X3. The pipeline cannot loop: an answer of a stage is accepted only
    by the next stage (the Check stage hands over to PowerOff, PowerOff to
    Demise); no stage accepts its own answer, no answer goes back to the
    Check stage, and no answer of a stage starts the cooling monitor. *)
Theorem answers_only_move_forward (p q : BaseProcessor) (E : runtime) (w w' : world)
    (m resp : dict) :
  In p processors ->
  In q processors ->
  run (process_message p m) E w = (inr resp, w') ->
  should_process_message q resp = true ->
  (stage p = Check /\ stage q = PowerOff) \/ (stage p = PowerOff /\ stage q = Demise).
Proof.
  intros Hp Hq Hrun Hacc.
  destruct (stage_well_answered p E w m Hp)
    as (resp' & w1 & Hrun' & _ & _ & _ & _ & _ & Hnext).
  rewrite Hrun in Hrun'. injection Hrun' as <- <-.
  exact (Hnext q Hq Hacc).
Qed.

Lemma answers_only_move_forward_witness :
  (stage ServerCheckProcessor.self = Check /\
   stage ServerPowerOffProcessor.self = PowerOff) \/
  (stage ServerCheckProcessor.self = PowerOff /\
   stage ServerPowerOffProcessor.self = Demise).
Proof.
  eapply (answers_only_move_forward ServerCheckProcessor.self
            ServerPowerOffProcessor.self sample initial_world _ check_request _).
  - simpl. auto.
  - simpl. auto.
  - vm_compute. reflexivity.
  - reflexivity.
Defined.

(** ** The decisions of the stages *)

(** The answer of the Check stage, by what its oracle returns. *)
Lemma check_outcome (E : runtime) (w : world) (m d : dict) :
  get_default m "data" (VDict []) = VDict d ->
  truthy (get d "server_id") = true ->
  exists r resp w',
    ServerCheckProcessor._check_server_in_portal (get d "server_id") E w =
      (r, log (Oracle "_check_server_in_portal" (get d "server_id")) w) /\
    run (ServerCheckProcessor.process_message m) E w = (inr resp, w') /\
    trace w' = (trace w ++ [Oracle "_check_server_in_portal" (get d "server_id")])%list /\
    get resp "original_request_id" = get m "id" /\
    match r with
    | inr true =>
        get resp "action" = VStr "poweroff_server" /\
        get resp "status" = VStr "pending" /\
        lookup resp "pipeline_complete" = None /\
        get resp "data" =
          VDict [ ("server_id", get d "server_id");
                  ("server_details", VDict
                     [ ("hostname", VStr ("server-" ++ py_str E (get d "server_id")));
                       ("ip_address",
                          VStr ("192.168.1." ++ py_str E (get d "server_id")));
                       ("status", VStr "active");
                       ("location", VStr "datacenter-1") ]);
                  ("check_result", VStr "server_found");
                  ("original_request", VDict d) ]
    | inr false =>
        get resp "action" = VStr "demise_complete" /\
        get resp "status" = VStr "failed" /\
        get resp "pipeline_complete" = VBool true /\
        get resp "data" = VDict d /\
        get resp "error" =
          VStr ("Server " ++ py_str E (get d "server_id") ++ " not found in portal")
    | inl e =>
        get resp "action" = VStr "demise_complete" /\
        get resp "status" = VStr "error" /\
        get resp "pipeline_complete" = VBool true /\
        get resp "data" = VDict d /\
        get resp "error" = VStr ("Server check failed: " ++ exn_text e)
    end.
Proof.
  intros Hd Ht.
  destruct (check_server_in_portal_run E w (get d "server_id")) as [r Hr].
  exists r.
  unfold run, ServerCheckProcessor.process_message, try_except, bind.
  rewrite Hd. cbn [attr_get ret].
  change (get_default d "server_id" VNone) with (get d "server_id").
  rewrite Ht. cbn [negb]. rewrite Hr.
  destruct r as [e | [|]]; cbn; rewrite ?Hd;
    eexists; eexists; repeat split; reflexivity.
Qed.

(** X4. The decision of the Check stage for a string id: a message whose
    payload carries a non-empty string as [server_id] is answered, after
    one lookup, with [poweroff_server] / [pending] when the id satisfies
    the existence rule, and with the terminal [demise_complete] / [failed]
    message, which names the id and keeps the payload, when it does not. *)
Theorem check_decision (E : runtime) (w : world) (m d : dict) (s : string) :
  get_default m "data" (VDict []) = VDict d ->
  get d "server_id" = VStr s ->
  s <> "" ->
  exists resp w',
    run (ServerCheckProcessor.process_message m) E w = (inr resp, w') /\
    trace w' = (trace w ++ [Oracle "_check_server_in_portal" (VStr s)])%list /\
    ((portal_rule E s /\
      get resp "action" = VStr "poweroff_server" /\
      get resp "status" = VStr "pending" /\
      get (payload_of resp) "server_id" = VStr s /\
      get (payload_of resp) "original_request" = VDict d)
     \/
     (~ portal_rule E s /\
      get resp "action" = VStr "demise_complete" /\
      get resp "status" = VStr "failed" /\
      get resp "pipeline_complete" = VBool true /\
      get resp "data" = VDict d /\
      get resp "error" = VStr ("Server " ++ s ++ " not found in portal"))).
Proof.
  intros Hd Hs Hne.
  assert (Ht : truthy (get d "server_id") = true).
  { rewrite Hs. cbn. destruct (String.eqb_spec s ""); [contradiction | reflexivity]. }
  destruct (check_outcome E w m d Hd Ht) as (r & resp & w' & Hr & Hrun & Htr & _ & Hout).
  rewrite Hs in *.
  pose proof (check_server_in_portal_str E w s) as Hstr. unfold run in Hstr.
  remember (match str_int E s with
            | Some n => (100 <=? n) && (n <=? 999)
            | None => existsb (fun prefix => startswith (str_upper E s) prefix)
                        ServerCheckProcessor.valid_prefixes
            end) as b eqn:Hb.
  rewrite Hstr in Hr. injection Hr as <-.
  exists resp, w'. split; [exact Hrun |]. split; [exact Htr |].
  assert (Hrule : b = true <-> portal_rule E s).
  { subst b. apply portal_answer. }
  clear Hb Hstr. destruct b.
  - left. destruct Hout as (Ha & Hst & _ & Hdata).
    split; [apply Hrule; reflexivity |].
    rewrite (payload_of_get resp _ Hdata).
    repeat split; assumption.
  - right. destruct Hout as (Ha & Hst & Hpc & Hdata & Herr).
    split; [intros H; apply Hrule in H; discriminate H |].
    repeat split; assumption.
Qed.

Lemma check_decision_witness :
  exists resp w',
    run (ServerCheckProcessor.process_message
           (request "check_server" [("server_id", VStr "srv-web-01")]))
      sample initial_world = (inr resp, w') /\
    get resp "action" = VStr "poweroff_server".
Proof.
  destruct (check_decision sample initial_world
              (request "check_server" [("server_id", VStr "srv-web-01")])
              [("server_id", VStr "srv-web-01")] "srv-web-01")
    as (resp & w' & Hrun & _ & [(_ & Ha & _) | (Hno & _)]).
  - reflexivity.
  - reflexivity.
  - discriminate.
  - exists resp, w'. split; assumption.
  - exfalso. apply Hno. apply portal_answer. reflexivity.
Defined.



(** The answer of the stage, by what its simulated action returns. *)
Lemma poweroff_outcome (E : runtime) (w : world) (m d : dict) :
  get_default m "data" (VDict []) = VDict d ->
  truthy (get d "server_id") = true ->
  exists resp w',
    run (ServerPowerOffProcessor.process_message m) E w = (inr resp, w') /\
    trace w' = (trace w ++ [Oracle "_execute_server_poweroff" (get d "server_id")])%list /\
    if is_dict (get_default d "server_details" (VDict []))
       && negb (Qle_bool (rand E (n_rand w)) (1 # 10))
    then
      get resp "action" = VStr "demise_server" /\
      get resp "status" = VStr "pending" /\
      lookup resp "pipeline_complete" = None /\
      get (payload_of resp) "poweroff_result" = VDict poweroff_success_result
    else
      get resp "action" = VStr "demise_complete" /\
      get resp "status" = VStr "failed" /\
      get resp "pipeline_complete" = VBool true /\
      get resp "data" = VDict d /\
      exists why,
        get resp "error" =
          VStr ("Failed to power off server " ++ py_str E (get d "server_id")
                ++ ": " ++ why) /\
        (is_dict (get_default d "server_details" (VDict [])) = true ->
         why = "IPMI connection timeout").
Proof.
  intros Hd Ht.
  destruct (poweroff_oracle_run E w (get d "server_id")
              (get_default d "server_details" (VDict [])))
    as (res & k & Hr & _ & Hok & Hyes & Hno).
  unfold run, ServerPowerOffProcessor.process_message, try_except, bind.
  rewrite Hd. cbn [attr_get ret].
  change (get_default d "server_id" VNone) with (get d "server_id").
  rewrite Ht. cbn [negb]. rewrite Hr. cbn [ask].
  rewrite <- Hok.
  destruct (truthy (get res "success")).
  - rewrite (Hyes eq_refl). cbn.
    eexists; eexists. repeat split; reflexivity.
  - destruct (Hno eq_refl) as (why & Hwhy & Htimeout).
    rewrite Hwhy. cbn. rewrite Hd.
    eexists; eexists. split; [reflexivity |]. split; [reflexivity |].
    repeat split. exists why. split; [reflexivity | exact Htimeout].
Qed.

(** X6. The decision of the PowerOff stage: for a payload with a server
    id, the stage enters the simulated power-off once; it answers
    [demise_server] / [pending] with the power-off result exactly when the
    server details are a dict and the draw is above 0.1, and otherwise the
    terminal [demise_complete] / [failed] message with the payload as it
    came and a reason, which is the IPMI timeout when the details were a
    dict. *)
Theorem poweroff_decision (E : runtime) (w : world) (m d : dict) :
  get_default m "data" (VDict []) = VDict d ->
  truthy (get d "server_id") = true ->
  exists resp w',
    run (ServerPowerOffProcessor.process_message m) E w = (inr resp, w') /\
    trace w' = (trace w ++ [Oracle "_execute_server_poweroff" (get d "server_id")])%list /\
    if is_dict (get_default d "server_details" (VDict []))
       && negb (Qle_bool (rand E (n_rand w)) (1 # 10))
    then
      get resp "action" = VStr "demise_server" /\
      get resp "status" = VStr "pending" /\
      lookup resp "pipeline_complete" = None /\
      get (payload_of resp) "poweroff_result" = VDict poweroff_success_result
    else
      get resp "action" = VStr "demise_complete" /\
      get resp "status" = VStr "failed" /\
      get resp "pipeline_complete" = VBool true /\
      get resp "data" = VDict d /\
      exists why,
        get resp "error" =
          VStr ("Failed to power off server " ++ py_str E (get d "server_id")
                ++ ": " ++ why) /\
        (is_dict (get_default d "server_details" (VDict [])) = true ->
         why = "IPMI connection timeout").
Proof. exact (poweroff_outcome E w m d). Qed.

Lemma poweroff_decision_witness :
  exists resp w',
    run (ServerPowerOffProcessor.process_message poweroff_request)
      (sample_runtime hourly (fun _ => 1 # 20)) initial_world = (inr resp, w') /\
    get resp "status" = VStr "failed".
Proof.
  destruct (poweroff_decision (sample_runtime hourly (fun _ => 1 # 20)) initial_world
              poweroff_request
              [ ("server_id", VStr "150");
                ("server_details", VDict [("ip_address", VStr "192.168.1.150")]);
                ("check_result", VStr "server_found");
                ("original_request", VDict [("server_id", VStr "150")]) ])
    as (resp & w' & Hrun & _ & Hout).
  - reflexivity.
  - reflexivity.
  - exists resp, w'. split; [exact Hrun |].
    exact (proj1 (proj2 Hout)).
Defined.

(** The answer of the stage, by what its simulated action returns. *)
Lemma demise_outcome (E : runtime) (w : world) (m d : dict) :
  get_default m "data" (VDict []) = VDict d ->
  truthy (get d "server_id") = true ->
  exists resp w',
    run (ServerDemiseProcessor.process_message m) E w = (inr resp, w') /\
    trace w' = (trace w ++ [Oracle "_execute_server_demise" (get d "server_id")])%list /\
    get resp "action" = VStr "demise_complete" /\
    get resp "pipeline_complete" = VBool true /\
    if negb (Qle_bool (rand E (n_rand w)) (5 # 100))
    then
      get resp "status" = VStr "completed" /\
      get (match get (payload_of resp) "demise_result" with
           | VDict res => res
           | _ => []
           end) "demise_ticket_id" =
        VStr ("DM-" ++ str_of_Z (clock E (n_clock w) / 1000000) ++ "-"
              ++ py_str E (get d "server_id")) /\
      (lookup m "timestamp" = None ->
       get resp "total_processing_time" = VStr "unknown")
    else
      get resp "status" = VStr "failed" /\
      get resp "data" = VDict d /\
      get resp "error" =
        VStr ("Failed to demise server " ++ py_str E (get d "server_id")
              ++ ": Asset management system unavailable").
Proof.
  intros Hd Ht.
  destruct (demise_oracle_run E w (get d "server_id")
              (get_default d "server_details" (VDict []))
              (get_default d "poweroff_result" (VDict [])))
    as (res & c & Hr & _ & Hok & Hyes & Hno).
  unfold run, ServerDemiseProcessor.process_message, try_except, bind.
  rewrite Hd. cbn [attr_get ret].
  change (get_default d "server_id" VNone) with (get d "server_id").
  rewrite Ht. cbn [negb]. rewrite Hr. cbn [ask].
  rewrite <- Hok.
  destruct (truthy (get res "success")).
  - destruct (Hyes eq_refl) as (-> & Hticket & _).
    cbn [uuid4 now].
    match goal with
    | |- context [ServerDemiseProcessor._calculate_processing_time m E ?x] =>
        destruct (processing_time_run E x m) as (s & k & Hc & Hunknown)
    end.
    rewrite Hc. cbn.
    eexists; eexists. split; [reflexivity |]. split; [reflexivity |].
    split; [reflexivity |]. split; [reflexivity |].
    split; [reflexivity |]. split; [exact Hticket |].
    intros Hnone. destruct (Hunknown Hnone) as [-> _]. reflexivity.
  - destruct (Hno eq_refl) as (-> & Herr).
    rewrite Herr. cbn. rewrite Hd.
    eexists; eexists. repeat split; reflexivity.
Qed.

(** X7. The decision of the Demise stage: for a payload with a server id,
    the stage enters the simulated decommission once; when the draw is
    above 0.05 it answers the terminal [demise_complete] / [completed]
    message, with a ticket named after the clock in seconds and the server
    id, and with processing time "unknown" for a message without
    timestamp; otherwise it answers the terminal [failed] message with the
    payload as it came. *)
Theorem demise_decision (E : runtime) (w : world) (m d : dict) :
  get_default m "data" (VDict []) = VDict d ->
  truthy (get d "server_id") = true ->
  exists resp w',
    run (ServerDemiseProcessor.process_message m) E w = (inr resp, w') /\
    trace w' = (trace w ++ [Oracle "_execute_server_demise" (get d "server_id")])%list /\
    get resp "action" = VStr "demise_complete" /\
    get resp "pipeline_complete" = VBool true /\
    if negb (Qle_bool (rand E (n_rand w)) (5 # 100))
    then
      get resp "status" = VStr "completed" /\
      get (match get (payload_of resp) "demise_result" with
           | VDict res => res
           | _ => []
           end) "demise_ticket_id" =
        VStr ("DM-" ++ str_of_Z (clock E (n_clock w) / 1000000) ++ "-"
              ++ py_str E (get d "server_id")) /\
      (lookup m "timestamp" = None ->
       get resp "total_processing_time" = VStr "unknown")
    else
      get resp "status" = VStr "failed" /\
      get resp "data" = VDict d /\
      get resp "error" =
        VStr ("Failed to demise server " ++ py_str E (get d "server_id")
              ++ ": Asset management system unavailable").
Proof. exact (demise_outcome E w m d). Qed.

Lemma demise_decision_witness :
  exists resp w',
    run (ServerDemiseProcessor.process_message demise_request) sample initial_world
    = (inr resp, w') /\
    get resp "status" = VStr "completed" /\
    get resp "total_processing_time" = VStr "unknown".
Proof.
  destruct (demise_decision sample initial_world demise_request
              [ ("server_id", VStr "150");
                ("server_details", VDict [("ip_address", VStr "192.168.1.150")]);
                ("poweroff_result", VDict poweroff_success_result);
                ("poweroff_timestamp", VStr "T1");
                ("original_request", VDict [("server_id", VStr "150")]) ])
    as (resp & w' & Hrun & _ & _ & _ & Hout).
  - reflexivity.
  - reflexivity.
  - exists resp, w'. split; [exact Hrun |].
    destruct Hout as (Hst & _ & Hunknown).
    split; [exact Hst | apply Hunknown; reflexivity].
Defined.

(** ** The stages in sequence *)

Lemma get_default_of_get (m d : dict) (k : string) (dflt : value) :
  get m k = VDict d -> get_default m k dflt = VDict d.
Proof.
  unfold get, get_default. destruct (lookup m k); [trivial | discriminate].
Qed.

Lemma success_status (resp : dict) (s : string) :
  get resp "status" = VStr s -> success resp = true ->
  s = "pending" \/ s = "completed".
Proof.
  unfold success. intros ->. cbn. intros H. apply orb_prop in H.
  destruct H as [H | H]; apply String.eqb_eq in H; auto.
Qed.

(** X8. The stages in sequence: when the Check stage succeeds on a message
    [m], the PowerOff stage accepts its answer; when PowerOff succeeds,
    the Demise stage accepts its answer; and when Demise succeeds, its
    answer is the terminal [demise_complete] / [completed] message that no
    processor accepts.  Through the three stages the request id stays the
    id of [m], the server id stays the one of [m], and the payload of [m]
    travels unchanged under [original_request]. *)
Theorem stages_in_sequence (E : runtime) (w0 w1 w2 w3 : world) (m r1 r2 r3 : dict) :
  run (ServerCheckProcessor.process_message m) E w0 = (inr r1, w1) ->
  success r1 = true ->
  run (ServerPowerOffProcessor.process_message r1) E w1 = (inr r2, w2) ->
  success r2 = true ->
  run (ServerDemiseProcessor.process_message r2) E w2 = (inr r3, w3) ->
  success r3 = true ->
  ServerPowerOffProcessor.should_process_message r1 = true /\
  ServerDemiseProcessor.should_process_message r2 = true /\
  (forall q, In q processors -> should_process_message q r3 = false) /\
  get r3 "action" = VStr "demise_complete" /\
  get r3 "status" = VStr "completed" /\
  get r3 "pipeline_complete" = VBool true /\
  get r2 "original_request_id" = get m "id" /\
  get r3 "original_request_id" = get m "id" /\
  get (payload_of r3) "server_id" = get (payload_of m) "server_id" /\
  get (payload_of r3) "original_request" = VDict (payload_of m).
Proof.
  intros H1 S1 H2 S2 H3 S3.
  (* the Check stage *)
  destruct (check_success_payload E w0 w1 m r1 H1 S1) as (d & Hd & Ht & Ha1 & Hdata1).
  destruct (check_outcome E w0 m d Hd Ht) as (r & r1' & w1' & _ & H1' & _ & _ & Hout1).
  rewrite H1 in H1'. injection H1' as <- <-.
  assert (Hst1 : get r1 "status" = VStr "pending").
  { destruct r as [e | [|]].
    - destruct Hout1 as (_ & Hst & _).
      destruct (success_status r1 _ Hst S1); discriminate.
    - exact (proj1 (proj2 Hout1)).
    - destruct Hout1 as (_ & Hst & _).
      destruct (success_status r1 _ Hst S1); discriminate. }
  destruct (check_well_answered E w0 m)
    as (r1' & w1' & H1' & _ & _ & _ & Hid1 & _).
  cbn [process_message stage ServerCheckProcessor.self request_id] in H1', Hid1.
  rewrite H1 in H1'. injection H1' as <- <-.
  (* the PowerOff stage *)
  destruct (poweroff_success_payload E w1 w2 r1 r2 H2 S2)
    as (d1 & Hd1 & Ht1 & Ha2 & Hdata2).
  pose proof (get_default_of_get r1 _ "data" (VDict []) Hdata1) as Hd1'.
  rewrite Hd1' in Hd1. injection Hd1 as <-.
  destruct (poweroff_outcome E w1 r1 _ Hd1' Ht1) as (r2' & w2' & H2' & _ & Hout2).
  rewrite H2 in H2'. injection H2' as <- <-.
  assert (Hst2 : get r2 "status" = VStr "pending").
  { destruct (_ && _) in Hout2.
    - exact (proj1 (proj2 Hout2)).
    - destruct Hout2 as (_ & Hst & _).
      destruct (success_status r2 _ Hst S2); discriminate. }
  destruct (poweroff_well_answered E w1 r1)
    as (r2' & w2' & H2' & _ & _ & _ & Hid2 & _).
  cbn [process_message stage ServerPowerOffProcessor.self request_id] in H2', Hid2.
  rewrite H2 in H2'. injection H2' as <- <-.
  (* the Demise stage *)
  destruct (demise_success_payload E w2 w3 r2 r3 H3 S3)
    as (d2 & res & ts & Hd2 & Ht2 & Ha3 & Hpc3 & _ & Hdata3).
  pose proof (get_default_of_get r2 _ "data" (VDict []) Hdata2) as Hd2'.
  rewrite Hd2' in Hd2. injection Hd2 as <-.
  destruct (demise_outcome E w2 r2 _ Hd2' Ht2) as (r3' & w3' & H3' & _ & _ & _ & Hout3).
  rewrite H3 in H3'. injection H3' as <- <-.
  assert (Hst3 : get r3 "status" = VStr "completed").
  { destruct (negb _) in Hout3.
    - exact (proj1 Hout3).
    - destruct Hout3 as (Hst & _).
      destruct (success_status r3 _ Hst S3); discriminate. }
  destruct (demise_well_answered E w2 r2)
    as (r3' & w3' & H3' & _ & _ & _ & Hid3 & _).
  cbn [process_message stage ServerDemiseProcessor.self request_id] in H3', Hid3.
  rewrite H3 in H3'. injection H3' as <- <-.
  (* together *)
  assert (Hrid2 : get r2 "original_request_id" = get m "id").
  { rewrite (lookup_get r2 _ _ Hid2).
    rewrite (lookup_get_default r1 _ _ _ Hid1). reflexivity. }
  assert (Hrid3 : get r3 "original_request_id" = get m "id").
  { rewrite (lookup_get r3 _ _ Hid3).
    rewrite (lookup_get_default r2 _ _ _ Hid2).
    rewrite (lookup_get_default r1 _ _ _ Hid1). reflexivity. }
  split.
  { unfold ServerPowerOffProcessor.should_process_message. rewrite Ha1, Hst1. reflexivity. }
  split.
  { unfold ServerDemiseProcessor.should_process_message. rewrite Ha2, Hst2. reflexivity. }
  split.
  { intros q Hq. simpl in Hq.
    destruct Hq as [<- | [<- | [<- | [<- | []]]]]; cbn;
      unfold ServerCheckProcessor.should_process_message,
        ServerPowerOffProcessor.should_process_message,
        ServerCoolingPeriodProcessor.should_process_message,
        ServerDemiseProcessor.should_process_message;
      rewrite Ha3, ?Hst3; reflexivity. }
  repeat split; try assumption.
  - rewrite (payload_of_get r3 _ Hdata3), (payload_of_get_default m d Hd). reflexivity.
  - rewrite (payload_of_get r3 _ Hdata3), (payload_of_get_default m d Hd). reflexivity.
Qed.

Lemma stages_in_sequence_witness :
  exists r1 w1 r2 w2 r3 w3,
    run (ServerCheckProcessor.process_message check_request) sample initial_world
    = (inr r1, w1) /\
    run (ServerPowerOffProcessor.process_message r1) sample w1 = (inr r2, w2) /\
    run (ServerDemiseProcessor.process_message r2) sample w2 = (inr r3, w3) /\
    get r3 "original_request_id" = VStr "req-1" /\
    get (payload_of r3) "original_request" = VDict (payload_of check_request).
Proof.
  do 6 eexists.
  split; [vm_compute; reflexivity |].
  split; [vm_compute; reflexivity |].
  split; [vm_compute; reflexivity |].
  refine (let H := stages_in_sequence sample initial_world _ _ _ check_request _ _ _
                     _ _ _ _ _ _ in _).
  - destruct H as (_ & _ & _ & _ & _ & _ & _ & Hid & _ & Hreq).
    split; [exact Hid | exact Hreq].
  Unshelve.
  all: try (vm_compute; reflexivity).
Defined.

(** ** A processor that raises *)

(** X9. Errors become messages: when the [process_message] of any
    processor raises on a message it accepts, [_handle_message] does not
    raise; it sends one message with action and status [error],
    [pipeline_complete] true, the text of the exception, the class name of
    the processor and the data of the message as it came, and as request
    id the id of the message or, without one, a fresh identifier. *)
Theorem raised_error_reported (self : BaseProcessor) (E : runtime) (w w1 : world)
    (m : dict) (e : exn) :
  should_process_message self m = true ->
  run (process_message self m) E w = (inl e, w1) ->
  serializable (VDict m) = true ->
  exists msg w',
    run (_handle_message self m) E w = (inr tt, w') /\
    produced w' = (produced w1 ++ [msg])%list /\
    get msg "action" = VStr "error" /\
    get msg "status" = VStr "error" /\
    get msg "pipeline_complete" = VBool true /\
    get msg "error" = VStr (exn_text e) /\
    get msg "message" = VStr ("Processing failed: " ++ exn_text e) /\
    get msg "processor" = VStr (class_name self) /\
    get msg "data" = get_default m "data" (VDict []) /\
    get msg "original_request_id" = get_default m "id" (VStr (uuid E (S (n_uuid w1)))).
Proof.
  intros Hacc Hrun Hs.
  unfold run, _handle_message, try_except, bind in *.
  rewrite Hacc. cbn [negb]. rewrite Hrun.
  unfold _send_error_response, bind, ask, uuid4, now, _send_response.
  cbn [tick_uuid tick_clock n_uuid n_clock].
  match goal with
  | |- context [serializable (VDict ?x)] =>
      assert (Hser : serializable (VDict x) = true)
  end.
  { cbn.
    rewrite (serializable_get_default m "id" (VStr (uuid E (S (n_uuid w1)))) Hs eq_refl).
    pose proof (serializable_get_default m "data" (VDict []) Hs eq_refl) as Hd.
    cbn in Hd. rewrite Hd. reflexivity. }
  rewrite Hser.
  eexists; eexists. split; [reflexivity |].
  split; [unfold produced; cbn; rewrite produced_of_snoc; reflexivity |].
  repeat split; reflexivity.
Qed.

Lemma raised_error_reported_witness :
  exists msg w',
    run (_handle_message raising_processor check_request) sample initial_world
    = (inr tt, w') /\
    produced w' = [msg] /\
    get msg "error" = VStr "no such server" /\
    get msg "original_request_id" = VStr "req-1".
Proof.
  destruct (raised_error_reported raising_processor sample initial_world initial_world
              check_request (ValueError "no such server"))
    as (msg & w' & Hrun & Hp & _ & _ & _ & Herr & _ & _ & _ & Hid).
  - reflexivity.
  - reflexivity.
  - reflexivity.
  - exists msg, w'. repeat split; assumption.
Defined.

(** ** A polled batch *)

Lemma handle_message_answer (p : BaseProcessor) (E : runtime) (w : world) (m : dict) :
  In p processors ->
  json_message m ->
  exists w',
    run (_handle_message p m) E w = (inr tt, w') /\
    if accepts p m
    then exists a, produced w' = (produced w ++ [a])%list /\ answers_request p m a
    else w' = w.
Proof.
  intros Hp Hs.
  destruct (stage_well_answered p E w m Hp)
    as (resp & w1 & Hrun & Hne & Hser & Hprod & Hid & _).
  unfold run, _handle_message, try_except, bind, accepts in *.
  destruct (should_process_message p m); cbn [negb].
  - rewrite Hrun, Hne. unfold _send_response. rewrite (Hser Hs).
    eexists. split; [reflexivity |].
    exists resp. split; [| exact Hid].
    rewrite produced_log_produce, Hprod. reflexivity.
  - exists w. split; reflexivity.
Qed.

Lemma handle_messages_run (p : BaseProcessor) (E : runtime) (messages : list dict) :
  In p processors ->
  forall w : world,
    Forall json_message messages ->
    exists w' answers,
      for_each messages
        (fun message => try_except (_handle_message p message) (fun _ => ret tt)) E w
      = (inr tt, w') /\
      produced w' = (produced w ++ answers)%list /\
      Forall2 (answers_request p) (filter (accepts p) messages) answers.
Proof.
  intros Hp. induction messages as [| m messages IH]; intros w Hall.
  - exists w, []. split; [reflexivity |]. split; [now rewrite app_nil_r | constructor].
  - inversion Hall as [| ? ? Hm Hrest]; subst.
    destruct (handle_message_answer p E w m Hp Hm) as (w1 & Hrun & Hcase).
    destruct (IH w1 Hrest) as (w2 & answers & Hrun2 & Hp2 & Hans).
    cbn [for_each filter]. unfold bind at 1, try_except at 1.
    unfold run in Hrun. rewrite Hrun. cbv beta iota.
    destruct (accepts p m).
    + destruct Hcase as (a & Hp1 & Ha).
      exists w2, (a :: answers). split; [exact Hrun2 |].
      split; [rewrite Hp2, Hp1, <- app_assoc; reflexivity |].
      constructor; assumption.
    + subst w1. exists w2, answers. split; [exact Hrun2 |]. split; assumption.
Qed.

(** X16. A polled batch: [run_once] of a processor of the pipeline on a
    batch of decoded JSON messages does not raise and sends one answer for
    each message of the batch that the processor accepts, in the order of
    the batch, and nothing else; each answer names the request of its
    message. *)
Theorem run_once_answers (p : BaseProcessor) (E : runtime) (w : world)
    (message_batch : list (list dict)) :
  In p processors ->
  Forall json_message (concat message_batch) ->
  exists w' answers,
    run (run_once p message_batch) E w = (inr tt, w') /\
    produced w' = (produced w ++ answers)%list /\
    Forall2 (answers_request p) (filter (accepts p) (concat message_batch)) answers.
Proof.
  intros Hp Hall.
  assert (Hloop : exists w' answers,
             for_each message_batch (fun messages =>
               for_each messages (fun message =>
                 try_except (_handle_message p message) (fun _ => ret tt))) E w
             = (inr tt, w') /\
             produced w' = (produced w ++ answers)%list /\
             Forall2 (answers_request p)
               (filter (accepts p) (concat message_batch)) answers).
  { revert w Hall. induction message_batch as [| messages batch IH]; intros w Hall.
    - exists w, []. split; [reflexivity |].
      split; [now rewrite app_nil_r | constructor].
    - cbn [concat] in Hall. apply Forall_app in Hall. destruct Hall as [H1 H2].
      destruct (handle_messages_run p E messages Hp w H1)
        as (w1 & a1 & Hrun1 & Hp1 & Hans1).
      destruct (IH w1 H2) as (w2 & a2 & Hrun2 & Hp2 & Hans2).
      cbn [for_each concat]. unfold bind at 1. rewrite Hrun1.
      exists w2, (a1 ++ a2)%list. split; [exact Hrun2 |].
      split; [rewrite Hp2, Hp1, <- app_assoc; reflexivity |].
      rewrite filter_app. apply Forall2_app; assumption. }
  destruct Hloop as (w' & answers & Hrun & Hprod & Hans).
  exists w', answers. split; [| split; assumption].
  unfold run, run_once. unfold try_except at 1. now rewrite Hrun.
Qed.

Lemma run_once_answers_witness :
  exists w' a1 a2,
    run (run_once ServerCheckProcessor.self
           [[check_request; poweroff_request]; [check_request]])
      sample initial_world = (inr tt, w') /\
    produced w' = [a1; a2] /\
    get a2 "original_request_id" = VStr "req-1".
Proof.
  destruct (run_once_answers ServerCheckProcessor.self sample initial_world
              [[check_request; poweroff_request]; [check_request]])
    as (w' & answers & Hrun & Hprod & Hans).
  - simpl. auto.
  - repeat constructor.
  - cbn in Hans.
    inversion Hans as [| m1 a1 l1 l1' H1 Hrest]; subst.
    inversion Hrest as [| m2 a2 l2 l2' H2 Hnil]; subst.
    inversion Hnil; subst.
    exists w', a1, a2. split; [exact Hrun |]. split; [exact Hprod |].
    unfold answers_request in H2. cbn [stage ServerCheckProcessor.self request_id] in H2.
    unfold get. rewrite H2. reflexivity.
Defined.

(** ** From the API to the Check stage *)

(** X17. A request enters the pipeline at the Check stage: for a request
    body decoded from JSON, [initiate_server_demise] sends one message,
    which can be encoded, carries the server id of the request and is
    accepted by the Check stage and by no other processor.  The Check
    stage answers it under the message id the API returned: with the
    validation error when the server id is empty, and otherwise by the
    existence rule, with the data of the API message under
    [original_request] when the server is found. *)
Theorem api_request_enters_check (E : runtime) (w : world)
    (request : ServerDemiseRequest) :
  serializable (optional_dict (request_additional_data request)) = true ->
  exists msg w' text ts,
    run (initiate_server_demise request) E w
    = (inr (EventResponse (uuid E (n_uuid w)) "initiated" text ts true), w') /\
    produced w' = (produced w ++ [msg])%list /\
    get msg "id" = VStr (uuid E (n_uuid w)) /\
    json_message msg /\
    get (payload_of msg) "server_id" = VStr (request_server_id request) /\
    (forall q, In q processors -> accepts q msg = true -> stage q = Check) /\
    accepts ServerCheckProcessor.self msg = true /\
    forall w0, exists resp w1,
      run (ServerCheckProcessor.process_message msg) E w0 = (inr resp, w1) /\
      get resp "original_request_id" = VStr (uuid E (n_uuid w)) /\
      (request_server_id request = "" ->
       get resp "status" = VStr "error" /\
       get resp "error" = VStr "Server ID is required") /\
      (request_server_id request <> "" ->
       (portal_rule E (request_server_id request) /\
        get resp "action" = VStr "poweroff_server" /\
        get resp "status" = VStr "pending" /\
        get (payload_of resp) "original_request" = get msg "data")
       \/
       (~ portal_rule E (request_server_id request) /\
        get resp "action" = VStr "demise_complete" /\
        get resp "status" = VStr "failed" /\
        get resp "pipeline_complete" = VBool true)).
Proof.
  intros Hjson.
  unfold run, initiate_server_demise, bind, ask, uuid4, now.
  cbv beta iota.
  match goal with
  | |- context [serializable (VDict ?x)] =>
      set (msg := x);
      assert (Hser : serializable (VDict msg) = true)
  end.
  { subst msg. cbn. rewrite Hjson.
    destruct (request_reason request), (request_priority request),
      (request_requester request); reflexivity. }
  rewrite Hser.
  exists msg. eexists; eexists; eexists.
  split; [reflexivity |].
  split; [unfold produced; cbn; rewrite produced_of_snoc; reflexivity |].
  split; [reflexivity |]. split; [exact Hser |]. split; [reflexivity |].
  split.
  { intros q Hq. simpl in Hq.
    destruct Hq as [<- | [<- | [<- | [<- | []]]]]; cbn; intros H;
      try discriminate H; reflexivity. }
  split; [reflexivity |].
  intros w0.
  set (d := [ ("server_id", VStr (request_server_id request));
              ("reason", optional_str (request_reason request));
              ("priority", optional_str (request_priority request));
              ("requester", optional_str (request_requester request));
              ("additional_data", optional_dict (request_additional_data request)) ]).
  assert (Hd : get_default msg "data" (VDict []) = VDict d) by reflexivity.
  destruct (String.eqb_spec (request_server_id request) "") as [Hempty | Hne].
  - unfold run, ServerCheckProcessor.process_message, try_except, bind.
    rewrite Hd. cbn [attr_get ret].
    change (get_default d "server_id" VNone) with (VStr (request_server_id request)).
    rewrite Hempty. cbn.
    eexists; eexists. split; [reflexivity |].
    split; [reflexivity |]. split; [intros _; split; reflexivity |].
    intros H. now contradiction H.
  - assert (Ht : truthy (get d "server_id") = true).
    { cbn. destruct (String.eqb_spec (request_server_id request) "");
        [contradiction | reflexivity]. }
    destruct (check_outcome E w0 msg d Hd Ht)
      as (r & resp & w1 & Hr & Hrun & _ & Hid & Hout).
    change (get d "server_id") with (VStr (request_server_id request)) in Hr.
    pose proof (check_server_in_portal_str E w0 (request_server_id request)) as Hstr.
    unfold run in Hstr. rewrite Hstr in Hr. injection Hr as <-.
    pose proof (portal_answer E (request_server_id request)) as Hrule.
    exists resp, w1. split; [exact Hrun |]. split; [exact Hid |].
    split; [intros H; contradiction |]. intros _.
    destruct (match str_int E (request_server_id request) with
              | Some n => (100 <=? n) && (n <=? 999)
              | None => _
              end).
    + left. destruct Hout as (Ha & Hst & _ & Hdata).
      split; [now apply Hrule |].
      split; [exact Ha |]. split; [exact Hst |].
      rewrite (payload_of_get resp _ Hdata). reflexivity.
    + right. destruct Hout as (Ha & Hst & Hpc & _).
      split; [intros H; apply Hrule in H; discriminate H |].
      repeat split; assumption.
Qed.

Lemma api_request_enters_check_witness :
  exists msg w',
    fst (run (initiate_server_demise
                {| request_server_id := "150";
                   request_reason := Some "Planned decommission";
                   request_priority := Some "normal";
                   request_requester := Some "system";
                   request_additional_data := Some [] |}) sample initial_world)
    = inr (EventResponse "uuid-0" "initiated"
             "Server demise pipeline initiated for server 150" "T3600000000" true) /\
    produced w' = [msg] /\
    accepts ServerCheckProcessor.self msg = true.
Proof.
  destruct (api_request_enters_check sample initial_world
              {| request_server_id := "150";
                 request_reason := Some "Planned decommission";
                 request_priority := Some "normal";
                 request_requester := Some "system";
                 request_additional_data := Some [] |})
    as (msg & w' & text & ts & Hrun & Hp & _ & _ & _ & _ & Hacc & _).
  - reflexivity.
  - exists msg, w'. split; [reflexivity |]. split; [exact Hp | exact Hacc].
Defined.

(** ** The cooling-period monitor *)

Import ServerCoolingPeriodProcessor.

Lemma map_mem_del {A : Type} (m : list (value * A)) (k : value) :
  map_mem (map_del m k) k = false.
Proof.
  unfold map_mem.
  induction m as [| [k' a] m IH]; simpl; [reflexivity |].
  destruct (key_eqb k k') eqn:Hk; [exact IH |].
  simpl. rewrite Hk. exact IH.
Qed.

Lemma key_eqb_hashable (a b : value) : key_eqb a b = true -> hashable a = true.
Proof. destruct a, b; simpl; intros H; try reflexivity; discriminate H. Qed.

Lemma map_find_hashable {A : Type} (m : list (value * A)) (k : value) (a : A) :
  map_find m k = Some a -> hashable k = true.
Proof.
  induction m as [| [k' a'] m IH]; simpl; [discriminate |].
  destruct (key_eqb k k') eqn:Hk; [intros _; exact (key_eqb_hashable _ _ Hk) | exact IH].
Qed.

Lemma produced_of_app (t u : list event) :
  produced_of (t ++ u) = (produced_of t ++ produced_of u)%list.
Proof.
  induction t as [| e t IH]; simpl; [reflexivity |].
  destruct e; simpl; rewrite IH; reflexivity.
Qed.

Lemma send_response_run (E : runtime) (w : world) (msg : dict) :
  _send_response msg E w = (inr tt, sent msg w).
Proof.
  unfold _send_response, sent. destruct (serializable (VDict msg)); reflexivity.
Qed.

Lemma remove_session_run (E : runtime) (w : world) (server_id : value) :
  hashable server_id = true ->
  remove_session server_id E w = (inr tt, removed server_id w).
Proof.
  intros Hh. unfold remove_session, in_sessions, removed, bind. rewrite Hh. cbn.
  destruct (map_mem (cooling_sessions w) server_id); reflexivity.
Qed.

Lemma removed_absent (server_id : value) (w : world) :
  map_mem (cooling_sessions (removed server_id w)) server_id = false.
Proof.
  unfold removed.
  destruct (map_mem (cooling_sessions w) server_id) eqn:Hm; [| exact Hm].
  cbn. apply map_mem_del.
Qed.

(** The oracle of the cooling monitor always answers; it reports
    powered-on exactly when the draw is below 0.05 and the server details
    are a dict. *)
Lemma check_server_power_status_run (E : runtime) (w : world) (server_id details : value) :
  exists ps c d,
    _check_server_power_status server_id details E w =
      (inr ps, advance c 0 d (log (Oracle "_check_server_power_status" server_id) w)) /\
    (serializable details = true -> serializable (VDict ps) = true) /\
    truthy (get ps "is_powered_on") =
      negb (Qle_bool (5 # 100) (rand E (n_rand w))) && is_dict details.
Proof.
  unfold _check_server_power_status, try_except, bind, emit, modify.
  cbn.
  destruct details as [| | | | | | | d];
    try (eexists; exists 2%nat, 1%nat; split; [reflexivity |];
         split; [reflexivity | cbn; now rewrite andb_false_r]).
  cbn.
  destruct (Qle_bool (5 # 100) (rand E (n_rand w))); cbn.
  - eexists; exists 1%nat, 1%nat. split; [reflexivity |].
    split; [| reflexivity].
    intros Hs. cbn. rewrite (serializable_get_default d "ip_address" (VStr "unknown") Hs eq_refl).
    reflexivity.
  - eexists; exists 2%nat, 3%nat. split; [reflexivity |].
    split; [| reflexivity].
    intros Hs. cbn. rewrite (serializable_get_default d "ip_address" (VStr "unknown") Hs eq_refl).
    reflexivity.
Qed.

Ltac step_handler Hinfo :=
  cbv beta iota delta [bind ask read_info get_world uuid4 now ret];
  cbn [heap tick_clock tick_uuid]; rewrite Hinfo;
  cbv beta iota; rewrite send_response_run.

Lemma handle_cooling_violation_run (E : runtime) (w : world) (server_id : value)
    (r : nat) (ps : dict) (info : cooling_info) :
  nth_error (heap w) r = Some info ->
  exists msg,
    _handle_cooling_violation server_id r ps E w =
      remove_session server_id E (sent msg (advance 4 1 0 w)) /\
    get msg "action" = VStr "cooling_violation_error" /\
    get msg "status" = VStr "violation_error" /\
    get msg "pipeline_complete" = VBool true /\
    get (payload_of msg) "violation_details" =
      VDict [ ("power_status", VDict ps);
              ("violation_time", VStr (isoformat E (clock E (1 + n_clock w))));
              ("cooling_elapsed_hours",
                 VFloat (hours_of (clock E (2 + n_clock w) - ci_cooling_start info)));
              ("remaining_hours",
                 VFloat (hours_of (ci_cooling_end info - clock E (3 + n_clock w))));
              ("check_number", VInt (ci_check_count info)) ] /\
    (json_session info = true -> serializable (VDict ps) = true ->
     serializable server_id = true -> serializable (VDict msg) = true).
Proof.
  intros Hinfo. unfold _handle_cooling_violation.
  step_handler Hinfo.
  eexists. split; [reflexivity |].
  repeat split; try reflexivity.
  unfold json_session. intros Hj Hps Hsid.
  apply andb_prop in Hj. destruct Hj as [Hj Hts].
  apply andb_prop in Hj. destruct Hj as [Hm Hd].
  unfold request_id_of. cbn.
  rewrite (serializable_get_default _ "original_request_id" _ Hm
             (serializable_get _ "id" Hm)).
  cbn in Hps. rewrite Hsid, Hd, Hps. reflexivity.
Qed.

Lemma handle_cooling_complete_run (E : runtime) (w : world) (server_id : value)
    (r : nat) (info : cooling_info) (d : dict) :
  nth_error (heap w) r = Some info ->
  get_default (ci_original_message info) "data" (VDict []) = VDict d ->
  exists msg,
    _handle_cooling_complete server_id r E w =
      remove_session server_id E (sent msg (advance 2 1 0 w)) /\
    get msg "action" = VStr "demise_server" /\
    get msg "status" = VStr "pending" /\
    get (payload_of msg) "cooling_completion" =
      VDict [ ("cooling_start", VStr (isoformat E (ci_cooling_start info)));
              ("cooling_end", VStr (isoformat E (ci_cooling_end info)));
              ("actual_completion", VStr (isoformat E (clock E (1 + n_clock w))));
              ("total_checks_performed", VInt (ci_check_count info));
              ("cooling_duration_hours", VInt cooling_period_hours) ] /\
    (json_session info = true -> serializable server_id = true ->
     serializable (VDict msg) = true).
Proof.
  intros Hinfo Hd. unfold _handle_cooling_complete.
  cbv beta iota delta [bind ask read_info get_world uuid4 now ret].
  cbn [heap tick_clock tick_uuid]. rewrite Hinfo.
  cbv beta iota. rewrite Hd. cbn [attr_get ret].
  cbv beta iota. rewrite send_response_run.
  eexists. split; [reflexivity |].
  repeat split; try reflexivity.
  unfold json_session. intros Hj Hsid.
  apply andb_prop in Hj. destruct Hj as [Hj Hts].
  apply andb_prop in Hj. destruct Hj as [Hm Hdet].
  pose proof (serializable_get_default _ "data" (VDict []) Hm eq_refl) as Hdata.
  rewrite Hd in Hdata.
  pose proof (serializable_get_default d "original_request" (VDict []) Hdata eq_refl) as Hreq.
  unfold request_id_of. cbn.
  rewrite (serializable_get_default _ "original_request_id" _ Hm
             (serializable_get _ "id" Hm)).
  rewrite Hsid, Hdet, Hts, Hreq. reflexivity.
Qed.

Lemma handle_cooling_error_run (E : runtime) (w : world) (server_id : value)
    (r : nat) (error_msg : string) (info : cooling_info) :
  nth_error (heap w) r = Some info ->
  exists msg,
    _handle_cooling_error server_id r error_msg E w =
      remove_session server_id E (sent msg (advance 2 1 0 w)) /\
    get msg "action" = VStr "cooling_error" /\
    get msg "status" = VStr "error" /\
    get msg "pipeline_complete" = VBool true /\
    get msg "error" = VStr error_msg /\
    (json_session info = true -> serializable server_id = true ->
     serializable (VDict msg) = serializable (ci_last_check info)).
Proof.
  intros Hinfo. unfold _handle_cooling_error.
  step_handler Hinfo.
  eexists. split; [reflexivity |].
  repeat split; try reflexivity.
  unfold json_session. intros Hj Hsid.
  apply andb_prop in Hj. destruct Hj as [Hj Hts].
  apply andb_prop in Hj. destruct Hj as [Hm Hdet].
  unfold request_id_of. cbn.
  rewrite (serializable_get_default _ "original_request_id" _ Hm
             (serializable_get _ "id" Hm)).
  rewrite Hsid, Hdet. cbn. now rewrite !andb_true_r.
Qed.

(** One call of a terminal handler, for a session that is in the map
    under its server id: the handler hands the message of the branch to
    [_send_response], which sends it when [json.dumps] accepts it, and then
    deletes the entry of the server id. *)
Lemma terminal_handler_run (E : runtime) (w : world) (b : terminal_branch)
    (server_id : value) (r : nat) (info : cooling_info) :
  map_find (cooling_sessions w) server_id = Some r ->
  nth_error (heap w) r = Some info ->
  is_dict (get_default (ci_original_message info) "data" (VDict [])) = true ->
  exists msg w',
    run (terminal_handler b server_id r) E w = (inr tt, w') /\
    get msg "action" = VStr (terminal_action b) /\
    trace w' =
      (trace w ++ (if serializable (VDict msg) then [Produce msg] else [])
               ++ [SessionDel server_id])%list /\
    (json_session info = true -> serializable server_id = true ->
     branch_serializable b info = true -> serializable (VDict msg) = true) /\
    cooling_sessions w' = map_del (cooling_sessions w) server_id /\
    map_mem (cooling_sessions w') server_id = false /\
    cooling_threads w' = cooling_threads w /\
    heap w' = heap w.
Proof.
  intros Hmap Hinfo Hdict.
  pose proof (map_find_hashable _ _ _ Hmap) as Hh.
  assert (Hmem : forall msg c u d,
             map_mem (cooling_sessions (sent msg (advance c u d w))) server_id = true).
  { intros msg c u d. unfold sent, map_mem.
    destruct (serializable (VDict msg)); cbn; now rewrite Hmap. }
  assert (Hfin : forall msg c u d,
             let w' := removed server_id (sent msg (advance c u d w)) in
             trace w' =
               (trace w ++ (if serializable (VDict msg) then [Produce msg] else [])
                        ++ [SessionDel server_id])%list /\
             cooling_sessions w' = map_del (cooling_sessions w) server_id /\
             map_mem (cooling_sessions w') server_id = false /\
             cooling_threads w' = cooling_threads w /\
             heap w' = heap w).
  { intros msg c u d w'. subst w'.
    split; [| split; [| split; [apply removed_absent |]]];
      unfold removed; rewrite Hmem; unfold sent;
      destruct (serializable (VDict msg)); cbn;
      rewrite <- ?app_assoc, ?app_nil_r; auto. }
  unfold run.
  destruct b as [ps | | text]; cbn [terminal_handler terminal_action branch_serializable].
  - destruct (handle_cooling_violation_run E w server_id r ps info Hinfo)
      as (msg & Hrun & Hact & _ & _ & _ & Hser).
    exists msg. eexists. rewrite Hrun, (remove_session_run _ _ _ Hh).
    split; [reflexivity |]. split; [exact Hact |].
    destruct (Hfin msg 4%nat 1%nat 0%nat) as (Ht & Hs & Hm & Hth & Hhp).
    repeat split; auto.
  - destruct (get_default (ci_original_message info) "data" (VDict [])) as [| | | | | | | d]
      eqn:Hd; try discriminate Hdict.
    destruct (handle_cooling_complete_run E w server_id r info d Hinfo Hd)
      as (msg & Hrun & Hact & _ & _ & Hser).
    exists msg. eexists. rewrite Hrun, (remove_session_run _ _ _ Hh).
    split; [reflexivity |]. split; [exact Hact |].
    destruct (Hfin msg 2%nat 1%nat 0%nat) as (Ht & Hs & Hm & Hth & Hhp).
    repeat split; auto.
  - destruct (handle_cooling_error_run E w server_id r text info Hinfo)
      as (msg & Hrun & Hact & _ & _ & _ & Hser).
    exists msg. eexists. rewrite Hrun, (remove_session_run _ _ _ Hh).
    split; [reflexivity |]. split; [exact Hact |].
    destruct (Hfin msg 2%nat 1%nat 0%nat) as (Ht & Hs & Hm & Hth & Hhp).
    repeat split; auto.
    intros Hj Hsid Hb. rewrite (Hser Hj Hsid). exact Hb.
Qed.

Lemma process_message_starts_session (E : runtime) (w : world) (m d : dict) :
  get_default m "data" (VDict []) = VDict d ->
  truthy (get d "server_id") = true ->
  hashable (get d "server_id") = true ->
  map_mem (cooling_sessions w) (get d "server_id") = false ->
  exists resp,
    run (process_message m) E w =
      (inr resp,
       advance 4 1 0
         (log (ThreadStart (length (heap w)))
            (log (SessionPut (get d "server_id") (length (heap w)))
               (set_threads
                  (map_set (cooling_threads w) (get d "server_id") (length (heap w)))
                  (set_sessions
                     (map_set (cooling_sessions w) (get d "server_id") (length (heap w)))
                     (set_heap (heap w ++ [new_session E (n_clock w) m d]) w)))))) /\
    get resp "action" = VStr "cooling_period_started" /\
    get resp "status" = VStr "monitoring".
Proof.
  intros Hd Ht Hh Hm.
  unfold run, process_message, try_except, bind. rewrite Hd. cbn [attr_get ret].
  change (get_default d "server_id" VNone) with (get d "server_id").
  rewrite Ht. cbn [negb]. unfold in_sessions. rewrite Hh.
  unfold bind, get_world, ret. rewrite Hm.
  cbn. eexists. split; [reflexivity |]. split; reflexivity.
Qed.

(** C6. Cooling idempotence: a start message for a server id that has a
    session in the map leaves the session map, the thread table and the
    heap as they are, puts neither a new session nor a new thread on
    record, and is answered with the informational, non-terminal status
    message [cooling_status] / [info]. *)
Theorem cooling_start_idempotent (E : runtime) (w : world) (m d : dict) (r : nat) :
  get_default m "data" (VDict []) = VDict d ->
  truthy (get d "server_id") = true ->
  map_find (cooling_sessions w) (get d "server_id") = Some r ->
  exists resp w',
    run (process_message m) E w = (inr resp, w') /\
    cooling_sessions w' = cooling_sessions w /\
    cooling_threads w' = cooling_threads w /\
    heap w' = heap w /\
    trace w' = trace w /\
    get resp "action" = VStr "cooling_status" /\
    get resp "status" = VStr "info" /\
    get resp "message" = VStr "Server already in cooling period" /\
    lookup resp "pipeline_complete" = None /\
    get resp "data" = VDict d.
Proof.
  intros Hd Ht Hmap.
  pose proof (map_find_hashable _ _ _ Hmap) as Hh.
  unfold run, process_message, try_except, bind. rewrite Hd. cbn [attr_get ret].
  change (get_default d "server_id" VNone) with (get d "server_id").
  rewrite Ht. cbn [negb]. unfold in_sessions. rewrite Hh.
  unfold bind, get_world, ret, map_mem. rewrite Hmap.
  cbn. rewrite Hd.
  eexists; eexists. split; [reflexivity |].
  repeat split; reflexivity.
Qed.

Example cooling_started_once :
  cooling_sessions cooling_started = [(VStr "150", 0%nat)] /\
  trace cooling_started = [SessionPut (VStr "150") 0; ThreadStart 0].
Proof. split; reflexivity. Qed.

Lemma cooling_start_idempotent_witness :
  exists resp w',
    run (process_message cooling_request) sample cooling_started = (inr resp, w') /\
    length (cooling_sessions w') = 1%nat /\
    trace w' = [SessionPut (VStr "150") 0; ThreadStart 0] /\
    get resp "action" = VStr "cooling_status".
Proof.
  destruct (cooling_start_idempotent sample cooling_started cooling_request
              [ ("server_id", VStr "150");
                ("server_details", VDict [("ip_address", VStr "192.168.1.150")]);
                ("poweroff_timestamp", VStr "T1") ] 0%nat)
    as (resp & w' & Hrun & Hs & _ & _ & Ht & Ha & _).
  - reflexivity.
  - reflexivity.
  - reflexivity.
  - exists resp, w'. split; [exact Hrun |].
    rewrite Hs, Ht. repeat split. exact Ha.
Defined.

(** *** Power checks *)

Lemma nth_error_update_same {A : Type} (l : list A) (i : nat) (x y : A) :
  nth_error l i = Some x -> nth_error (list_update l i y) i = Some y.
Proof.
  revert i. induction l as [| a l IH]; intros [| i]; simpl; try discriminate.
  - reflexivity.
  - apply IH.
Qed.

Lemma nth_error_update_other {A : Type} (l : list A) (i j : nat) (y : A) :
  i <> j -> nth_error (list_update l i y) j = nth_error l j.
Proof.
  revert i j. induction l as [| a l IH]; intros [| i] [| j] Hij; simpl;
    try reflexivity; try congruence.
  apply IH. congruence.
Qed.

Lemma list_update_twice {A : Type} (l : list A) (i : nat) (x y : A) :
  list_update (list_update l i x) i y = list_update l i y.
Proof.
  revert i. induction l as [| a l IH]; intros [| i]; simpl; try reflexivity.
  now rewrite IH.
Qed.

Lemma status_response_run (E : runtime) (w : world) (server_id : value) (r : nat)
    (ps : dict) (info : cooling_info) :
  nth_error (heap w) r = Some info ->
  exists msg,
    status_response server_id r ps E w = (inr msg, advance 2 1 0 w) /\
    get msg "action" = VStr "cooling_status_update".
Proof.
  intros Hinfo. unfold status_response.
  cbv beta iota delta [bind ask read_info get_world uuid4 now ret].
  cbn [heap tick_clock tick_uuid]. rewrite Hinfo.
  eexists. split; reflexivity.
Qed.

Lemma perform_power_check_run (E : runtime) (w : world) (server_id : value)
    (r : nat) (info : cooling_info) :
  nth_error (heap w) r = Some info ->
  exists ps c d,
    let w1 := advance c 0 d
                (log (Oracle "_check_server_power_status" server_id)
                   (counted E w r info)) in
    truthy (get ps "is_powered_on") = reports_powered_on E w (ci_server_details info) /\
    (serializable (ci_server_details info) = true -> serializable (VDict ps) = true) /\
    run (_perform_power_check server_id r) E w =
      (inr tt,
       if truthy (get ps "is_powered_on")
       then snd (_handle_cooling_violation server_id r ps E w1)
       else advance 2 1 0 w1).
Proof.
  intros Hinfo.
  destruct (check_server_power_status_run E (counted E w r info) server_id
              (ci_server_details info)) as (ps & c & d & Hps & Hser & Hon).
  exists ps, c, d. cbv zeta.
  split; [exact Hon |]. split; [exact Hser |].
  unfold run, _perform_power_check, try_except.
  cbv beta iota delta [bind read_info write_info modify get_world now ret].
  rewrite Hinfo. cbv beta iota. cbn [heap set_heap tick_clock].
  rewrite (nth_error_update_same _ _ _ _ Hinfo). cbv beta iota.
  cbn [heap set_heap tick_clock cooling_sessions cooling_threads trace
       n_clock n_uuid n_rand ci_server_id ci_server_details
       ci_poweroff_timestamp ci_cooling_start ci_cooling_end
       ci_original_message ci_check_count ci_last_check ci_status].
  rewrite list_update_twice.
  match goal with
  | |- context [_check_server_power_status ?a ?b ?e ?x] =>
      change x with (counted E w r info)
  end.
  rewrite Hps.
  destruct (truthy (get ps "is_powered_on")).
  - destruct (_handle_cooling_violation _ _ _ _ _) as [[e | []] w2]; reflexivity.
  - unfold _send_status_update, bind.
    assert (Hr : nth_error
                   (heap (advance c 0 d
                            (log (Oracle "_check_server_power_status" server_id)
                               (counted E w r info)))) r
                 = Some (checked info (clock E (n_clock w)))).
    { cbn. apply (nth_error_update_same _ _ _ _ Hinfo). }
    destruct (status_response_run E _ server_id r ps _ Hr) as (msg & Hmsg & _).
    rewrite Hmsg. reflexivity.
Qed.

Lemma remove_session_frame (E : runtime) (w : world) (server_id : value) :
  let w' := snd (remove_session server_id E w) in
  heap w' = heap w /\ cooling_threads w' = cooling_threads w /\
  produced w' = produced w /\
  (hashable server_id = true -> map_mem (cooling_sessions w') server_id = false).
Proof.
  cbv zeta. destruct (hashable server_id) eqn:Hh.
  - rewrite (remove_session_run E w server_id Hh). cbn [snd].
    repeat split; [| | | intros _; apply removed_absent];
      unfold removed; destruct (map_mem (cooling_sessions w) server_id);
      try reflexivity.
    unfold produced. cbn. rewrite produced_of_app. cbn. now rewrite app_nil_r.
  - unfold remove_session, in_sessions, bind. rewrite Hh. cbn.
    repeat split. discriminate.
Qed.

Lemma status_update_suppressed_run (E : runtime) (w : world) (server_id : value)
    (r : nat) (info : cooling_info) :
  nth_error (heap w) r = Some info ->
  reports_powered_on E w (ci_server_details info) = false ->
  exists w',
    run (_perform_power_check server_id r) E w = (inr tt, w') /\
    produced w' = produced w.
Proof.
  intros Hinfo Hoff.
  destruct (perform_power_check_run E w server_id r info Hinfo)
    as (ps & c & d & Hon & _ & Hrun).
  cbv zeta in Hrun. rewrite Hoff in Hon. rewrite Hon in Hrun.
  eexists. split; [exact Hrun |].
  unfold produced. cbn. rewrite produced_of_app. cbn. now rewrite app_nil_r.
Qed.

(** C10. Suppressed status updates: a power check in which the oracle
    reports powered-off (also when it assumes so because the query
    raised) builds the [cooling_status_update] message and sends nothing;
    it leaves the session map and the thread table alone, and in the heap
    it changes only the session's own object, of which it increments
    [check_count] and dates [last_check]. *)
Theorem status_update_suppressed (E : runtime) (w : world) (server_id : value)
    (r : nat) (info : cooling_info) :
  nth_error (heap w) r = Some info ->
  reports_powered_on E w (ci_server_details info) = false ->
  exists w',
    run (_perform_power_check server_id r) E w = (inr tt, w') /\
    produced w' = produced w /\
    trace w' = (trace w ++ [Oracle "_check_server_power_status" server_id])%list /\
    cooling_sessions w' = cooling_sessions w /\
    cooling_threads w' = cooling_threads w /\
    heap w' = list_update (heap w) r (checked info (clock E (n_clock w))) /\
    (forall r', r <> r' -> nth_error (heap w') r' = nth_error (heap w) r') /\
    (exists power_status w1 msg,
        run (status_response server_id r power_status) E w1 = (inr msg, w') /\
        truthy (get power_status "is_powered_on") = false /\
        get msg "action" = VStr "cooling_status_update").
Proof.
  intros Hinfo Hoff.
  destruct (perform_power_check_run E w server_id r info Hinfo)
    as (ps & c & d & Hon & _ & Hrun).
  cbv zeta in Hrun. rewrite Hoff in Hon. rewrite Hon in Hrun.
  eexists. split; [exact Hrun |].
  repeat split.
  - unfold produced. cbn. rewrite produced_of_app. cbn. now rewrite app_nil_r.
  - intros r' Hr. cbn. apply nth_error_update_other. exact Hr.
  - set (w1 := advance c 0 d
                 (log (Oracle "_check_server_power_status" server_id)
                    (counted E w r info))).
    assert (Hr : nth_error (heap w1) r = Some (checked info (clock E (n_clock w)))).
    { cbn. apply (nth_error_update_same _ _ _ _ Hinfo). }
    destruct (status_response_run E w1 server_id r ps _ Hr) as (msg & Hmsg & Hact).
    exists ps, w1, msg. repeat split; assumption.
Qed.

Lemma status_update_suppressed_witness :
  exists w',
    run (_perform_power_check (VStr "150") 0) never_on cooling_started = (inr tt, w') /\
    produced w' = [].
Proof.
  destruct (status_update_suppressed never_on cooling_started (VStr "150") 0%nat
              (new_session never_on 0 cooling_request
                 [ ("server_id", VStr "150");
                   ("server_details", VDict [("ip_address", VStr "192.168.1.150")]);
                   ("poweroff_timestamp", VStr "T1") ]))
    as (w' & Hrun & Hp & _).
  - reflexivity.
  - reflexivity.
  - exists w'. split; [exact Hrun | exact Hp].
Defined.

(** *** Violations *)

Lemma perform_power_check_heap (E : runtime) (w w' : world) (server_id : value)
    (r : nat) (info : cooling_info) (res : exn + unit) :
  nth_error (heap w) r = Some info ->
  run (_perform_power_check server_id r) E w = (res, w') ->
  heap w' = list_update (heap w) r (checked info (clock E (n_clock w))).
Proof.
  intros Hinfo Hrun.
  destruct (perform_power_check_run E w server_id r info Hinfo)
    as (ps & c & d & _ & _ & Hrun').
  cbv zeta in Hrun'. rewrite Hrun' in Hrun. injection Hrun as _ <-.
  destruct (truthy (get ps "is_powered_on")); [| reflexivity].
  set (w1 := advance c 0 d
               (log (Oracle "_check_server_power_status" server_id)
                  (counted E w r info))).
  assert (Hr : nth_error (heap w1) r = Some (checked info (clock E (n_clock w)))).
  { cbn. apply (nth_error_update_same _ _ _ _ Hinfo). }
  destruct (handle_cooling_violation_run E w1 server_id r ps _ Hr) as (msg & Hv & _).
  rewrite Hv.
  destruct (remove_session_frame E (sent msg (advance 4 1 0 w1)) server_id) as (Hh & _).
  rewrite Hh. unfold sent. destruct (serializable (VDict msg)); reflexivity.
Qed.

Lemma nth_check_count (E : runtime) (server_id : value) (r n : nat) (w : world) :
  nth_check E server_id r n w ->
  (1 <= n)%nat /\
  exists info, nth_error (heap w) r = Some info /\
               ci_check_count info = Z.of_nat n - 1.
Proof.
  induction 1 as [w info Hinfo Hc | n w w1 w2 _ [Hn (info & Hinfo & Hc)] Hrun Hsame].
  - split; [lia |]. exists info. split; [exact Hinfo | rewrite Hc; reflexivity].
  - split; [lia |].
    pose proof (perform_power_check_heap E w w1 server_id r info _ Hinfo Hrun) as Hh.
    exists (checked info (clock E (n_clock w))). split.
    + rewrite Hsame, Hh. apply (nth_error_update_same _ _ _ _ Hinfo).
    + change (ci_check_count info + 1 = Z.of_nat (S n) - 1). rewrite Hc. lia.
Qed.

Lemma perform_power_check_violation (E : runtime) (w : world) (server_id : value)
    (r : nat) (info : cooling_info) :
  nth_error (heap w) r = Some info ->
  json_session info = true ->
  serializable server_id = true ->
  reports_powered_on E w (ci_server_details info) = true ->
  exists msg w' power_status i,
    run (_perform_power_check server_id r) E w = (inr tt, w') /\
    produced w' = (produced w ++ [msg])%list /\
    get msg "action" = VStr "cooling_violation_error" /\
    get msg "status" = VStr "violation_error" /\
    get msg "pipeline_complete" = VBool true /\
    truthy (get power_status "is_powered_on") = true /\
    (n_clock w < i)%nat /\
    get (payload_of msg) "violation_details" =
      VDict [ ("power_status", VDict power_status);
              ("violation_time", VStr (isoformat E (clock E (1 + i))));
              ("cooling_elapsed_hours",
                 VFloat (hours_of (clock E (2 + i) - ci_cooling_start info)));
              ("remaining_hours",
                 VFloat (hours_of (ci_cooling_end info - clock E (3 + i))));
              ("check_number", VInt (ci_check_count info + 1)) ] /\
    (hashable server_id = true -> map_mem (cooling_sessions w') server_id = false).
Proof.
  intros Hinfo Hj Hsid Hon.
  destruct (perform_power_check_run E w server_id r info Hinfo)
    as (ps & c & d & Hps & Hser & Hrun).
  cbv zeta in Hrun. rewrite Hon in Hps. rewrite Hps in Hrun.
  set (w1 := advance c 0 d
               (log (Oracle "_check_server_power_status" server_id)
                  (counted E w r info))) in *.
  assert (Hr : nth_error (heap w1) r = Some (checked info (clock E (n_clock w)))).
  { cbn. apply (nth_error_update_same _ _ _ _ Hinfo). }
  destruct (handle_cooling_violation_run E w1 server_id r ps _ Hr)
    as (msg & Hv & Hact & Hst & Hpc & Hdet & Hmsg).
  assert (Hjs : json_session (checked info (clock E (n_clock w))) = true) by exact Hj.
  assert (Hsmsg : serializable (VDict msg) = true).
  { apply Hmsg; [exact Hjs | | exact Hsid].
    apply Hser. unfold json_session in Hj.
    apply andb_prop in Hj. destruct Hj as [Hj _].
    apply andb_prop in Hj. destruct Hj as [_ Hd]. exact Hd. }
  rewrite Hv in Hrun.
  destruct (remove_session_frame E (sent msg (advance 4 1 0 w1)) server_id)
    as (_ & _ & Hprod & Habs).
  exists msg. eexists. exists ps, (c + S (n_clock w))%nat.
  split; [exact Hrun |].
  split.
  { rewrite Hprod. unfold sent. rewrite Hsmsg.
    unfold produced. cbn. rewrite !produced_of_app. cbn. now rewrite app_nil_r. }
  repeat split; try assumption.
  lia.
Qed.

(** C4. Cooling violation outcome: when the oracle reports powered-on at
    the n-th check of a session (a session built from a JSON message),
    the monitor sends one message with action [cooling_violation_error],
    status [violation_error] and [pipeline_complete] true; its payload
    records the violation time, the elapsed and the remaining cooling
    hours and the check number n, and n is at least 1. *)
Theorem cooling_violation_outcome (E : runtime) (server_id : value) (r n : nat)
    (w : world) (info : cooling_info) :
  nth_check E server_id r n w ->
  nth_error (heap w) r = Some info ->
  json_session info = true ->
  serializable server_id = true ->
  reports_powered_on E w (ci_server_details info) = true ->
  exists msg w' power_status i,
    run (_perform_power_check server_id r) E w = (inr tt, w') /\
    produced w' = (produced w ++ [msg])%list /\
    get msg "action" = VStr "cooling_violation_error" /\
    get msg "status" = VStr "violation_error" /\
    get msg "pipeline_complete" = VBool true /\
    get (payload_of msg) "violation_details" =
      VDict [ ("power_status", VDict power_status);
              ("violation_time", VStr (isoformat E (clock E (1 + i))));
              ("cooling_elapsed_hours",
                 VFloat (hours_of (clock E (2 + i) - ci_cooling_start info)));
              ("remaining_hours",
                 VFloat (hours_of (ci_cooling_end info - clock E (3 + i))));
              ("check_number", VInt (Z.of_nat n)) ] /\
    (n_clock w < i)%nat /\
    (1 <= n)%nat.
Proof.
  intros Hn Hinfo Hj Hsid Hon.
  destruct (nth_check_count E server_id r n w Hn) as (Hpos & info' & Hinfo' & Hc).
  rewrite Hinfo in Hinfo'. injection Hinfo' as <-.
  destruct (perform_power_check_violation E w server_id r info Hinfo Hj Hsid Hon)
    as (msg & w' & ps & i & Hrun & Hprod & Hact & Hst & Hpc & _ & Hi & Hdet & _).
  exists msg, w', ps, i.
  replace (Z.of_nat n) with (ci_check_count info + 1) by lia.
  repeat split; assumption.
Qed.

Lemma cooling_violation_outcome_witness :
  exists msg w',
    run (_perform_power_check (VStr "150") 0) third_on after_two_checks = (inr tt, w') /\
    produced w' = [msg] /\
    get (match get (payload_of msg) "violation_details" with
         | VDict d => d
         | _ => []
         end) "check_number" = VInt 3.
Proof.
  assert (H3 : nth_check third_on (VStr "150") 0 3 after_two_checks).
  { apply (later_check _ _ _ 2 after_one_check after_two_checks).
    - apply (later_check _ _ _ 1 cooling_started after_one_check).
      + eapply first_check; reflexivity.
      + vm_compute. reflexivity.
      + reflexivity.
    - vm_compute. reflexivity.
    - reflexivity. }
  edestruct (cooling_violation_outcome third_on (VStr "150") 0%nat 3%nat after_two_checks)
    as (msg & w' & ps & i & Hrun & Hprod & _ & _ & _ & Hdet & _).
  - exact H3.
  - vm_compute. reflexivity.
  - reflexivity.
  - reflexivity.
  - reflexivity.
  - exists msg, w'. split; [exact Hrun |]. split; [exact Hprod |].
    rewrite Hdet. reflexivity.
Defined.

(** *** Completion *)

Lemma session_state_fields (E : runtime) (n : nat) (m d : dict) (info : cooling_info) :
  session_state E n m d info ->
  ci_cooling_start info = clock E (1 + n) /\
  ci_cooling_end info = clock E (2 + n) + timedelta_hours cooling_period_hours /\
  ci_original_message info = m /\
  ci_server_details info = get_default d "server_details" (VDict []) /\
  ci_poweroff_timestamp info =
    get_default d "poweroff_timestamp" (VStr (isoformat E (clock E n))) /\
  0 <= ci_check_count info.
Proof.
  induction 1 as [| info t _ IH].
  - repeat split; try reflexivity; cbn; lia.
  - destruct IH as (H1 & H2 & H3 & H4 & H5 & H6).
    repeat split; try assumption; cbn; lia.
Qed.

Lemma session_state_json (E : runtime) (n : nat) (m d : dict) (info : cooling_info) :
  get_default m "data" (VDict []) = VDict d ->
  serializable (VDict m) = true ->
  session_state E n m d info ->
  json_session info = true.
Proof.
  intros Hd Hm Hs.
  destruct (session_state_fields E n m d info Hs) as (_ & _ & Hmsg & Hdet & Hts & _).
  pose proof (serializable_get_default m "data" (VDict []) Hm eq_refl) as Hdata.
  rewrite Hd in Hdata.
  unfold json_session. rewrite Hmsg, Hdet, Hts, Hm.
  rewrite (serializable_get_default d "server_details" (VDict []) Hdata eq_refl).
  rewrite (serializable_get_default d "poweroff_timestamp"
             (VStr (isoformat E (clock E n))) Hdata eq_refl).
  reflexivity.
Qed.

Lemma monitor_iteration_run (E : runtime) (w : world) (server_id : value) (r : nat)
    (info : cooling_info) :
  nth_error (heap w) r = Some info ->
  run (monitor_iteration server_id r) E w =
    if ci_cooling_end info <=? clock E (n_clock w)
    then match _handle_cooling_complete server_id r E (tick_clock w) with
         | (inr _, w') => (inr Break, w')
         | (inl e, w') => (inl e, w')
         end
    else (inr Continue, snd (run (_perform_power_check server_id r) E (tick_clock w))).
Proof.
  intros Hinfo. unfold run, monitor_iteration.
  cbv beta iota delta [bind now read_info get_world ret].
  cbn [heap tick_clock]. rewrite Hinfo. cbv beta iota.
  destruct (ci_cooling_end info <=? clock E (n_clock w)).
  - destruct (_handle_cooling_complete server_id r E (tick_clock w)) as [[e | u] w'];
      reflexivity.
  - destruct (perform_power_check_run E (tick_clock w) server_id r info Hinfo)
      as (ps & c & d & _ & _ & Hrun).
    cbv zeta in Hrun. unfold run in Hrun. rewrite Hrun. reflexivity.
Qed.

(** A turn of the monitor and the completion test: the turn takes the
    completion branch exactly when its clock reading is at or after the
    [cooling_end] of the session object; otherwise it makes a power check,
    stays in its loop and sends nothing but, possibly, a violation message.
    The session object holds one clock reading as [cooling_start] and the
    next one plus [cooling_period_hours] as [cooling_end].  On completion
    the monitor sends [demise_server] / [pending] with the cooling summary
    (start, end, actual completion, number of checks). *)
Lemma completion_turn (E : runtime) (n : nat) (m d : dict)
    (info : cooling_info) (w : world) (server_id : value) (r : nat) :
  get_default m "data" (VDict []) = VDict d ->
  serializable (VDict m) = true ->
  serializable server_id = true ->
  hashable server_id = true ->
  session_state E n m d info ->
  nth_error (heap w) r = Some info ->
  ci_cooling_start info = clock E (1 + n) /\
  ci_cooling_end info = clock E (2 + n) + timedelta_hours cooling_period_hours /\
  ((ci_cooling_end info <= clock E (n_clock w) /\
    (clock E (1 + n) <= clock E (2 + n) ->
     timedelta_hours cooling_period_hours
     <= clock E (n_clock w) - ci_cooling_start info) /\
    exists msg w',
      run (monitor_iteration server_id r) E w = (inr Break, w') /\
      produced w' = (produced w ++ [msg])%list /\
      get msg "action" = VStr "demise_server" /\
      get msg "status" = VStr "pending" /\
      get (payload_of msg) "cooling_completion" =
        VDict [ ("cooling_start", VStr (isoformat E (ci_cooling_start info)));
                ("cooling_end", VStr (isoformat E (ci_cooling_end info)));
                ("actual_completion", VStr (isoformat E (clock E (2 + n_clock w))));
                ("total_checks_performed", VInt (ci_check_count info));
                ("cooling_duration_hours", VInt cooling_period_hours) ])
   \/
   (clock E (n_clock w) < ci_cooling_end info /\
    exists w',
      run (monitor_iteration server_id r) E w = (inr Continue, w') /\
      (produced w' = produced w \/
       exists msg, produced w' = (produced w ++ [msg])%list /\
                   get msg "action" = VStr "cooling_violation_error"))).
Proof.
  intros Hd Hm Hsid Hh Hs Hinfo.
  destruct (session_state_fields E n m d info Hs) as (Hstart & Hend & Hmsg & _).
  pose proof (session_state_json E n m d info Hd Hm Hs) as Hj.
  split; [exact Hstart |]. split; [exact Hend |].
  rewrite (monitor_iteration_run E w server_id r info Hinfo).
  destruct (ci_cooling_end info <=? clock E (n_clock w)) eqn:Hle.
  - apply Z.leb_le in Hle. left.
    split; [exact Hle |].
    split; [intros Hmono; rewrite Hstart; lia |].
    assert (Hd' : get_default (ci_original_message info) "data" (VDict []) = VDict d)
      by (rewrite Hmsg; exact Hd).
    destruct (handle_cooling_complete_run E (tick_clock w) server_id r info d Hinfo Hd')
      as (msg & Hc & Hact & Hst & Hsum & Hser).
    rewrite Hc, (remove_session_run _ _ _ Hh).
    exists msg. eexists. split; [reflexivity |].
    split; [| repeat split; assumption].
    destruct (remove_session_frame E (sent msg (advance 2 1 0 (tick_clock w))) server_id)
      as (_ & _ & Hp & _).
    rewrite (remove_session_run _ _ _ Hh) in Hp. cbn [snd] in Hp. rewrite Hp.
    unfold sent. rewrite (Hser Hj Hsid).
    unfold produced. cbn. rewrite produced_of_app. reflexivity.
  - apply Z.leb_gt in Hle. right.
    split; [exact Hle |].
    eexists. split; [reflexivity |].
    assert (Hinfo' : nth_error (heap (tick_clock w)) r = Some info) by exact Hinfo.
    destruct (reports_powered_on E (tick_clock w) (ci_server_details info)) eqn:Hon.
    + destruct (perform_power_check_violation E (tick_clock w) server_id r info
                  Hinfo' Hj Hsid Hon)
        as (msg & w1 & ps & i & Hrun & Hprod & Hact & _).
      rewrite Hrun. cbn [snd]. right. exists msg. split; assumption.
    + destruct (status_update_suppressed_run E (tick_clock w) server_id r info
                  Hinfo' Hon) as (w1 & Hrun & Hprod).
      rewrite Hrun. cbn [snd]. left. exact Hprod.
Qed.

(** A session object is in one of the states of [session_state] from its
    creation on. *)
Lemma process_message_creates (E : runtime) (w : world) (m d : dict) :
  get_default m "data" (VDict []) = VDict d ->
  truthy (get d "server_id") = true ->
  hashable (get d "server_id") = true ->
  map_mem (cooling_sessions w) (get d "server_id") = false ->
  let w' := snd (run (process_message m) E w) in
  nth_error (heap w') (length (heap w)) = Some (new_session E (n_clock w) m d) /\
  map_find (cooling_sessions w') (get d "server_id") = Some (length (heap w)) /\
  session_state E (n_clock w) m d (new_session E (n_clock w) m d).
Proof.
  intros Hd Ht Hh Hm.
  destruct (process_message_starts_session E w m d Hd Ht Hh Hm) as (resp & Hrun & _).
  cbv zeta. rewrite Hrun. cbn [snd advance heap log set_threads set_sessions set_heap
                                cooling_sessions].
  split; [| split; [| constructor]].
  - rewrite nth_error_app2 by lia. now rewrite Nat.sub_diag.
  - clear Hrun. revert Hm. unfold map_mem.
    induction (cooling_sessions w) as [| [k a] l IH]; simpl.
    + intros _. destruct (get d "server_id"); try discriminate Hh; try discriminate Ht;
        simpl in *.
      * destruct b; [reflexivity | discriminate Ht].
      * unfold Qeq_bool. simpl. now rewrite Z.eqb_refl.
      * unfold Qeq_bool. simpl. now rewrite Z.eqb_refl.
      * now rewrite String.eqb_refl.
      * now rewrite Z.eqb_refl.
    + destruct (key_eqb (get d "server_id") k) eqn:Hk; [discriminate |].
      intros Hl. simpl. rewrite Hk. apply IH. exact Hl.
Qed.

Lemma perform_power_check_state (E : runtime) (n : nat) (m d : dict) (w w' : world)
    (server_id : value) (r : nat) (info : cooling_info) (res : exn + unit) :
  nth_error (heap w) r = Some info ->
  session_state E n m d info ->
  run (_perform_power_check server_id r) E w = (res, w') ->
  exists info', nth_error (heap w') r = Some info' /\ session_state E n m d info'.
Proof.
  intros Hinfo Hs Hrun.
  rewrite (perform_power_check_heap E w w' server_id r info res Hinfo Hrun).
  eexists. split; [apply (nth_error_update_same _ _ _ _ Hinfo) |].
  constructor. exact Hs.
Qed.

(** A check of another monitor leaves the session object alone. *)
Lemma perform_power_check_frame (E : runtime) (w w' : world) (server_id : value)
    (r r' : nat) (info : cooling_info) (res : exn + unit) :
  nth_error (heap w) r' = Some info ->
  r' <> r ->
  run (_perform_power_check server_id r') E w = (res, w') ->
  nth_error (heap w') r = nth_error (heap w) r.
Proof.
  intros Hinfo Hr Hrun.
  rewrite (perform_power_check_heap E w w' server_id r' info res Hinfo Hrun).
  apply nth_error_update_other. exact Hr.
Qed.

Example completion_turn_late :
  exists msg w',
    run (monitor_iteration (VStr "150") 0) late cooling_started_late = (inr Break, w') /\
    produced w' = [msg] /\
    get msg "action" = VStr "demise_server" /\
    timedelta_hours cooling_period_hours
    <= clock late (n_clock cooling_started_late)
       - ci_cooling_start (new_session late 0 cooling_request cooling_payload).
Proof.
  destruct (completion_turn late 0 cooling_request cooling_payload
              (new_session late 0 cooling_request cooling_payload)
              cooling_started_late (VStr "150") 0%nat)
    as (_ & _ & [(_ & Hel & msg & w' & Hrun & Hp & Ha & _) | (Hlt & _)]).
  - reflexivity.
  - reflexivity.
  - reflexivity.
  - reflexivity.
  - constructor.
  - reflexivity.
  - exists msg, w'. split; [exact Hrun |]. split; [exact Hp |]. split; [exact Ha |].
    apply Hel. vm_compute. discriminate.
  - exfalso. vm_compute in Hlt. discriminate Hlt.
Defined.

(** [cooling_start] and the base of [cooling_end] are two readings of the
    clock: the end of a session is not its start plus the period. *)
Lemma cooling_end_not_start_plus_period : ~ end_is_start_plus_period.
Proof.
  intros H.
  destruct (run (process_message cooling_request) sample initial_world)
    as [[e | resp] w'] eqn:Hrun; [vm_compute in Hrun; discriminate Hrun |].
  pose proof Hrun as Hc. vm_compute in Hc. injection Hc as <- <-.
  specialize (H sample initial_world _ cooling_request _ 0%nat _ Hrun eq_refl eq_refl).
  vm_compute in H. discriminate H.
Qed.

(** C5. The cooling window at a start with an advancing clock:
    [process_message] reads the clock once for [cooling_start] and once
    more for [cooling_end].  With readings one hour apart the session of
    server "150" starts at hour 1 and ends at hour 50; the acknowledgment
    reports this window beside [cooling_period_hours] 48.  The monitor
    tests against this [cooling_end]: at hour 49, when 48 hours have passed
    since [cooling_start], its turn makes a power check and stays in the
    loop; at hour 50 its turn completes and sends [demise_server]. *)
Theorem cooling_window_exceeds_period :
  exists ack w' info,
    run (process_message cooling_request) sample initial_world = (inr ack, w') /\
    nth_error (heap w') 0 = Some info /\
    ci_cooling_start info = hourly 1 /\
    ci_cooling_end info = hourly 50 /\
    ci_cooling_end info <> ci_cooling_start info + timedelta_hours cooling_period_hours /\
    get (payload_of ack) "cooling_period_hours" = VInt 48 /\
    get (payload_of ack) "cooling_start" = VStr (isoformat sample (hourly 1)) /\
    get (payload_of ack) "cooling_end" = VStr (isoformat sample (hourly 50)) /\
    clock period_over (n_clock w') = ci_cooling_start info + timedelta_hours 48 /\
    fst (run (monitor_iteration (VStr "150") 0) period_over w') = inr Continue /\
    produced (snd (run (monitor_iteration (VStr "150") 0) period_over w')) = [] /\
    clock sample (n_clock (advance 46 0 0 w')) = hourly 50 /\
    fst (run (monitor_iteration (VStr "150") 0) sample (advance 46 0 0 w')) = inr Break.
Proof.
  do 3 eexists.
  split; [vm_compute; reflexivity |].
  split; [reflexivity |].
  repeat split; try (vm_compute; reflexivity).
  vm_compute. discriminate.
Qed.




(** *** The monitor thread as a whole *)

Lemma handle_cooling_complete_raise (E : runtime) (w : world) (server_id : value)
    (r : nat) (info : cooling_info) :
  nth_error (heap w) r = Some info ->
  is_dict (get_default (ci_original_message info) "data" (VDict [])) = false ->
  exists e, _handle_cooling_complete server_id r E w = (inl e, advance 2 1 0 w).
Proof.
  intros Hinfo Hd. unfold _handle_cooling_complete.
  cbv beta iota delta [bind ask read_info get_world uuid4 now ret].
  cbn [heap tick_clock tick_uuid]. rewrite Hinfo. cbv beta iota.
  destruct (get_default (ci_original_message info) "data" (VDict []));
    try discriminate Hd; eexists; reflexivity.
Qed.

Lemma cleanup_thread_run (E : runtime) (w : world) (server_id : value) :
  hashable server_id = true ->
  exists w', cleanup_thread server_id E w = (inr tt, w') /\
             cooling_sessions w' = cooling_sessions w /\ heap w' = heap w.
Proof.
  intros Hh. unfold cleanup_thread, bind, get_world. rewrite Hh.
  destruct (map_mem (cooling_threads w) server_id); eexists; split; try reflexivity;
    split; reflexivity.
Qed.

(** A violation does not end the loop: the turn in which it is found
    returns [Continue], like every turn that makes a check. *)
Remark check_turn_continues (E : runtime) (w : world) (server_id : value) (r : nat)
    (info : cooling_info) :
  nth_error (heap w) r = Some info ->
  (ci_cooling_end info <=? clock E (n_clock w)) = false ->
  fst (run (monitor_iteration server_id r) E w) = inr Continue.
Proof.
  intros Hinfo Hlt. rewrite (monitor_iteration_run E w server_id r info Hinfo), Hlt.
  reflexivity.
Qed.

Lemma monitor_loop_end (E : runtime) (server_id : value) (r : nat) (fuel : nat) :
  hashable server_id = true ->
  forall (w : world) (info : cooling_info),
    nth_error (heap w) r = Some info ->
    exists res w',
      run (monitor_loop fuel server_id r) E w = (res, w') /\
      (exists info', nth_error (heap w') r = Some info') /\
      (res = inr Break -> map_mem (cooling_sessions w') server_id = false).
Proof.
  intros Hh. induction fuel as [| fuel IH]; intros w info Hinfo.
  - exists (inr Continue), w. split; [reflexivity |]. split; [eauto | discriminate].
  - unfold run. cbn [monitor_loop]. unfold bind at 1.
    change (monitor_iteration server_id r E w)
      with (run (monitor_iteration server_id r) E w).
    rewrite (monitor_iteration_run E w server_id r info Hinfo).
    destruct (ci_cooling_end info <=? clock E (n_clock w)).
    + destruct (is_dict (get_default (ci_original_message info) "data" (VDict [])))
        eqn:Hd.
      * destruct (get_default (ci_original_message info) "data" (VDict []))
          as [| | | | | | | d] eqn:Hdata; try discriminate Hd.
        destruct (handle_cooling_complete_run E (tick_clock w) server_id r info d
                    Hinfo Hdata) as (msg & Hc & _).
        rewrite Hc, (remove_session_run _ _ _ Hh).
        eexists; eexists. split; [reflexivity |].
        split; [| intros _; apply removed_absent].
        destruct (remove_session_frame E (sent msg (advance 2 1 0 (tick_clock w)))
                    server_id) as (Hheap & _).
        rewrite (remove_session_run _ _ _ Hh) in Hheap. cbn [snd] in Hheap.
        rewrite Hheap. unfold sent. destruct (serializable (VDict msg)); cbn; eauto.
      * destruct (handle_cooling_complete_raise E (tick_clock w) server_id r info
                    Hinfo Hd) as (e & Hc).
        rewrite Hc. eexists; eexists. split; [reflexivity |].
        split; [cbn; eauto | discriminate].
    + destruct (run (_perform_power_check server_id r) E (tick_clock w))
        as [res1 w1] eqn:Hcheck.
      pose proof (perform_power_check_heap E (tick_clock w) w1 server_id r info res1
                    Hinfo Hcheck) as Hheap.
      assert (Hinfo1 : nth_error (heap w1) r
                       = Some (checked info (clock E (n_clock (tick_clock w))))).
      { rewrite Hheap. apply (nth_error_update_same _ _ _ _ Hinfo). }
      cbn [snd]. exact (IH w1 _ Hinfo1).
Qed.

(** When the thread of a session has ended, by whichever branch, the
    server id is not in the session map. *)
Lemma monitor_end_removes_session (E : runtime) (fuel : nat) (w w' : world)
    (server_id : value) (r : nat) (info : cooling_info) :
  nth_error (heap w) r = Some info ->
  hashable server_id = true ->
  run (monitor_cooling_period fuel server_id r) E w = (inr Break, w') ->
  map_mem (cooling_sessions w') server_id = false.
Proof.
  intros Hinfo Hh. unfold run, monitor_cooling_period.
  destruct (monitor_loop_end E server_id r fuel Hh w info Hinfo)
    as (res & w1 & Hloop & (info1 & Hinfo1) & Hbreak).
  unfold run in Hloop. rewrite Hloop.
  destruct res as [e | [|]].
  - destruct (handle_cooling_error_run E w1 server_id r (exn_text e) info1 Hinfo1)
      as (msg & Herr & _).
    rewrite Herr, (remove_session_run _ _ _ Hh).
    destruct (cleanup_thread_run E (removed server_id (sent msg (advance 2 1 0 w1)))
                server_id Hh) as (w2 & Hclean & Hs & _).
    unfold bind. rewrite Hclean. intros H. injection H as <-.
    rewrite Hs. apply removed_absent.
  - discriminate.
  - destruct (cleanup_thread_run E w1 server_id Hh) as (w2 & Hclean & Hs & _).
    unfold bind. rewrite Hclean. intros H. injection H as <-.
    rewrite Hs. apply Hbreak. reflexivity.
Qed.

(** C7. Session destruction at a concrete run.  The first check of the
    session of server "150" finds the server powered on: its monitor sends
    the violation report, deletes the session and stays in its loop.  A
    new start message for the server creates a second session.  The next
    turn of the first monitor finds its cooling period over: it sends
    [demise_server], a second terminal message of the first session, and
    deletes the entry of the server once more, which is the entry of the
    second session; the thread of the second session is still on record
    and has sent no terminal message.  In the error branch, after a check
    has dated [last_check], the terminal message is not sent at all and
    the session is deleted all the same. *)
Theorem session_destruction_diverges :
  exists w1 w2 w3 w4 report ack handover,
    run (monitor_iteration (VStr "150") 0) always_on cooling_started_on
    = (inr Continue, w1) /\
    produced w1 = [report] /\
    get report "action" = VStr "cooling_violation_error" /\
    get report "pipeline_complete" = VBool true /\
    map_find (cooling_sessions w1) (VStr "150") = None /\
    run (_handle_message ServerCoolingPeriodProcessor.self cooling_request) always_on w1
    = (inr tt, w2) /\
    produced w2 = [report; ack] /\
    get ack "action" = VStr "cooling_period_started" /\
    map_find (cooling_sessions w2) (VStr "150") = Some 1%nat /\
    run (monitor_iteration (VStr "150") 0) always_on w2 = (inr Break, w3) /\
    produced w3 = [report; ack; handover] /\
    get handover "action" = VStr "demise_server" /\
    get handover "original_request_id" = get report "original_request_id" /\
    map_find (cooling_sessions w3) (VStr "150") = None /\
    map_find (cooling_threads w3) (VStr "150") = Some 1%nat /\
    deletions (trace w3) = [VStr "150"; VStr "150"] /\
    run (_handle_cooling_error (VStr "150") 0 "monitor failed") third_on after_one_check
    = (inr tt, w4) /\
    produced w4 = produced after_one_check /\
    map_find (cooling_sessions after_one_check) (VStr "150") = Some 0%nat /\
    map_find (cooling_sessions w4) (VStr "150") = None.
Proof.
  do 7 eexists.
  split; [vm_compute; reflexivity |].
  split; [reflexivity |].
  do 3 (split; [reflexivity |]).
  split; [vm_compute; reflexivity |].
  split; [reflexivity |].
  do 2 (split; [reflexivity |]).
  split; [vm_compute; reflexivity |].
  split; [reflexivity |].
  do 5 (split; [reflexivity |]).
  split; [vm_compute; reflexivity |].
  repeat split; reflexivity.
Qed.

(** ** Sessions of other servers *)

Lemma Qeq_bool_trans_l (x y z : Q) :
  Qeq_bool x y = true -> Qeq_bool z x = Qeq_bool z y.
Proof.
  intros H. apply Qeq_bool_iff in H.
  destruct (Qeq_bool z x) eqn:H1, (Qeq_bool z y) eqn:H2; try reflexivity.
  - apply Qeq_bool_iff in H1.
    assert (H3 : Qeq_bool z y = true) by (apply Qeq_bool_iff; rewrite H1; exact H).
    congruence.
  - apply Qeq_bool_iff in H2.
    assert (H3 : Qeq_bool z x = true)
      by (apply Qeq_bool_iff; rewrite H2; symmetry; exact H).
    congruence.
Qed.

(** Equal keys are equal to the same keys. *)
Lemma key_eqb_trans_l (a b c : value) :
  key_eqb a b = true -> key_eqb c a = key_eqb c b.
Proof.
  intros H.
  destruct a, b; cbn in H; try discriminate H;
    try (apply String.eqb_eq in H; subst; reflexivity);
    try (apply Z.eqb_eq in H; subst; reflexivity);
    try reflexivity;
    destruct c; try reflexivity;
    unfold key_eqb; cbn [Q_of_value]; apply Qeq_bool_trans_l; exact H.
Qed.

Lemma key_eqb_refl (k : value) : hashable k = true -> key_eqb k k = true.
Proof.
  destruct k; cbn; intros H; try discriminate H; try reflexivity.
  - destruct b; reflexivity.
  - apply Qeq_bool_refl.
  - apply Qeq_bool_refl.
  - apply String.eqb_refl.
  - apply Z.eqb_refl.
Qed.

Lemma map_find_set_same {A : Type} (m : list (value * A)) (k : value) (a : A) :
  hashable k = true -> map_find (map_set m k a) k = Some a.
Proof.
  intros Hh. induction m as [| [k' a'] m IH]; simpl.
  - now rewrite (key_eqb_refl k Hh).
  - destruct (key_eqb k k') eqn:Hk; simpl; rewrite Hk; [reflexivity | exact IH].
Qed.

Lemma map_find_set_other {A : Type} (m : list (value * A)) (k k' : value) (a : A) :
  key_eqb k' k = false -> map_find (map_set m k a) k' = map_find m k'.
Proof.
  intros Hk'. induction m as [| [k0 a0] m IH]; simpl.
  - now rewrite Hk'.
  - destruct (key_eqb k k0) eqn:Hk; simpl.
    + now rewrite <- (key_eqb_trans_l k k0 k' Hk), Hk'.
    + now rewrite IH.
Qed.

Lemma map_find_del_other {A : Type} (m : list (value * A)) (k k' : value) :
  key_eqb k' k = false -> map_find (map_del m k) k' = map_find m k'.
Proof.
  intros Hk'. induction m as [| [k0 a0] m IH]; simpl; [reflexivity |].
  destruct (key_eqb k k0) eqn:Hk; simpl.
  - rewrite <- (key_eqb_trans_l k k0 k' Hk), Hk'. exact IH.
  - now rewrite IH.
Qed.

(** ** The start of a session *)

Ltac world_simpl :=
  cbn [trace heap cooling_sessions cooling_threads n_clock n_uuid n_rand
       tick_clock tick_uuid tick_rand log set_heap set_sessions set_threads advance].

(** X10. A first start message: for a server id that is hashable, not
    empty and not in the session map, [process_message] creates one session
    object (no check made yet), enters it in the session map and starts one
    monitor thread for it, in this order; it answers
    [cooling_period_started] / [monitoring] with the start and the end of
    the period, an answer that is not terminal and that no stage accepts;
    the sessions of other servers are left as they are. *)
Theorem fresh_session_started (E : runtime) (w : world) (m d : dict) :
  get_default m "data" (VDict []) = VDict d ->
  truthy (get d "server_id") = true ->
  hashable (get d "server_id") = true ->
  map_mem (cooling_sessions w) (get d "server_id") = false ->
  exists resp w',
    run (process_message m) E w = (inr resp, w') /\
    get resp "action" = VStr "cooling_period_started" /\
    get resp "status" = VStr "monitoring" /\
    lookup resp "pipeline_complete" = None /\
    (forall q, In q processors -> accepts q resp = false) /\
    get (payload_of resp) "cooling_start"
    = VStr (isoformat E (clock E (1 + n_clock w))) /\
    get (payload_of resp) "cooling_end"
    = VStr (isoformat E (clock E (2 + n_clock w) + timedelta_hours 48)) /\
    trace w' = (trace w ++ [SessionPut (get d "server_id") (length (heap w));
                            ThreadStart (length (heap w))])%list /\
    map_find (cooling_sessions w') (get d "server_id") = Some (length (heap w)) /\
    map_find (cooling_threads w') (get d "server_id") = Some (length (heap w)) /\
    nth_error (heap w') (length (heap w)) = Some (new_session E (n_clock w) m d) /\
    produced w' = produced w /\
    others_untouched (get d "server_id") (length (heap w)) w w'.
Proof.
  intros Hd Ht Hh Hm.
  unfold run, process_message, try_except, bind. rewrite Hd. cbn [attr_get ret].
  change (get_default d "server_id" VNone) with (get d "server_id").
  rewrite Ht. cbn [negb]. unfold in_sessions. rewrite Hh.
  unfold bind, get_world, ret. rewrite Hm.
  cbn. eexists; eexists. split; [reflexivity |].
  split; [reflexivity |]. split; [reflexivity |]. split; [reflexivity |].
  split.
  { intros q Hq. simpl in Hq. destruct Hq as [<- | [<- | [<- | [<- | []]]]]; reflexivity. }
  split; [reflexivity |]. split; [reflexivity |].
  split; [world_simpl; now rewrite <- app_assoc |].
  split; [world_simpl; apply map_find_set_same; exact Hh |].
  split; [world_simpl; apply map_find_set_same; exact Hh |].
  split; [world_simpl; rewrite nth_error_app2 by lia; now rewrite Nat.sub_diag |].
  split.
  { unfold produced. world_simpl. rewrite !produced_of_app. cbn. now rewrite !app_nil_r. }
  split.
  - intros k Hk. world_simpl. apply map_find_set_other. exact Hk.
  - intros r' Hr. world_simpl.
    destruct (Nat.lt_ge_cases r' (length (heap w))) as [Hlt | Hge].
    + now rewrite nth_error_app1.
    + assert (Hn : nth_error (heap w) r' = None) by (apply nth_error_None; lia).
      rewrite Hn. apply nth_error_None. rewrite length_app. simpl. lia.
Qed.

Lemma fresh_session_started_witness :
  exists resp w',
    run (process_message cooling_request) sample initial_world = (inr resp, w') /\
    get resp "action" = VStr "cooling_period_started" /\
    trace w' = [SessionPut (VStr "150") 0; ThreadStart 0] /\
    map_find (cooling_sessions w') (VStr "150") = Some 0%nat.
Proof.
  destruct (fresh_session_started sample initial_world cooling_request cooling_payload)
    as (resp & w' & Hrun & Hact & _ & _ & _ & _ & _ & Htr & Hs & _).
  - reflexivity.
  - reflexivity.
  - reflexivity.
  - reflexivity.
  - exists resp, w'. repeat split; assumption.
Defined.

(** ** The monitor thread, turn by turn *)

Lemma removed_sent_frame (server_id : value) (msg : dict) (w : world) :
  let w' := removed server_id (sent msg w) in
  heap w' = heap w /\ cooling_threads w' = cooling_threads w /\
  n_clock w' = n_clock w /\
  produced w' = (produced w ++ (if serializable (VDict msg) then [msg] else []))%list /\
  map_mem (cooling_sessions w') server_id = false /\
  (forall k, key_eqb k server_id = false ->
             map_find (cooling_sessions w') k = map_find (cooling_sessions w) k).
Proof.
  cbv zeta.
  split; [| split; [| split; [| split; [| split; [apply removed_absent |]]]]];
    unfold removed, sent; destruct (serializable (VDict msg)); world_simpl;
    destruct (map_mem (cooling_sessions w) server_id); world_simpl;
    try reflexivity;
    try (unfold produced; world_simpl; rewrite ?produced_of_app; cbn;
         now rewrite ?app_nil_r);
    try (intros k Hk; world_simpl; apply map_find_del_other; exact Hk).
Qed.

Lemma json_session_parts (info : cooling_info) :
  json_session info = true ->
  serializable (VDict (ci_original_message info)) = true /\
  serializable (ci_server_details info) = true /\
  serializable (ci_poweroff_timestamp info) = true.
Proof.
  unfold json_session. intros Hj.
  apply andb_prop in Hj. destruct Hj as [Hj Hts].
  apply andb_prop in Hj. destruct Hj as [Hm Hd]. auto.
Qed.

(** The violation report, and the world after its handler. *)
Lemma violation_report (E : runtime) (w : world) (server_id : value)
    (r : nat) (ps : dict) (info : cooling_info) :
  nth_error (heap w) r = Some info ->
  hashable server_id = true ->
  exists msg,
    _handle_cooling_violation server_id r ps E w =
      (inr tt, removed server_id (sent msg (advance 4 1 0 w))) /\
    is_violation msg /\
    get msg "original_request_id" = request_id_of info /\
    get (payload_of msg) "server_id" = server_id /\
    (json_session info = true -> serializable (VDict ps) = true ->
     serializable server_id = true -> serializable (VDict msg) = true).
Proof.
  intros Hinfo Hh. unfold _handle_cooling_violation.
  step_handler Hinfo. rewrite (remove_session_run _ _ _ Hh).
  eexists. split; [reflexivity |].
  split; [repeat split |]. split; [reflexivity |]. split; [reflexivity |].
  intros Hj Hps Hsid. destruct (json_session_parts info Hj) as (Hm & Hd & _).
  unfold request_id_of. cbn.
  rewrite (serializable_get_default _ "original_request_id" _ Hm
             (serializable_get _ "id" Hm)).
  cbn in Hps. rewrite Hsid, Hd, Hps. reflexivity.
Qed.

(** The hand-over to the Demise stage, and the world after its handler. *)
Lemma handover_message (E : runtime) (w : world) (server_id : value)
    (r : nat) (info : cooling_info) (d : dict) :
  nth_error (heap w) r = Some info ->
  hashable server_id = true ->
  get_default (ci_original_message info) "data" (VDict []) = VDict d ->
  exists msg,
    _handle_cooling_complete server_id r E w =
      (inr tt, removed server_id (sent msg (advance 2 1 0 w))) /\
    is_handover msg /\
    get msg "original_request_id" = request_id_of info /\
    get (payload_of msg) "server_id" = server_id /\
    accepts ServerDemiseProcessor.self msg = true /\
    (forall q, In q processors -> accepts q msg = true -> stage q = Demise) /\
    (json_session info = true -> serializable server_id = true ->
     serializable (VDict msg) = true).
Proof.
  intros Hinfo Hh Hd. unfold _handle_cooling_complete.
  cbv beta iota delta [bind ask read_info get_world uuid4 now ret].
  cbn [heap tick_clock tick_uuid]. rewrite Hinfo.
  cbv beta iota. rewrite Hd. cbn [attr_get ret].
  cbv beta iota. rewrite send_response_run, (remove_session_run _ _ _ Hh).
  eexists. split; [reflexivity |].
  split; [split; reflexivity |]. split; [reflexivity |]. split; [reflexivity |].
  split; [reflexivity |].
  split.
  { intros q Hq. simpl in Hq.
    destruct Hq as [<- | [<- | [<- | [<- | []]]]]; cbn; intros H;
      try discriminate H; reflexivity. }
  intros Hj Hsid. destruct (json_session_parts info Hj) as (Hm & Hdet & Hts).
  pose proof (serializable_get_default _ "data" (VDict []) Hm eq_refl) as Hdata.
  rewrite Hd in Hdata.
  pose proof (serializable_get_default d "original_request" (VDict []) Hdata eq_refl) as Hreq.
  unfold request_id_of. cbn.
  rewrite (serializable_get_default _ "original_request_id" _ Hm
             (serializable_get _ "id" Hm)).
  rewrite Hsid, Hdet, Hts, Hreq. reflexivity.
Qed.

(** One turn of the loop of a monitor whose session [process_message]
    created from a JSON message. *)
Lemma monitor_turn (E : runtime) (n : nat) (m d : dict) (info : cooling_info)
    (w : world) (server_id : value) (r : nat) :
  get_default m "data" (VDict []) = VDict d ->
  serializable (VDict m) = true ->
  serializable server_id = true ->
  hashable server_id = true ->
  session_state E n m d info ->
  nth_error (heap w) r = Some info ->
  exists st w' out info',
    run (monitor_iteration server_id r) E w = (inr st, w') /\
    produced w' = (produced w ++ out)%list /\
    (if ci_cooling_end info <=? clock E (n_clock w)
     then st = Break /\
          exists msg, out = [msg] /\ is_handover msg /\
                      get msg "original_request_id" = request_id Cooling m /\
                      get (payload_of msg) "server_id" = server_id /\
                      accepts ServerDemiseProcessor.self msg = true /\
                      map_mem (cooling_sessions w') server_id = false
     else st = Continue /\
          if reports_powered_on E (tick_clock w) (ci_server_details info)
          then exists msg, out = [msg] /\ is_violation msg /\
                           get msg "original_request_id" = request_id Cooling m /\
                           get (payload_of msg) "server_id" = server_id /\
                           map_mem (cooling_sessions w') server_id = false
          else out = [] /\ cooling_sessions w' = cooling_sessions w) /\
    cooling_threads w' = cooling_threads w /\
    others_untouched server_id r w w' /\
    nth_error (heap w') r = Some info' /\
    session_state E n m d info' /\
    (n_clock w < n_clock w')%nat.
Proof.
  intros Hd Hm Hsid Hh Hs Hinfo.
  destruct (session_state_fields E n m d info Hs) as (_ & _ & Hmsg & _).
  pose proof (session_state_json E n m d info Hd Hm Hs) as Hj.
  assert (Hrid : request_id_of info = request_id Cooling m)
    by (unfold request_id_of; rewrite Hmsg; reflexivity).
  rewrite (monitor_iteration_run E w server_id r info Hinfo).
  destruct (ci_cooling_end info <=? clock E (n_clock w)) eqn:Hle.
  - assert (Hd' : get_default (ci_original_message info) "data" (VDict []) = VDict d)
      by (rewrite Hmsg; exact Hd).
    destruct (handover_message E (tick_clock w) server_id r info d Hinfo Hh Hd')
      as (msg & Hc & Hho & Hid & Hsrv & Hacc & _ & Hser).
    rewrite Hc.
    destruct (removed_sent_frame server_id msg (advance 2 1 0 (tick_clock w)))
      as (Hheap & Hth & Hclk & Hprod & Habs & Hoth).
    exists Break; eexists; exists [msg], info.
    split; [reflexivity |].
    split; [rewrite Hprod, (Hser Hj Hsid); reflexivity |].
    split.
    { split; [reflexivity |]. exists msg.
      split; [reflexivity |]. split; [exact Hho |].
      split; [now rewrite Hid |]. split; [exact Hsrv |].
      split; [exact Hacc | exact Habs]. }
    split; [rewrite Hth; reflexivity |].
    split.
    { split; [intros k Hk; now rewrite (Hoth k Hk) | intros r' _; now rewrite Hheap]. }
    split; [rewrite Hheap; exact Hinfo |].
    split; [exact Hs |]. rewrite Hclk. cbn. lia.
  - assert (Hinfo0 : nth_error (heap (tick_clock w)) r = Some info) by exact Hinfo.
    destruct (perform_power_check_run E (tick_clock w) server_id r info Hinfo0)
      as (ps & c & d' & Hon & Hpsser & Hrun).
    cbv zeta in Hrun. rewrite Hrun. cbn [snd].
    rewrite <- Hon.
    set (w1 := advance c 0 d'
                 (log (Oracle "_check_server_power_status" server_id)
                    (counted E (tick_clock w) r info))) in *.
    set (info1 := checked info (clock E (n_clock (tick_clock w)))).
    assert (Hr1 : nth_error (heap w1) r = Some info1).
    { cbn. apply (nth_error_update_same _ _ _ _ Hinfo). }
    assert (Hp1 : produced w1 = produced w).
    { unfold produced, w1, counted. world_simpl. rewrite produced_of_app. cbn.
      now rewrite app_nil_r. }
    assert (Hfr : forall r', r' <> r -> nth_error (heap w1) r' = nth_error (heap w) r').
    { intros r' Hr. unfold w1, counted. world_simpl.
      apply nth_error_update_other. congruence. }
    destruct (truthy (get ps "is_powered_on")) eqn:Hp.
    + destruct (violation_report E w1 server_id r ps info1 Hr1 Hh)
        as (msg & Hv & Hvio & Hid & Hsrv & Hser).
      rewrite Hv. cbn [snd].
      destruct (removed_sent_frame server_id msg (advance 4 1 0 w1))
        as (Hheap & Hth & Hclk & Hprod & Habs & Hoth).
      destruct (json_session_parts info Hj) as (_ & Hdet & _).
      exists Continue; eexists; exists [msg], info1.
      split; [reflexivity |].
      split.
      { rewrite Hprod, (Hser Hj (Hpsser Hdet) Hsid).
        change (produced (advance 4 1 0 w1)) with (produced w1). now rewrite Hp1. }
      split.
      { split; [reflexivity |]. exists msg.
        split; [reflexivity |]. split; [exact Hvio |].
        split; [rewrite Hid; exact Hrid |]. split; [exact Hsrv | exact Habs]. }
      split; [rewrite Hth; reflexivity |].
      split.
      { split; [intros k Hk; now rewrite (Hoth k Hk) |].
        intros r' Hr. rewrite Hheap. exact (Hfr r' Hr). }
      split; [rewrite Hheap; exact Hr1 |].
      split; [constructor; exact Hs |].
      rewrite Hclk. unfold w1, counted. world_simpl. lia.
    + exists Continue; eexists; exists [], info1.
      split; [reflexivity |].
      split.
      { change (produced (advance 2 1 0 w1)) with (produced w1).
        now rewrite Hp1, app_nil_r. }
      split; [split; [reflexivity | split; reflexivity] |].
      split; [reflexivity |].
      split; [split; [intros k _; reflexivity | exact Hfr] |].
      split; [exact Hr1 |].
      split; [constructor; exact Hs |].
      unfold w1, counted. world_simpl. lia.
Qed.

Lemma others_untouched_trans (server_id : value) (r : nat) (w1 w2 w3 : world) :
  others_untouched server_id r w1 w2 -> others_untouched server_id r w2 w3 ->
  others_untouched server_id r w1 w3.
Proof.
  intros [Hs1 Hh1] [Hs2 Hh2]. split.
  - intros k Hk. now rewrite (Hs2 k Hk), (Hs1 k Hk).
  - intros r' Hr. now rewrite (Hh2 r' Hr), (Hh1 r' Hr).
Qed.

Section Monitor.
Variables (E : runtime) (n : nat) (m d : dict) (server_id : value) (r : nat).
Hypothesis Hd : get_default m "data" (VDict []) = VDict d.
Hypothesis Hm : serializable (VDict m) = true.
Hypothesis Hsid : serializable server_id = true.
Hypothesis Hh : hashable server_id = true.

Lemma monitor_loop_outcome (fuel : nat) :
  forall (w : world) (info : cooling_info),
    session_state E n m d info ->
    nth_error (heap w) r = Some info ->
    exists st w' out info',
      run (monitor_loop fuel server_id r) E w = (inr st, w') /\
      produced w' = (produced w ++ out)%list /\
      monitor_output st out /\
      Forall (concerns m server_id) out /\
      (st = Break -> map_mem (cooling_sessions w') server_id = false) /\
      cooling_threads w' = cooling_threads w /\
      others_untouched server_id r w w' /\
      nth_error (heap w') r = Some info' /\
      session_state E n m d info'.
Proof.
  induction fuel as [| fuel IH]; intros w info Hs Hinfo.
  - exists Continue, w, [], info.
    split; [reflexivity |]. split; [now rewrite app_nil_r |].
    split; [constructor |]. split; [constructor |]. split; [discriminate |].
    split; [reflexivity |].
    split; [split; reflexivity |]. split; assumption.
  - destruct (monitor_turn E n m d info w server_id r Hd Hm Hsid Hh Hs Hinfo)
      as (st1 & w1 & out1 & info1 & Hrun1 & Hp1 & Hcase & Hth1 & Hoth1 & Hinfo1 & Hs1 & _).
    unfold run in *. cbn [monitor_loop]. unfold bind at 1. rewrite Hrun1.
    destruct (ci_cooling_end info <=? clock E (n_clock w)).
    + destruct Hcase as (-> & msg & -> & Hho & Hid & Hsrv & _ & Habs).
      exists Break, w1, [msg], info1.
      split; [reflexivity |]. split; [exact Hp1 |].
      split; [exists [], msg; repeat split; [constructor | apply Hho ..] |].
      split; [constructor; [split; assumption | constructor] |].
      split; [intros _; exact Habs |].
      repeat split; try assumption; apply Hoth1.
    + destruct Hcase as (-> & Hcase).
      assert (Hout1 : Forall is_violation out1 /\ Forall (concerns m server_id) out1).
      { destruct (reports_powered_on E (tick_clock w) (ci_server_details info)).
        - destruct Hcase as (msg & -> & Hv & Hid & Hsrv & _).
          split; [exact (Forall_cons _ Hv (Forall_nil _)) |].
          exact (Forall_cons _ (conj Hid Hsrv) (Forall_nil _)).
        - destruct Hcase as (-> & _). split; constructor. }
      destruct Hout1 as (Hv1 & Hc1).
      destruct (IH w1 info1 Hs1 Hinfo1)
        as (st2 & w2 & out2 & info2 & Hrun2 & Hp2 & Hout2 & Hc2 & Habs & Hth2 & Hoth2
            & Hinfo2 & Hs2).
      exists st2, w2, (out1 ++ out2)%list, info2.
      split; [exact Hrun2 |].
      split; [now rewrite Hp2, Hp1, app_assoc |].
      split.
      { destruct st2; cbn in *.
        - apply Forall_app. split; assumption.
        - destruct Hout2 as (reports & msg & -> & Hrep & Hho).
          exists (out1 ++ reports)%list, msg.
          split; [now rewrite app_assoc |].
          split; [apply Forall_app; split; assumption | exact Hho]. }
      split; [apply Forall_app; split; assumption |].
      split; [exact Habs |].
      split; [now rewrite Hth2 |].
      split; [exact (others_untouched_trans _ _ _ _ _ Hoth1 Hoth2) |].
      split; assumption.
Qed.

Lemma monitor_thread_run (fuel : nat) (w : world) (info : cooling_info) :
  session_state E n m d info ->
  nth_error (heap w) r = Some info ->
  exists st w' out,
    run (monitor_cooling_period fuel server_id r) E w = (inr st, w') /\
    produced w' = (produced w ++ out)%list /\
    monitor_output st out /\
    Forall (concerns m server_id) out /\
    (st = Break -> map_mem (cooling_sessions w') server_id = false /\
                   map_mem (cooling_threads w') server_id = false) /\
    (forall k, key_eqb k server_id = false ->
               map_find (cooling_threads w') k = map_find (cooling_threads w) k) /\
    others_untouched server_id r w w'.
Proof.
  intros Hs Hinfo.
  destruct (monitor_loop_outcome fuel w info Hs Hinfo)
    as (st & w1 & out & info1 & Hrun & Hp & Hout & Hc & Habs & Hth & Hoth & _).
  unfold run in *. unfold monitor_cooling_period. rewrite Hrun.
  destruct st.
  - exists Continue, w1, out.
    split; [reflexivity |]. split; [exact Hp |]. split; [exact Hout |].
    split; [exact Hc |]. split; [discriminate |].
    split; [intros k _; now rewrite Hth | exact Hoth].
  - unfold cleanup_thread. rewrite Hh. unfold bind, get_world, ret, modify.
    cbv beta iota.
    destruct (map_mem (cooling_threads w1) server_id) eqn:Hmem.
    + eexists; eexists; exists out. split; [reflexivity |].
      split; [exact Hp |]. split; [exact Hout |]. split; [exact Hc |].
      split; [intros _; split; [exact (Habs eq_refl) | apply map_mem_del] |].
      split; [| exact Hoth].
      intros k Hk. world_simpl. rewrite (map_find_del_other _ _ _ Hk). now rewrite Hth.
    + exists Break, w1, out. split; [reflexivity |].
      split; [exact Hp |]. split; [exact Hout |]. split; [exact Hc |].
      split; [intros _; split; [exact (Habs eq_refl) | exact Hmem] |].
      split; [intros k _; now rewrite Hth | exact Hoth].
Qed.

Lemma monitor_loop_ends (N : nat) :
  (forall i, (N <= i)%nat ->
             clock E (2 + n) + timedelta_hours cooling_period_hours <= clock E i) ->
  forall (k : nat) (w : world) (info : cooling_info),
    session_state E n m d info ->
    nth_error (heap w) r = Some info ->
    (N - n_clock w <= k)%nat ->
    exists fuel w',
      forall extra, run (monitor_loop (fuel + extra) server_id r) E w = (inr Break, w').
Proof.
  intros Hlate.
  induction k as [| k IH]; intros w info Hs Hinfo Hk;
    destruct (session_state_fields E n m d info Hs) as (_ & Hend & _);
    destruct (monitor_turn E n m d info w server_id r Hd Hm Hsid Hh Hs Hinfo)
      as (st1 & w1 & out1 & info1 & Hrun1 & _ & Hcase & _ & _ & Hinfo1 & Hs1 & Hclk);
    unfold run in *;
    destruct (ci_cooling_end info <=? clock E (n_clock w)) eqn:Hle.
  - destruct Hcase as (-> & _). exists 1%nat, w1. intros extra.
    cbn [Nat.add monitor_loop]. unfold bind at 1. now rewrite Hrun1.
  - apply Z.leb_gt in Hle. rewrite Hend in Hle.
    specialize (Hlate (n_clock w) ltac:(lia)). lia.
  - destruct Hcase as (-> & _). exists 1%nat, w1. intros extra.
    cbn [Nat.add monitor_loop]. unfold bind at 1. now rewrite Hrun1.
  - destruct Hcase as (-> & _).
    destruct (IH w1 info1 Hs1 Hinfo1 ltac:(lia)) as (fuel & w' & Hloop).
    exists (S fuel), w'. intros extra.
    cbn [Nat.add monitor_loop]. unfold bind at 1. rewrite Hrun1. apply Hloop.
Qed.

End Monitor.

(** X11. What a monitor thread sends: the thread of a session made from a
    JSON message never raises and never takes its error branch.  After any
    number of turns it is either still in its loop, having sent violation
    reports only, or it has ended, and then its last message is the
    hand-over [demise_server] / [pending] and every message before it is a
    violation report.  Each of its messages names the request and the
    server of the session; when the thread has ended, the server is in
    neither the session map nor the thread table. *)
Theorem monitor_thread_outcome (E : runtime) (n : nat) (m d : dict)
    (info : cooling_info) (w : world) (server_id : value) (r fuel : nat) :
  get_default m "data" (VDict []) = VDict d ->
  serializable (VDict m) = true ->
  serializable server_id = true ->
  hashable server_id = true ->
  session_state E n m d info ->
  nth_error (heap w) r = Some info ->
  exists st w' out,
    run (monitor_cooling_period fuel server_id r) E w = (inr st, w') /\
    produced w' = (produced w ++ out)%list /\
    monitor_output st out /\
    Forall (concerns m server_id) out /\
    (st = Break -> map_mem (cooling_sessions w') server_id = false /\
                   map_mem (cooling_threads w') server_id = false).
Proof.
  intros Hd Hm Hsid Hh Hs Hinfo.
  destruct (monitor_thread_run E n m d server_id r Hd Hm Hsid Hh fuel w info Hs Hinfo)
    as (st & w' & out & Hrun & Hp & Hout & Hc & Hend & _).
  exists st, w', out. repeat split; try assumption; apply Hend; assumption.
Qed.

Lemma monitor_thread_outcome_witness :
  exists st w' out,
    run (monitor_cooling_period 3 (VStr "150") 0) third_on cooling_started
    = (inr st, w') /\
    produced w' = (produced cooling_started ++ out)%list /\
    monitor_output st out.
Proof.
  destruct (monitor_thread_outcome third_on 0 cooling_request cooling_payload
              (new_session third_on 0 cooling_request cooling_payload)
              cooling_started (VStr "150") 0%nat 3%nat)
    as (st & w' & out & Hrun & Hp & Hout & _).
  - reflexivity.
  - reflexivity.
  - reflexivity.
  - reflexivity.
  - constructor.
  - reflexivity.
  - exists st, w', out. repeat split; assumption.
Defined.

(** X12. A monitor thread keeps to its own session: whatever it does in
    any number of turns, the entries of other servers in the session map
    and in the thread table and the session objects of other sessions are
    as they were. *)
Theorem monitor_thread_isolated (E : runtime) (n : nat) (m d : dict)
    (info : cooling_info) (w w' : world) (server_id : value) (r fuel : nat)
    (res : exn + loop_status) :
  get_default m "data" (VDict []) = VDict d ->
  serializable (VDict m) = true ->
  serializable server_id = true ->
  hashable server_id = true ->
  session_state E n m d info ->
  nth_error (heap w) r = Some info ->
  run (monitor_cooling_period fuel server_id r) E w = (res, w') ->
  others_untouched server_id r w w' /\
  (forall k, key_eqb k server_id = false ->
             map_find (cooling_threads w') k = map_find (cooling_threads w) k).
Proof.
  intros Hd Hm Hsid Hh Hs Hinfo Hrun.
  destruct (monitor_thread_run E n m d server_id r Hd Hm Hsid Hh fuel w info Hs Hinfo)
    as (st & w1 & out & Hrun1 & _ & _ & _ & _ & Hth & Hoth).
  rewrite Hrun in Hrun1. injection Hrun1 as _ ->.
  split; assumption.
Qed.

Lemma monitor_thread_isolated_witness :
  exists w',
    run (monitor_cooling_period 1 (VStr "150") 0) late two_sessions = (inr Break, w') /\
    map_find (cooling_sessions w') (VStr "150") = None /\
    map_find (cooling_sessions w') (VStr "151") = Some 1%nat.
Proof.
  eexists. split; [vm_compute; reflexivity |].
  split; [reflexivity |].
  refine (let H := monitor_thread_isolated late 0 cooling_request cooling_payload
                     (new_session late 0 cooling_request cooling_payload)
                     two_sessions _ (VStr "150") 0%nat 1%nat (inr Break)
                     _ _ _ _ _ _ _ in _).
  - destruct H as [[Hs _] _]. rewrite (Hs (VStr "151") eq_refl). reflexivity.
  Unshelve.
  all: try reflexivity.
  all: try constructor.
  all: try (vm_compute; reflexivity).
Defined.

(** X13. The monitor thread ends: when from some reading on the clock
    never shows less than the end of the cooling period, the thread of a
    session made from a JSON message ends after finitely many turns, and
    more turns allowed change nothing; it has then sent the hand-over
    [demise_server] / [pending] as its last message, and the server is in
    neither the session map nor the thread table. *)
Theorem monitor_thread_ends (E : runtime) (n : nat) (m d : dict)
    (info : cooling_info) (w : world) (server_id : value) (r N : nat) :
  get_default m "data" (VDict []) = VDict d ->
  serializable (VDict m) = true ->
  serializable server_id = true ->
  hashable server_id = true ->
  session_state E n m d info ->
  nth_error (heap w) r = Some info ->
  (forall i, (N <= i)%nat -> ci_cooling_end info <= clock E i) ->
  exists fuel w' out,
    (forall extra,
        run (monitor_cooling_period (fuel + extra) server_id r) E w = (inr Break, w')) /\
    produced w' = (produced w ++ out)%list /\
    monitor_output Break out /\
    map_mem (cooling_sessions w') server_id = false /\
    map_mem (cooling_threads w') server_id = false.
Proof.
  intros Hd Hm Hsid Hh Hs Hinfo Hlate.
  destruct (session_state_fields E n m d info Hs) as (_ & Hend & _).
  rewrite Hend in Hlate.
  destruct (monitor_loop_ends E n m d server_id r Hd Hm Hsid Hh N Hlate
              (N - n_clock w) w info Hs Hinfo (Nat.le_refl _))
    as (fuel & w1 & Hloop).
  destruct (cleanup_thread_run E w1 server_id Hh) as (w2 & Hclean & _).
  assert (Hthread : forall extra,
             run (monitor_cooling_period (fuel + extra) server_id r) E w
             = (inr Break, w2)).
  { intros extra. unfold run in *. unfold monitor_cooling_period.
    rewrite (Hloop extra). unfold bind. now rewrite Hclean. }
  destruct (monitor_thread_run E n m d server_id r Hd Hm Hsid Hh (fuel + 0) w info
              Hs Hinfo)
    as (st & w' & out & Hrun & Hp & Hout & _ & Habs & _).
  rewrite (Hthread 0%nat) in Hrun. injection Hrun as <- <-.
  exists fuel, w2, out.
  split; [exact Hthread |]. split; [exact Hp |]. split; [exact Hout |].
  exact (Habs eq_refl).
Qed.

Lemma monitor_thread_ends_witness :
  exists fuel w',
    run (monitor_cooling_period fuel (VStr "150") 0) late cooling_started_late
    = (inr Break, w') /\
    map_mem (cooling_sessions w') (VStr "150") = false.
Proof.
  destruct (monitor_thread_ends late 0 cooling_request cooling_payload
              (new_session late 0 cooling_request cooling_payload)
              cooling_started_late (VStr "150") 0%nat 4%nat)
    as (fuel & w' & out & Hrun & _ & _ & Hs & _).
  - reflexivity.
  - reflexivity.
  - reflexivity.
  - reflexivity.
  - constructor.
  - reflexivity.
  - intros i Hi. cbn [clock late sample_runtime].
    destruct (Nat.ltb_spec i 4) as [Hlt | _]; [lia |].
    vm_compute. discriminate.
  - exists (fuel + 0)%nat, w'. split; [apply Hrun | exact Hs].
Defined.

(** X14. A violation does not stop the hand-over: when a turn of the
    monitor finds the server powered on, it sends the violation report,
    removes the session and stays in its loop; when the next turn finds
    the cooling period over, it sends [demise_server] / [pending] for the
    same request and server, a message that the Demise stage accepts,
    although the session is no longer in the session map. *)
Theorem handover_after_violation (E : runtime) (n : nat) (m d : dict)
    (info : cooling_info) (w w1 w2 : world) (server_id : value) (r : nat)
    (res1 res2 : exn + loop_status) :
  get_default m "data" (VDict []) = VDict d ->
  serializable (VDict m) = true ->
  serializable server_id = true ->
  hashable server_id = true ->
  session_state E n m d info ->
  nth_error (heap w) r = Some info ->
  clock E (n_clock w) < ci_cooling_end info ->
  reports_powered_on E (tick_clock w) (ci_server_details info) = true ->
  run (monitor_iteration server_id r) E w = (res1, w1) ->
  ci_cooling_end info <= clock E (n_clock w1) ->
  run (monitor_iteration server_id r) E w1 = (res2, w2) ->
  res1 = inr Continue /\ res2 = inr Break /\
  map_mem (cooling_sessions w1) server_id = false /\
  exists report msg,
    produced w2 = (produced w ++ [report; msg])%list /\
    is_violation report /\ is_handover msg /\
    get msg "original_request_id" = get report "original_request_id" /\
    get (payload_of msg) "server_id" = server_id /\
    get (payload_of report) "server_id" = server_id /\
    accepts ServerDemiseProcessor.self msg = true.
Proof.
  intros Hd Hm Hsid Hh Hs Hinfo Hlt Hon Hrun1 Hle Hrun2.
  destruct (session_state_fields E n m d info Hs) as (_ & Hend & _).
  destruct (monitor_turn E n m d info w server_id r Hd Hm Hsid Hh Hs Hinfo)
    as (st1 & w1' & out1 & info1 & Hr1 & Hp1 & Hcase1 & _ & _ & Hinfo1 & Hs1 & _).
  rewrite Hrun1 in Hr1. injection Hr1 as -> <-.
  apply Z.leb_gt in Hlt. rewrite Hlt, Hon in Hcase1.
  destruct Hcase1 as (-> & report & -> & Hv & Hid1 & Hsrv1 & Habs1).
  destruct (session_state_fields E n m d info1 Hs1) as (_ & Hend1 & _).
  destruct (monitor_turn E n m d info1 w1 server_id r Hd Hm Hsid Hh Hs1 Hinfo1)
    as (st2 & w2' & out2 & info2 & Hr2 & Hp2 & Hcase2 & _).
  rewrite Hrun2 in Hr2. injection Hr2 as -> <-.
  rewrite Hend, <- Hend1 in Hle.
  apply Z.leb_le in Hle. rewrite Hle in Hcase2.
  destruct Hcase2 as (-> & msg & -> & Hho & Hid2 & Hsrv2 & Hacc & _).
  split; [reflexivity |]. split; [reflexivity |]. split; [exact Habs1 |].
  exists report, msg.
  split; [rewrite Hp2, Hp1, <- app_assoc; reflexivity |].
  split; [exact Hv |]. split; [exact Hho |].
  split; [now rewrite Hid1, Hid2 |].
  repeat split; assumption.
Qed.

Lemma handover_after_violation_witness :
  exists report msg,
    produced
      (snd (run (monitor_iteration (VStr "150") 0) always_on
              (snd (run (monitor_iteration (VStr "150") 0) always_on
                      cooling_started_on))))
    = (produced cooling_started_on ++ [report; msg])%list /\
    is_violation report /\
    accepts ServerDemiseProcessor.self msg = true.
Proof.
  destruct (handover_after_violation always_on 0 cooling_request cooling_payload
              (new_session always_on 0 cooling_request cooling_payload)
              cooling_started_on
              (snd (run (monitor_iteration (VStr "150") 0) always_on cooling_started_on))
              (snd (run (monitor_iteration (VStr "150") 0) always_on
                      (snd (run (monitor_iteration (VStr "150") 0) always_on
                              cooling_started_on))))
              (VStr "150") 0%nat (inr Continue) (inr Break))
    as (_ & _ & _ & report & msg & Hp & Hv & _ & _ & _ & _ & Hacc).
  - vm_compute. reflexivity.
  - vm_compute. reflexivity.
  - vm_compute. reflexivity.
  - vm_compute. reflexivity.
  - constructor.
  - vm_compute. reflexivity.
  - vm_compute. reflexivity.
  - vm_compute. reflexivity.
  - vm_compute. reflexivity.
  - vm_compute. discriminate.
  - vm_compute. reflexivity.
  - exists report, msg. split; [exact Hp |]. split; [exact Hv | exact Hacc].
Defined.

(** ** The status report *)

Lemma advance_tick (k : nat) (w : world) :
  advance k 0 0 (tick_clock w) = advance (S k) 0 0 w.
Proof. unfold advance, tick_clock. cbn. f_equal. lia. Qed.

Lemma session_statuses_run (E : runtime) (items : list (value * nat)) :
  forall w : world,
    (forall k r, In (k, r) items -> exists info, nth_error (heap w) r = Some info) ->
    exists reports,
      session_statuses items E w = (inr reports, advance (length items) 0 0 w) /\
      map fst reports = map fst items /\
      forall k r info,
        map_find items k = Some r ->
        nth_error (heap w) r = Some info ->
        exists report i,
          map_find reports k = Some report /\
          (n_clock w <= i < n_clock w + length items)%nat /\
          ss_cooling_start report = isoformat E (ci_cooling_start info) /\
          ss_cooling_end report = isoformat E (ci_cooling_end info) /\
          ss_remaining_hours report = hours_of (ci_cooling_end info - clock E i) /\
          ss_check_count report = ci_check_count info /\
          ss_status report = ci_status info.
Proof.
  induction items as [| [k0 r0] items IH]; intros w Hall.
  - exists []. split; [destruct w; reflexivity |]. split; [reflexivity |].
    intros k r info Hfind. discriminate Hfind.
  - destruct (Hall k0 r0 (or_introl eq_refl)) as (info0 & Hinfo0).
    destruct (IH (tick_clock w)) as (reports & Hrun & Hkeys & Hrep).
    { intros k r Hin. exact (Hall k r (or_intror Hin)). }
    cbn [session_statuses].
    cbv beta iota delta [bind ask read_info get_world now ret].
    rewrite Hinfo0. cbv beta iota. rewrite Hrun.
    eexists. split; [rewrite advance_tick; reflexivity |].
    split; [cbn; now rewrite Hkeys |].
    intros k r info Hfind Hinfo. cbn [map_find] in *.
    destruct (key_eqb k k0).
    + injection Hfind as <-. rewrite Hinfo0 in Hinfo. injection Hinfo as <-.
      eexists; exists (n_clock w). split; [reflexivity |].
      split; [cbn [length]; lia |]. repeat split.
    + destruct (Hrep k r info Hfind Hinfo) as (report & i & Hf & Hi & Hfacts).
      exists report, i. split; [exact Hf |].
      split; [cbn [length n_clock tick_clock] in *; lia | exact Hfacts].
Qed.

(** X15. The status report shows what the monitors have written: when
    every session of the map has its object, [get_cooling_status] returns
    a report and changes nothing but the number of clock readings, one for
    each session.  The report counts the sessions and lists the servers in
    the order of the map; for each server it gives the start and the end
    of the period, the hours that remain at one of these readings, and the
    check count that the session object has at this moment, which is the
    one the monitor thread updates. *)
Theorem cooling_status_reports (E : runtime) (w : world) :
  sessions_allocated w ->
  exists st w',
    run get_cooling_status E w = (inr st, w') /\
    w' = advance (length (cooling_sessions w)) 0 0 w /\
    cs_total_sessions st = length (cooling_sessions w) /\
    cs_active_servers st = map fst (cooling_sessions w) /\
    map fst (cs_sessions st) = cs_active_servers st /\
    forall server_id r info,
      map_find (cooling_sessions w) server_id = Some r ->
      nth_error (heap w) r = Some info ->
      exists report i,
        map_find (cs_sessions st) server_id = Some report /\
        (n_clock w <= i < n_clock w')%nat /\
        ss_cooling_start report = isoformat E (ci_cooling_start info) /\
        ss_cooling_end report = isoformat E (ci_cooling_end info) /\
        ss_remaining_hours report = hours_of (ci_cooling_end info - clock E i) /\
        ss_check_count report = ci_check_count info /\
        ss_status report = ci_status info.
Proof.
  intros Hall.
  destruct (session_statuses_run E (cooling_sessions w) w Hall)
    as (reports & Hrun & Hkeys & Hrep).
  unfold run, get_cooling_status, bind, get_world, ret. rewrite Hrun.
  eexists; eexists. split; [reflexivity |].
  split; [reflexivity |]. split; [reflexivity |]. split; [reflexivity |].
  split; [exact Hkeys |].
  intros server_id r info Hfind Hinfo.
  destruct (Hrep server_id r info Hfind Hinfo) as (report & i & Hf & Hi & Hfacts).
  exists report, i. split; [exact Hf |].
  split; [cbn [n_clock advance]; lia | exact Hfacts].
Qed.

Lemma cooling_status_reports_witness :
  exists st w' report,
    run get_cooling_status third_on after_one_check = (inr st, w') /\
    cs_total_sessions st = 1%nat /\
    map_find (cs_sessions st) (VStr "150") = Some report /\
    ss_check_count report = 1.
Proof.
  destruct (cooling_status_reports third_on after_one_check)
    as (st & w' & Hrun & _ & Htotal & _ & _ & Hrep).
  - intros k r Hin. vm_compute in Hin. destruct Hin as [Hin | []].
    injection Hin as <- <-. eexists. vm_compute. reflexivity.
  - destruct (Hrep (VStr "150") 0%nat
                (checked (new_session third_on 0 cooling_request cooling_payload)
                   (clock third_on 4)))
      as (report & i & Hf & _ & _ & _ & _ & Hcount & _).
    + reflexivity.
    + vm_compute. reflexivity.
    + exists st, w', report. split; [exact Hrun |]. split; [exact Htotal |].
      split; [exact Hf | exact Hcount].
Defined.
